(** * The PDF processing pipeline of [AIIntern Task/main.py]

    A shallow embedding of the pipeline (extract, summarise, keywords,
    persist, report) and the proofs of its specification.

    Python values are modelled as follows.
    - [str] is a sequence of Unicode code points ([list N]); its methods
      that depend on the Unicode database take the database as the
      [Unicode] interface.
    - [int] is [Z].  The floats of the TF-IDF weighting are binary64
      ([PrimFloat.float]); the floats of the report are the exact
      rationals they round ([Q]), so without rounding and overflow.
    - A call that can raise returns a [result]; code that also reads or
      writes the process and its surroundings runs in the monad [M].
      [print] raises on text that standard output cannot encode;
      [logging.error] returns.
    - The libraries the program calls (NLTK, numpy, scikit-learn, PyPDF2,
      pymongo, the operating system, multiprocessing) are interfaces,
      models of their documented behaviour, or parts of the state. *)

From Stdlib Require Import Floats ZArith QArith.
From stdpp Require Import gmap list strings sorting.

(** ** Python strings *)

Definition char := N.
Definition str := list N.

(** A source literal. *)
Definition py (s : string) : str :=
  (λ a, Ascii.N_of_ascii a) <$> String.list_ascii_of_string s.

(** [sep.join(l)] *)
Fixpoint str_join (sep : str) (l : list str) : str :=
  match l with
  | [] => []
  | [x] => x
  | x :: xs => x ++ sep ++ str_join sep xs
  end.

(** [s.endswith(suffix)] and [s.startswith(prefix)] *)
Definition endswith (s suffix : str) : bool := bool_decide (suffix `suffix_of` s).
Definition startswith (s prefix : str) : bool := bool_decide (prefix `prefix_of` s).

(** Lexicographic comparison of code points: [a < b] on [str]. *)
Fixpoint str_ltb (a b : str) : bool :=
  match a, b with
  | _, [] => false
  | [], _ :: _ => true
  | x :: a', y :: b' => (x <? y)%N || ((x =? y)%N && str_ltb a' b')
  end.

(** [sorted(l)] on strings: insertion into a sorted list, equal keys keep
    their order. *)
Fixpoint insert_sorted (x : str) (l : list str) : list str :=
  match l with
  | [] => [x]
  | y :: l' => if str_ltb x y then x :: l else y :: insert_sorted x l'
  end.
Definition sorted (l : list str) : list str := foldr insert_sorted [] l.

(** ** Python sequences *)

(** The bound of a slice: a negative bound counts from the end, and both
    are clipped to the sequence. *)
Definition slice_index (len : nat) (i : Z) : nat :=
  if bool_decide (i < 0)%Z then Z.to_nat (Z.max (Z.of_nat len + i) 0)
  else Nat.min (Z.to_nat i) len.

(** [l[start:]] and [l[:stop]] *)
Definition slice_from {A} (start : Z) (l : list A) : list A :=
  drop (slice_index (length l) start) l.
Definition slice_to {A} (stop : Z) (l : list A) : list A :=
  take (slice_index (length l) stop) l.

(** ** Exceptions

    Every exception the modelled calls raise is a subclass of
    [Exception]; [KeyboardInterrupt] and [SystemExit] are not modelled. *)

Inductive exn :=
  | ValueError (msg : str)
  | IndexError (msg : str)
  | ZeroDivisionError (msg : str)
  | OSError (msg : str)
  | UnicodeEncodeError (msg : str)
  | LibraryError (msg : str).

(** [str(e)] *)
Definition exn_str (e : exn) : str :=
  match e with
  | ValueError msg | IndexError msg | ZeroDivisionError msg
  | OSError msg | UnicodeEncodeError msg | LibraryError msg => msg
  end.

Inductive result (A : Type) :=
  | Ok (a : A)
  | Raise (e : exn).
Arguments Ok {A} a.
Arguments Raise {A} e.

#[global] Instance result_ret : MRet result := λ A a, Ok a.
#[global] Instance result_bind : MBind result := λ A B f m,
  match m with
  | Ok a => f a
  | Raise e => Raise e
  end.

(** [l[i]] for an index that is not negative. *)
Definition getitem {A} (l : list A) (i : nat) : result A :=
  match l !! i with
  | Some x => Ok x
  | None => Raise (IndexError (py "index out of range"))
  end.

(** A list comprehension whose element expression can raise. *)
Fixpoint comprehension {A B} (f : A → result B) (l : list A) : result (list B) :=
  match l with
  | [] => Ok []
  | x :: l' => y ← f x; ys ← comprehension f l'; mret (y :: ys)
  end.

(** ** Numbers of the report *)

Inductive number :=
  | PyInt (z : Z)
  | PyFloat (q : Q).

Definition number_value (x : number) : Q :=
  match x with
  | PyInt z => inject_Z z
  | PyFloat q => q
  end.

(** [x / y]: true division, which raises on a zero divisor. *)
Definition truediv (x y : number) : result number :=
  if Qeq_bool (number_value y) 0 then Raise (ZeroDivisionError (py "division by zero"))
  else Ok (PyFloat (number_value x / number_value y)).

(** A formatted string literal: text, [{x}] and [{x:.2f}] fields. *)
Inductive fragment :=
  | Lit (s : str)
  | Field (x : number)
  | Fixed2 (x : number).
Definition fstring := list fragment.

(** ** Text that standard output takes

    [sys.stdout] is a text stream in UTF-8 with the error handler
    [strict], as Python opens it on a UTF-8 locale.  Every code point has
    an encoding but the surrogates U+D800 to U+DFFF; a lone surrogate is
    what [os.listdir] puts into a name for each byte that is not valid
    UTF-8.  The numbers of a formatted string are ASCII. *)
Definition is_surrogate (c : char) : bool := (55296 <=? c)%N && (c <=? 57343)%N.
Definition encodable (s : str) : bool := forallb (λ c, negb (is_surrogate c)) s.
Definition printable (msg : fstring) : bool :=
  forallb (λ f, match f with Lit s => encodable s | Field _ | Fixed2 _ => true end) msg.

(** The exception of the encoder; the code point and the position its
    message names are left out. *)
Definition surrogates_not_allowed : exn :=
  UnicodeEncodeError (py "'utf-8' codec can't encode character: surrogates not allowed").

(** ** The Unicode database

    [isalpha_char], [isspace_char] and [isalnum_char] are CPython's
    [Py_UNICODE_ISALPHA], [Py_UNICODE_ISSPACE] and [Py_UNICODE_ISALNUM];
    [str_lower] is [str.lower], which can change the number of code
    points. *)

Class Unicode := {
  isalpha_char : char → bool;
  isspace_char : char → bool;
  isalnum_char : char → bool;
  str_lower : str → str;
}.

Section strings.
Context `{Unicode}.

(** [s.isalpha()]: every code point is a letter and there is one. *)
Definition str_isalpha (s : str) : bool :=
  forallb isalpha_char s && negb (bool_decide (s = [])).

(** [s.strip()] *)
Fixpoint lstrip (s : str) : str :=
  match s with
  | [] => []
  | c :: s' => if isspace_char c then lstrip s' else s
  end.
Definition strip (s : str) : str := reverse (lstrip (reverse (lstrip s))).

(** [\w] of the [re] module on [str] patterns. *)
Definition isword (c : char) : bool := isalnum_char c || (c =? 95)%N.

(** The maximal runs of word characters of a string, the empty runs
    between two other characters included. *)
Fixpoint word_runs (s : str) : list str :=
  match s with
  | [] => [[]]
  | c :: s' =>
      if isword c then
        match word_runs s' with
        | r :: rs => (c :: r) :: rs
        | [] => [[c]]
        end
      else [] :: word_runs s'
  end.

(** [re.compile(r"(?u)\b\w\w+\b").findall(doc)]: the maximal runs of two
    or more word characters. *)
Definition token_pattern (doc : str) : list str :=
  filter (λ t, 2 ≤ length t) (word_runs doc).
End strings.

(** ** NLTK: the tokenizers and the English stop-word list *)

Class NLTK := {
  sent_tokenize : str → list str;
  word_tokenize : str → list str;
  stopwords_english : list str;
}.

(** ** numpy: binary64 logarithm and index sort *)

Class Numpy := {
  np_log : float → float;
  argsort : list float → list nat;
}.

(** The order numpy sorts binary64 by: [a < b], with NaN after every
    other value. *)
Definition np_lt (a b : float) : bool :=
  (a <? b)%float || (PrimFloat.is_nan b && negb (PrimFloat.is_nan a)).
Definition np_le (a b : float) : bool := negb (np_lt b a).

(** What [argsort] promises: a permutation of the indices along which the
    values do not decrease.  The order of equal values is left open. *)
Class ArgsortSpec `{Numpy} : Prop := {
  argsort_perm : ∀ a : list float, argsort a ≡ₚ seq 0 (length a);
  argsort_sorted : ∀ (a : list float) (p q i j : nat) (x y : float),
    p < q → argsort a !! p = Some i → argsort a !! q = Some j →
    a !! i = Some x → a !! j = Some y → np_le x y = true;
}.

(** ** scikit-learn: [TfidfVectorizer] with its default parameters

    The weights are [float64] and their last bits depend on the order of
    the additions, so the model follows the storage of the libraries:
    scikit-learn 1.4 or later, whose transformer multiplies the IDF into
    the stored counts in place, SciPy's CSR matrices, whose row sums are
    [np.add.reduceat] over the stored values, and numpy's pairwise
    summation. *)

Section sklearn.
Context `{Unicode, Numpy}.

(** The analyzer: lower-case, then [token_pattern]. *)
Definition analyzer (doc : str) : list str := token_pattern (str_lower doc).

(** A count as [float64]. *)
Definition of_count (n : nat) : float :=
  PrimFloat.of_uint63 (Uint63.of_Z (Z.of_nat n)).

(** The number of times [t] occurs in [tokens]. *)
Definition term_count (t : str) (tokens : list str) : nat :=
  length (filter (λ u, u = t) tokens).

(** The number of documents [t] occurs in. *)
Definition document_frequency (t : str) (docs : list (list str)) : nat :=
  length (filter (λ tokens, t ∈ tokens) docs).

(** Smoothed inverse document frequency:
    [log((1 + n) / (1 + df)) + 1]. *)
Definition idf (n_samples df : nat) : float :=
  (np_log (of_count (n_samples + 1) / of_count (df + 1)) + 1)%float.

(** The fitted vectorizer: its vocabulary, in index order. *)
Record TfidfVectorizer := { vocabulary_ : list str }.

Definition get_feature_names_out (v : TfidfVectorizer) : list str := vocabulary_ v.

(** The vocabulary of a tokenized corpus: its distinct terms, sorted. *)
Definition build_vocabulary (docs : list (list str)) : list str :=
  sorted (remove_dups (concat docs)).

(** The distinct terms in the order in which [CountVectorizer] meets
    them: a term gets the next free index when it is first seen. *)
Definition first_occurrences (tokens : list str) : list str :=
  foldl (λ seen t, if bool_decide (t ∈ seen) then seen else seen ++ [t]) [] tokens.

(** A row of a CSR matrix: its stored values in their storage order,
    each with the term of its column. *)
Definition csr_row : Type := list (str * float).

(** A CSR matrix: the term of each column, in index order, and the
    rows. *)
Record csr_matrix := { columns : list str; rows : list csr_row }.

(** The terms a row stores, in storage order.  [CountVectorizer] sorts
    the indices of each row while the index of a term is still the rank
    of its first occurrence in the corpus; sorting the vocabulary then
    renames the columns and leaves the storage as it is. *)
Definition stored_terms (docs : list (list str)) (tokens : list str) : list str :=
  filter (λ t, t ∈ tokens) (first_occurrences (concat docs)).

(** The weight of a term in a document before normalisation: its count
    times its IDF. *)
Definition term_weight (docs : list (list str)) (tokens : list str) (t : str) : float :=
  (of_count (term_count t tokens) * idf (length docs) (document_frequency t docs))%float.

(** The row of a document before normalisation. *)
Definition weights (docs : list (list str)) (tokens : list str) : csr_row :=
  (λ t, (t, term_weight docs tokens t)) <$> stored_terms docs tokens.

(** The sum of the squares of a row, added from 0 in storage order. *)
Definition square_sum (row : csr_row) : float :=
  foldl (λ acc x, (acc + x * x)%float) 0%float (snd <$> row).

(** Row normalisation to unit Euclidean length; a zero row is kept. *)
Definition l2_normalize (row : csr_row) : csr_row :=
  let sum_ := square_sum row in
  if (sum_ =? 0)%float then row
  else (λ p, (p.1, (p.2 / PrimFloat.sqrt sum_)%float)) <$> row.

(** The weights of one document. *)
Definition tfidf_row (docs : list (list str)) (tokens : list str) : csr_row :=
  l2_normalize (weights docs tokens).

(** [vectorizer.fit_transform(raw_documents)]: one row of weights per
    document. *)
Definition fit_transform (raw_documents : list str)
    : result (TfidfVectorizer * csr_matrix) :=
  let docs := analyzer <$> raw_documents in
  let vocab := build_vocabulary docs in
  if bool_decide (vocab = []) then
    Raise (ValueError (py "empty vocabulary; perhaps the documents only contain stop words"))
  else Ok ({| vocabulary_ := vocab |},
           {| columns := vocab; rows := tfidf_row docs <$> docs |}).

(** numpy's sum of a block of 8 to 128 values: eight accumulators take
    the first eight values, every further full group of eight is added to
    them, the accumulators are added in pairs, and the values left over
    are added one by one. *)
Fixpoint accumulate8 (fuel : nat) (r a : list float) : list float * list float :=
  match fuel with
  | O => (r, a)
  | S fuel' =>
      if bool_decide (8 ≤ length a)
      then accumulate8 fuel' (zip_with PrimFloat.add r (take 8 a)) (drop 8 a)
      else (r, a)
  end.
Definition sum8 (r : list float) : float :=
  match r with
  | [r0; r1; r2; r3; r4; r5; r6; r7] =>
      (((r0 + r1) + (r2 + r3)) + ((r4 + r5) + (r6 + r7)))%float
  | _ => 0%float
  end.
Definition block_sum (a : list float) : float :=
  let '(r, rest) := accumulate8 (length a) (take 8 a) (drop 8 a) in
  foldl PrimFloat.add (sum8 r) rest.

(** numpy's pairwise summation: fewer than 8 values are added one by one
    from -0.0, up to 128 values as a block, and more are split in two
    parts, the first a multiple of 8.  [fuel] bounds the depth of the
    splitting; the number of values is enough. *)
Fixpoint pairwise_sum (fuel : nat) (a : list float) : float :=
  let n := length a in
  if bool_decide (n < 8) then foldl PrimFloat.add (- 0)%float a
  else if bool_decide (n ≤ 128) then block_sum a
  else
    match fuel with
    | O => block_sum a
    | S fuel' =>
        let n2 := n / 2 - (n / 2) mod 8 in
        (pairwise_sum fuel' (take n2 a) + pairwise_sum fuel' (drop n2 a))%float
    end.

(** [np.add.reduceat] on one segment: the first value, to which the
    pairwise sum of the others is added. *)
Definition add_reduce (a : list float) : float :=
  match a with
  | [] => 0%float
  | [d0] => d0
  | d0 :: rest => (d0 + pairwise_sum (length rest) rest)%float
  end.

(** [matrix.sum(axis=1).A1]: the sum of the stored values of each row, 0
    for a row that stores none. *)
Definition sum_axis1 (m : csr_matrix) : list float :=
  (λ row, add_reduce (snd <$> row)) <$> rows m.

(** A row of [matrix.toarray()]: every stored value is added to the
    zero of its column. *)
Definition dense_row (columns : list str) (row : csr_row) : list float :=
  (λ t, foldl (λ acc p, if bool_decide (p.1 = t) then (acc + p.2)%float else acc)
          0%float row) <$> columns.

(** [matrix.toarray()] *)
Definition toarray (m : csr_matrix) : list (list float) :=
  dense_row (columns m) <$> rows m.

(** [array.flatten()] *)
Definition flatten (m : list (list float)) : list float := concat m.
End sklearn.

(** ** Summarization and keyword extraction *)

Section text.
Context `{Unicode, NLTK, Numpy}.

(** [STOPWORDS = set(stopwords.words('english'))] *)
Definition STOPWORDS : gset str := list_to_set stopwords_english.

Definition summarize_text (text : str) (num_sentences : Z) : result str :=
  let sentences := sent_tokenize text in
  if bool_decide (Z.of_nat (length sentences) ≤ num_sentences)%Z then
    Ok (str_join (py " ") sentences)
  else
    '(vectorizer, sentence_vectors) ← fit_transform sentences;
    let sentence_ranks := sum_axis1 sentence_vectors in
    ranked_sentences ←
      comprehension (λ i, getitem sentences i)
        (slice_from (- num_sentences) (argsort sentence_ranks));
    Ok (str_join (py " ") ranked_sentences).

Definition extract_keywords (text : str) (num_keywords : Z) : result (list str) :=
  let words := word_tokenize text in
  let words :=
    str_lower <$>
      filter (λ word, str_isalpha word = true ∧ str_lower word ∉ STOPWORDS) words in
  '(vectorizer, vectors) ← fit_transform [str_join (py " ") words];
  let feature_array := get_feature_names_out vectorizer in
  let tfidf_sorting := reverse (argsort (flatten (toarray vectors))) in
  keywords ←
    comprehension (λ i, getitem feature_array i) (slice_to num_keywords tfidf_sorting);
  Ok keywords.
End text.

(** ** The process and its surroundings

    A path names a file, described by its size and by what
    [PdfReader] makes of it (the reader fails, or it yields pages whose
    [extract_text] fails or returns text), or a directory with its
    listing.  The collection is the MongoDB collection; [mongo_faults]
    holds the answers of the server to the coming insertions ([Some e]:
    the insertion raises [e]; none left: it succeeds). *)

Inductive node :=
  | File (size : Z) (pdf : result (list (result str)))
  | Dir (size : Z) (entries : list str).

Record document := {
  filename : str;
  path : str;
  size : Z;
  content : str;
  summary : str;
  keywords : list str;
}.

Record state := {
  report_data : gmap str Z;
  fs : gmap str node;
  collection : list document;
  mongo_faults : list (option exn);
  log : list fstring;
  stdout : list fstring;
}.

Definition set_report_data (d : gmap str Z) (st : state) : state :=
  {| report_data := d; fs := fs st; collection := collection st;
     mongo_faults := mongo_faults st; log := log st; stdout := stdout st |}.
Definition set_collection (c : list document) (st : state) : state :=
  {| report_data := report_data st; fs := fs st; collection := c;
     mongo_faults := mongo_faults st; log := log st; stdout := stdout st |}.
Definition set_mongo_faults (f : list (option exn)) (st : state) : state :=
  {| report_data := report_data st; fs := fs st; collection := collection st;
     mongo_faults := f; log := log st; stdout := stdout st |}.
Definition set_log (l : list fstring) (st : state) : state :=
  {| report_data := report_data st; fs := fs st; collection := collection st;
     mongo_faults := mongo_faults st; log := l; stdout := stdout st |}.
Definition set_stdout (o : list fstring) (st : state) : state :=
  {| report_data := report_data st; fs := fs st; collection := collection st;
     mongo_faults := mongo_faults st; log := log st; stdout := o |}.

(** Code with effects: a state transformer that returns or raises.  What
    was done before a [raise] stays done. *)
Definition M (A : Type) : Type := state → result A * state.

#[global] Instance M_ret : MRet M := λ A a st, (Ok a, st).
#[global] Instance M_bind : MBind M := λ A B f m st,
  match m st with
  | (Ok a, st') => f a st'
  | (Raise e, st') => (Raise e, st')
  end.

Definition raise {A} (e : exn) : M A := λ st, (Raise e, st).
Definition lift {A} (r : result A) : M A := λ st, (r, st).

(** [try: body except Exception as e: handler] *)
Definition try_except {A} (body : M A) (handler : exn → M A) : M A := λ st,
  match body st with
  | (Ok a, st') => (Ok a, st')
  | (Raise e, st') => handler e st'
  end.

(** [logging.error(msg)]: the record goes to the log file.  A handler
    that fails reports on [stderr] and does not raise, so the call
    returns; the file handler escapes what it cannot encode. *)
Definition logging_error (msg : fstring) : M unit := λ st,
  (Ok (), set_log (log st ++ [msg]) st).

(** [print(msg)]: the text is encoded as a whole before any of it is
    written, so a message with a surrogate raises and leaves the output
    as it was. *)
Definition print (msg : fstring) : M unit := λ st,
  if printable msg then (Ok (), set_stdout (stdout st ++ [msg]) st)
  else (Raise surrogates_not_allowed, st).

(** [report_data[key]] on the [defaultdict(int)]: a missing key is added
    with 0. *)
Definition report_get (key : str) : M Z := λ st,
  match report_data st !! key with
  | Some v => (Ok v, st)
  | None => (Ok 0%Z, set_report_data (<[key := 0%Z]> (report_data st)) st)
  end.
Definition report_set (key : str) (v : Z) : M unit := λ st,
  (Ok (), set_report_data (<[key := v]> (report_data st)) st).
(** [report_data[key] += n] *)
Definition report_add (key : str) (n : Z) : M unit :=
  v ← report_get key; report_set key (v + n)%Z.

(** *** [os] and [os.path] (POSIX) *)

Definition os_path_exists (p : str) : M bool := λ st,
  (Ok (bool_decide (is_Some (fs st !! p))), st).

Definition os_listdir (p : str) : M (list str) := λ st,
  match fs st !! p with
  | Some (Dir _ entries) => (Ok entries, st)
  | Some (File _ _) => (Raise (OSError (py "Not a directory")), st)
  | None => (Raise (OSError (py "No such file or directory")), st)
  end.

Definition os_path_getsize (p : str) : M Z := λ st,
  match fs st !! p with
  | Some (File size _) | Some (Dir size _) => (Ok size, st)
  | None => (Raise (OSError (py "No such file or directory")), st)
  end.

Definition os_path_join (a b : str) : str :=
  if startswith b (py "/") then b
  else if bool_decide (a = []) || endswith a (py "/") then a ++ b
  else a ++ py "/" ++ b.

(** The part after the last [/]. *)
Definition os_path_basename (p : str) : str :=
  foldl (λ acc c, if (c =? 47)%N then [] else acc ++ [c]) [] p.

(** *** PyPDF2: [open(file_path, 'rb')] then [PdfReader(f)] *)

Definition open_reader (file_path : str) (st : state) : result (list (result str)) :=
  match fs st !! file_path with
  | Some (File _ pdf) => pdf
  | Some (Dir _ _) => Raise (OSError (py "Is a directory"))
  | None => Raise (OSError (py "No such file or directory"))
  end.

(** *** pymongo: [collection.insert_one(metadata)] *)

Definition insert_one (metadata : document) : M unit := λ st,
  match mongo_faults st with
  | Some e :: faults => (Raise e, set_mongo_faults faults st)
  | None :: faults =>
      (Ok (), set_mongo_faults faults (set_collection (collection st ++ [metadata]) st))
  | [] => (Ok (), set_collection (collection st ++ [metadata]) st)
  end.

(** ** PDF ingestion *)

Definition list_pdfs (folder_path : str) : M (list str) :=
  entries ← os_listdir folder_path;
  mret (List.filter (λ f, endswith f (py ".pdf")) entries).

(** The loop of [parse_pdf] over the pages: the text read so far, and the
    exception that ended the loop if one did. *)
Fixpoint extract_pages (pages : list (result str)) (text : str) : str * option exn :=
  match pages with
  | [] => (text, None)
  | Ok page_text :: pages' => extract_pages pages' (text ++ (page_text ++ py " "))
  | Raise e :: _ => (text, Some e)
  end.

Definition parse_pdf (file_path : str) : M str := λ st,
  let text := [] in
  let '(text, raised) :=
    match open_reader file_path st with
    | Ok pages => extract_pages pages text
    | Raise e => (text, Some e)
    end in
  match raised with
  | Some e =>
      (Ok text,
       snd (logging_error
              [Lit (py "Error reading PDF " ++ file_path ++ py ": " ++ exn_str e)] st))
  | None => (Ok text, st)
  end.

Definition store_pdf_metadata (file_path parsed_text summary : str) (keywords : list str)
    : M unit :=
  size ← os_path_getsize file_path;
  let metadata :=
    {| filename := os_path_basename file_path;
       path := file_path;
       size := size;
       content := parsed_text;
       summary := summary;
       keywords := keywords |} in
  insert_one metadata;;
  print [Lit (py "Stored metadata for " ++ os_path_basename file_path)].

(** ** The processing flow *)

Section pipeline.
Context `{Unicode, NLTK, Numpy}.

(** The [try] block of [process_pdf]. *)
Definition process_pdf_try (file_path : str) : M unit :=
  text ← parse_pdf file_path;
  (if bool_decide (strip text = []) then
     raise (ValueError (py "Parsed PDF content is empty"))
   else mret ());;
  summary ← lift (summarize_text text 3);
  keywords ← lift (extract_keywords text 5);
  store_pdf_metadata file_path text summary keywords;;
  report_add (py "processed_files") 1;;
  size ← os_path_getsize file_path;
  report_add (py "total_size") size.

(** The [except Exception as e] block of [process_pdf]. *)
Definition process_pdf_except (file_path : str) (e : exn) : M unit :=
  logging_error [Lit (py "Error processing " ++ file_path ++ py ": " ++ exn_str e)];;
  report_add (py "failed_files") 1;;
  print [Lit (py "Error processing " ++ file_path ++ py ": " ++ exn_str e)].

Definition process_pdf (file_path : str) : M unit :=
  try_except (process_pdf_try file_path) (process_pdf_except file_path).
End pipeline.

(** ** [multiprocessing.Pool]

    [pool.map(f, tasks)] runs [f] in worker processes.  A worker is a
    separate process: it starts with a copy of the memory of the parent,
    so with its own [report_data], and what it writes there stays in the
    worker.  The file system, the MongoDB server, the log file and the
    terminal are outside the processes and shared.  [sched i] is the worker
    that runs task [i], [workers] the [report_data] of the workers that
    have run a task.  A task is run as one step, the tasks in the order of
    the list; the first exception of a task ends the map and is raised in
    the parent, and the tasks after it are not run (a pool may have
    started some of them before it is shut down). *)

Fixpoint pool_run {A} (sched : nat → nat) (f : str → M A) (i : nat) (tasks : list str)
    (workers : gmap nat (gmap str Z)) (st : state) : result (list A) * state :=
  match tasks with
  | [] => (Ok [], st)
  | task :: tasks' =>
      let parent := report_data st in
      let worker := default parent (workers !! sched i) in
      let '(r, st') := f task (set_report_data worker st) in
      match r with
      | Raise e => (Raise e, set_report_data parent st')
      | Ok y =>
          let '(rs, st'') :=
            pool_run sched f (S i) tasks' (<[sched i := report_data st']> workers)
              (set_report_data parent st') in
          (ys ← rs; mret (y :: ys), st'')
      end
  end.

Definition pool_map {A} (sched : nat → nat) (f : str → M A) (tasks : list str)
    : M (list A) :=
  pool_run sched f 0 tasks ∅.

(** ** Reporting *)

(** [total_size / total_processed if total_processed else 0] *)
Definition average_size (total_size total_processed : Z) : result number :=
  if bool_decide (total_processed ≠ 0%Z) then truediv (PyInt total_size) (PyInt total_processed)
  else Ok (PyInt 0).

Definition generate_report : M unit :=
  total_processed ← report_get (py "processed_files");
  total_failed ← report_get (py "failed_files");
  total_size ← report_get (py "total_size");
  avg_size ← lift (average_size total_size total_processed);
  print [Lit (10%N :: py "--------- PDF Processing Report ---------")];;
  print [Lit (py "Total PDFs processed: "); Field (PyInt total_processed)];;
  print [Lit (py "Total PDFs failed: "); Field (PyInt total_failed)];;
  total_kb ← lift (truediv (PyInt total_size) (PyInt 1024));
  print [Lit (py "Total file size processed: "); Fixed2 total_kb; Lit (py " KB")];;
  avg_kb ← lift (truediv avg_size (PyInt 1024));
  print [Lit (py "Average file size: "); Fixed2 avg_kb; Lit (py " KB")];;
  print [Lit (py "----------------------------------------")].

Section batch.
Context `{Unicode, NLTK, Numpy}.

(** [sched] is the schedule of the pool: the worker of each task. *)
Definition process_all_pdfs (sched : nat → nat) (pdf_dir : str) : M unit :=
  dir_exists ← os_path_exists pdf_dir;
  if negb dir_exists then
    print [Lit (py "Directory does not exist: " ++ pdf_dir)]
  else
    pdf_files ← list_pdfs pdf_dir;
    pool_map sched process_pdf ((λ pdf_file, os_path_join pdf_dir pdf_file) <$> pdf_files);;
    generate_report.
End batch.

(** ** Reference instances of the libraries

    The instances below run the model on concrete inputs.  Each one is
    exact on the inputs it is used on and simplified elsewhere. *)

Module Reference.

Definition between (lo hi c : N) : bool := (lo <=? c)%N && (c <=? hi)%N.

(** An excerpt of the Unicode database: the ASCII range, U+0130 LATIN
    CAPITAL LETTER I WITH DOT ABOVE, which is a letter and whose lower
    case is the two code points U+0069 U+0307, and U+0307 COMBINING DOT
    ABOVE, a mark, which is neither a letter nor a digit.  Every other
    code point is taken as a symbol. *)
Definition ucd_isalpha (c : char) : bool :=
  between 65 90 c || between 97 122 c || (c =? 304)%N.
Definition ucd_isspace (c : char) : bool :=
  between 9 13 c || between 28 32 c.
Definition ucd_isalnum (c : char) : bool :=
  ucd_isalpha c || between 48 57 c.
Definition ucd_lower_char (c : char) : str :=
  if between 65 90 c then [(c + 32)%N]
  else if (c =? 304)%N then [105%N; 775%N]
  else [c].
Definition ucd_lower (s : str) : str := s ≫= ucd_lower_char.

#[global] Instance ucd : Unicode := {|
  isalpha_char := ucd_isalpha;
  isspace_char := ucd_isspace;
  isalnum_char := ucd_isalnum;
  str_lower := ucd_lower;
|}.

(** A word tokenizer: white space separates tokens and every ASCII
    punctuation mark is a token of its own.  (NLTK also splits
    contractions and keeps some marks together.) *)
Definition ascii_punct (c : char) : bool :=
  between 33 47 c || between 58 64 c || between 91 96 c || between 123 126 c.
Fixpoint split_words (cur : str) (s : str) : list str :=
  match s with
  | [] => [cur]
  | c :: s' =>
      if ucd_isspace c then cur :: split_words [] s'
      else if ascii_punct c then cur :: [c] :: split_words [] s'
      else split_words (cur ++ [c]) s'
  end.
Definition simple_word_tokenize (text : str) : list str :=
  filter (λ t, t ≠ []) (split_words [] text).

(** A sentence tokenizer: a sentence ends at a full stop, question mark
    or exclamation mark that white space follows.  (NLTK's Punkt also
    knows abbreviations.) *)
Definition sent_end (c : char) : bool := (c =? 46)%N || (c =? 33)%N || (c =? 63)%N.
Fixpoint split_sentences (cur : str) (s : str) : list str :=
  match s with
  | [] => [cur]
  | c :: s' =>
      if sent_end c && match s' with d :: _ => ucd_isspace d | [] => false end
      then (cur ++ [c]) :: split_sentences [] s'
      else split_sentences (cur ++ [c]) s'
  end.
Definition simple_sent_tokenize (text : str) : list str :=
  filter (λ t, t ≠ []) (strip <$> split_sentences [] text).

(** Some of the words of NLTK's English stop-word list. *)
Definition some_stopwords : list str :=
  py <$> ["i"; "me"; "my"; "we"; "our"; "you"; "he"; "she"; "it"; "they";
          "the"; "a"; "an"; "and"; "but"; "if"; "or"; "of"; "at"; "by";
          "for"; "with"; "to"; "from"; "in"; "on"; "is"; "are"; "was";
          "were"; "be"; "been"; "this"; "that"; "these"; "those"; "not";
          "no"; "do"; "does"; "did"; "can"; "will"; "have"; "has"; "had"]%string.

#[global] Instance nltk : NLTK := {|
  sent_tokenize := simple_sent_tokenize;
  word_tokenize := simple_word_tokenize;
  stopwords_english := some_stopwords;
|}.

(** The natural logarithm of a finite positive binary64 by argument
    reduction and the series of the inverse hyperbolic tangent.  It is
    exact at 1, the only argument a corpus of one document gives it, and
    close to the rounded logarithm elsewhere. *)
Definition float_of_Z (z : Z) : float :=
  if bool_decide (z < 0)%Z then (- PrimFloat.of_uint63 (Uint63.of_Z (- z)))%float
  else PrimFloat.of_uint63 (Uint63.of_Z z).
Fixpoint atanh_series (n : nat) (k : float) (z2 power : float) : float :=
  match n with
  | O => 0%float
  | S n' => (power / k + atanh_series n' (k + 2) z2 (power * z2))%float
  end.
Definition series_log (x : float) : float :=
  let '(m, e) := FloatOps.Z.frexp x in
  let '(m, e) :=
    if (m <? 0x1.6a09e667f3bcdp-1)%float then ((2 * m)%float, (e - 1)%Z) else (m, e) in
  let z := ((m - 1) / (m + 1))%float in
  (float_of_Z e * 0x1.62e42fefa39efp-1 + 2 * atanh_series 14 1 (z * z) z)%float.

(** A stable index sort by insertion, as numpy runs on short arrays. *)
Fixpoint insert_index (a : list float) (i : nat) (l : list nat) : list nat :=
  match l with
  | [] => [i]
  | j :: l' =>
      if np_lt (List.nth j a 0%float) (List.nth i a 0%float) then j :: insert_index a i l'
      else i :: l
  end.
Definition insertion_argsort (a : list float) : list nat :=
  foldr (insert_index a) [] (seq 0 (length a)).

#[global] Instance numpy : Numpy := {|
  np_log := series_log;
  argsort := insertion_argsort;
|}.

End Reference.

(** ** Vocabulary of the statements *)

(** *** Counters, records and runs *)

(** The value a read of [report_data[key]] gives. *)
Definition counter (key : str) (st : state) : Z :=
  default 0%Z (report_data st !! key).

(** A string with no code point other than white space, the empty string
    included. *)
Definition blank `{Unicode} (s : str) : Prop :=
  ∀ c, c ∈ s → isspace_char c = true.

(** A computation all of whose runs are related by [R]: from every state
    it ends, returning or raising, in a state that [R] relates to it. *)
Definition steps {A} (R : relation state) (m : M A) : Prop :=
  ∀ st, R st (snd (m st)).

(** The collection grew by records whose content has a code point that is
    not white space. *)
Definition stored_nonblank `{Unicode} (st st' : state) : Prop :=
  ∃ new : list document,
    collection st' = collection st ++ new ∧
    Forall (λ d, ∃ c, c ∈ content d ∧ isspace_char c = false) new.

(** The counter [key] kept its value. *)
Definition keeps_counter (key : str) (st st' : state) : Prop :=
  counter key st' = counter key st.

(** The line [parse_pdf] logs for an exception. *)
Definition reading_error (file_path : str) (e : exn) : fstring :=
  [Lit (py "Error reading PDF " ++ file_path ++ py ": " ++ exn_str e)].

(** The line [process_pdf] logs and prints for an exception. *)
Definition processing_error (file_path : str) (e : exn) : fstring :=
  [Lit (py "Error processing " ++ file_path ++ py ": " ++ exn_str e)].

(** The page texts as [parse_pdf] accumulates them: each one followed by
    a space. *)
Definition pages_text (texts : list str) : str :=
  concat ((λ t, t ++ py " ") <$> texts).

(** All the sentences in their order with a single space between two
    consecutive ones: the first sentence, then every other sentence after
    one space. *)
Definition sentences_in_order (sentences : list str) : str :=
  match sentences with
  | [] => []
  | first :: others => first ++ concat ((λ s, 32%N :: s) <$> others)
  end.

(** *** Tokens and scores *)

(** The filtered token sequence of [extract_keywords]: the alphabetic
    tokens that are not stop words, in lower case. *)
Definition filtered_words `{Unicode, NLTK} (text : str) : list str :=
  str_lower <$>
    filter (λ word, str_isalpha word = true ∧ str_lower word ∉ STOPWORDS)
      (word_tokenize text).

(** The one document [extract_keywords] gives to the vectorizer, as the
    vectorizer tokenizes it. *)
Definition corpus_tokens `{Unicode, NLTK} (text : str) : list str :=
  analyzer (str_join (py " ") (filtered_words text)).

(** The array [extract_keywords] sorts: the weight of each term of the
    vocabulary in the one document, in the order of the vocabulary. *)
Definition keyword_scores `{Unicode, NLTK, Numpy} (text : str) : list float :=
  dense_row (build_vocabulary [corpus_tokens text])
    (tfidf_row [corpus_tokens text] (corpus_tokens text)).

(** The position of a term in a vocabulary. *)
Definition index_of (t : str) (vocab : list str) : option nat :=
  fst <$> list_find (λ u, u = t) vocab.

(** The TF-IDF score [extract_keywords] ranks the term [t] by: its weight
    in the one document made of the filtered tokens. *)
Definition term_score `{Unicode, NLTK, Numpy} (text : str) (t : str) : option float :=
  match fit_transform [str_join (py " ") (filtered_words text)] with
  | Ok (vectorizer, vectors) =>
      i ← index_of t (get_feature_names_out vectorizer); flatten (toarray vectors) !! i
  | Raise _ => None
  end.

(** The scores [summarize_text] ranks the sentences by: for each sentence
    the sum of its TF-IDF weights, the sentences of the text being the
    corpus. *)
Definition sentence_scores `{Unicode, NLTK, Numpy} (text : str) : list float :=
  match fit_transform (sent_tokenize text) with
  | Ok (_, sentence_vectors) => sum_axis1 sentence_vectors
  | Raise _ => []
  end.

(** The exception of a vectorizer that found no term. *)
Definition empty_vocabulary : exn :=
  ValueError (py "empty vocabulary; perhaps the documents only contain stop words").

(** *** Orders *)

(** [a <= b] on [str]. *)
Definition str_le (a b : str) : Prop := str_ltb b a = false.

(** The order of [np_lt] on the IEEE 754 values: a key whose
    lexicographic order is the order of the values, NaN last and the two
    zeros together. *)
Definition sf_key (a : spec_float) : Z * Z * Z :=
  match a with
  | S754_nan => (3, 0, 0)
  | S754_infinity false => (2, 0, 0)
  | S754_infinity true => (-2, 0, 0)
  | S754_zero _ => (0, 0, 0)
  | S754_finite false m e => (1, e, Z.pos m)
  | S754_finite true m e => (-1, - e, Z.neg m)
  end%Z.

Definition key_lt (a b : Z * Z * Z) : Prop :=
  let '(a1, a2, a3) := a in
  let '(b1, b2, b3) := b in
  (a1 < b1 ∨ (a1 = b1 ∧ (a2 < b2 ∨ (a2 = b2 ∧ a3 < b3))))%Z.

(** The values of [a] at two indices are in order. *)
Definition in_order (a : list float) (i j : nat) : Prop :=
  np_le (List.nth i a 0%float) (List.nth j a 0%float) = true.

(** *** States of the examples *)

(** A state with the given files and directories, fresh counters, an
    empty collection and a server that accepts every insertion. *)
Definition initial_state (nodes : list (str * node)) : state :=
  {| report_data := ∅; fs := list_to_map nodes; collection := [];
     mongo_faults := []; log := []; stdout := [] |}.

(** A directory with one PDF of one page and one other file. *)
Definition one_pdf : state :=
  initial_state
    [ (py "docs", Dir 4096 [py "a.pdf"; py "notes.txt"]);
      (py "docs/a.pdf", File 100 (Ok [Ok (py "Formal proofs check programs.")]));
      (py "docs/notes.txt", File 10 (Raise (LibraryError (py "EOF marker not found")))) ].

(** A PDF whose only page is white space. *)
Definition blank_pdf : state :=
  initial_state [(py "b.pdf", File 5 (Ok [Ok (py "  ")]))].

(** The statistics after three files of 100, 200 and 300 bytes. *)
Definition three_processed : state :=
  set_report_data
    (<[py "total_size" := 600%Z]> (<[py "processed_files" := 3%Z]> ∅))
    (initial_state []).


(** ** The MongoDB summary and the script *)

(** [for x in l: body] *)
Fixpoint for_each {A} (l : list A) (body : A → M unit) : M unit :=
  match l with
  | [] => mret ()
  | x :: l' => body x;; for_each l' body
  end.

(** A query sent to the server: it takes the next answer of the server,
    as an insertion does, and raises when that answer is an error. *)
Definition server_request : M unit := λ st,
  match mongo_faults st with
  | Some e :: faults => (Raise e, set_mongo_faults faults st)
  | None :: faults => (Ok (), set_mongo_faults faults st)
  | [] => (Ok (), st)
  end.

(** The documents the server holds. *)
Definition stored_documents : M (list document) := λ st, (Ok (collection st), st).

(** [collection.count_documents({})] *)
Definition count_documents : M Z :=
  server_request;;
  docs ← stored_documents;
  mret (Z.of_nat (length docs)).

(** The sum of the [size] fields of the collection. *)
Definition total_stored_size (docs : list document) : Z :=
  foldr Z.add 0%Z (size <$> docs).

(** The [avg_size] fields of the groups of the stage
    [{"$group": {"_id": None, "avg_size": {"$avg": "$size"}}}]: one group
    with the average of the sizes, and no group for an empty collection. *)
Definition avg_size_groups (docs : list document) : list number :=
  match docs with
  | [] => []
  | _ :: _ =>
      [PyFloat (inject_Z (total_stored_size docs) / inject_Z (Z.of_nat (length docs)))]
  end.

(** [collection.aggregate(pipeline)]: the command is sent when the cursor
    is made. *)
Definition aggregate_avg_size : M (list number) :=
  server_request;;
  docs ← stored_documents;
  mret (avg_size_groups docs).

Definition display_mongo_summary : M unit :=
  total_docs ← count_documents;
  avg_file_size ← aggregate_avg_size;
  print [Lit (10%N :: py "--------- MongoDB Summary ---------")];;
  print [Lit (py "Total documents in MongoDB: "); Field (PyInt total_docs)];;
  for_each avg_file_size (λ avg_size,
    avg_kb ← lift (truediv avg_size (PyInt 1024));
    print [Lit (py "Average file size in MongoDB: "); Fixed2 avg_kb; Lit (py " KB")]);;
  print [Lit (py "-----------------------------------")].

Section script.
Context `{Unicode, NLTK, Numpy}.

(** The statements of the [__main__] block before [client.close()], for
    the directory [pdf_dir].  [start_time] and [end_time] are the two
    readings of [time.time()], [repr] is [repr] on a list of strings. *)
Definition main_statements (repr : list str → str) (sched : nat → nat)
    (start_time end_time : Q) (pdf_dir : str) : M unit :=
  process_all_pdfs sched pdf_dir;;
  print [Lit (py "Processed all PDFs in "); Field (PyFloat (end_time - start_time));
         Lit (py " seconds")];;
  display_mongo_summary;;
  pdf_files ← list_pdfs pdf_dir;
  print [Lit (py "PDFs found: " ++ repr pdf_files)].

(** The [__main__] block: the statements on the directory of the source,
    then [client.close()].  The flag tells whether the client was closed,
    which is the case when the statements before returned. *)
Definition main (repr : list str → str) (sched : nat → nat) (start_time end_time : Q)
    (st : state) : result unit * state * bool :=
  match main_statements repr sched start_time end_time (py "PDF_Folder_Path") st with
  | (Ok _, st') => (Ok (), st', true)
  | (Raise e, st') => (Raise e, st', false)
  end.
End script.

(** [repr] of a list of strings without quotes, backslashes and control
    characters. *)
Definition simple_repr (l : list str) : str :=
  py "[" ++ str_join (py ", ") ((λ s, py "'" ++ s ++ py "'") <$> l) ++ py "]".

(** ** Vocabulary of the further statements *)

(** The record [store_pdf_metadata] builds. *)
Definition metadata_of (file_path : str) (size : Z) (parsed_text summary : str)
    (keywords : list str) : document :=
  {| filename := os_path_basename file_path; path := file_path; size := size;
     content := parsed_text; summary := summary; keywords := keywords |}.

(** The line [store_pdf_metadata] prints. *)
Definition stored_line (file_path : str) : fstring :=
  [Lit (py "Stored metadata for " ++ os_path_basename file_path)].

(** The six lines of the report for the given counts. *)
Definition report_lines (processed failed total : Z) (avg : number) : list fstring :=
  [ [Lit (10%N :: py "--------- PDF Processing Report ---------")];
    [Lit (py "Total PDFs processed: "); Field (PyInt processed)];
    [Lit (py "Total PDFs failed: "); Field (PyInt failed)];
    [Lit (py "Total file size processed: ");
     Fixed2 (PyFloat (inject_Z total / inject_Z 1024)); Lit (py " KB")];
    [Lit (py "Average file size: ");
     Fixed2 (PyFloat (number_value avg / inject_Z 1024)); Lit (py " KB")];
    [Lit (py "----------------------------------------")] ].


(** The state a [try] block of [process_pdf] that returns leaves: the
    state [st1] after the insertion, then the printed line and the two
    counters. *)
Definition counted (file_path : str) (size : Z) (st1 : state) : state :=
  let st2 := set_stdout (stdout st1 ++ [stored_line file_path]) st1 in
  let st3 :=
    set_report_data
      (<[py "processed_files" := (counter (py "processed_files") st2 + 1)%Z]>
         (report_data st2)) st2 in
  set_report_data
    (<[py "total_size" := (counter (py "total_size") st3 + size)%Z]> (report_data st3)) st3.

(** The message of the exception for a blank text. *)
Definition empty_content : exn := ValueError (py "Parsed PDF content is empty").

(** The directory of [one_pdf] when the server refuses the next
    insertion. *)
Definition one_pdf_server_down : state :=
  set_mongo_faults [Some (LibraryError (py "connection refused"))] one_pdf.

(** The lines of the MongoDB summary for a collection. *)
Definition summary_lines (docs : list document) : list fstring :=
  [ [Lit (10%N :: py "--------- MongoDB Summary ---------")];
    [Lit (py "Total documents in MongoDB: "); Field (PyInt (Z.of_nat (length docs)))] ]
  ++ match docs with
     | [] => []
     | _ :: _ =>
         [ [Lit (py "Average file size in MongoDB: ");
            Fixed2 (PyFloat (inject_Z (total_stored_size docs)
                             / inject_Z (Z.of_nat (length docs)) / inject_Z 1024));
            Lit (py " KB")] ]
     end
  ++ [ [Lit (py "-----------------------------------")] ].

(** The file system is as it was, and the answers the server has left
    are the last of those it had. *)
Definition same_outside (st st' : state) : Prop :=
  fs st' = fs st ∧ mongo_faults st' `suffix_of` mongo_faults st.

(** The errors of the server have messages that standard output can
    encode. *)
Definition printable_faults (st : state) : Prop :=
  ∀ e, Some e ∈ mongo_faults st → encodable (exn_str e) = true.

(** The lines the script prints around the run on [pdf_dir]. *)
Definition missing_line (pdf_dir : str) : fstring :=
  [Lit (py "Directory does not exist: " ++ pdf_dir)].
Definition timing_line (start_time end_time : Q) : fstring :=
  [Lit (py "Processed all PDFs in "); Field (PyFloat (end_time - start_time));
   Lit (py " seconds")].
Definition found_line (repr : list str → str) (pdf_files : list str) : fstring :=
  [Lit (py "PDFs found: " ++ repr pdf_files)].

(** The number of elements the slice [l[-k:]] of a list of [n] elements
    has when [k < n]: [k] of them for a positive [k], all of them for 0,
    and all but the first [-k] for a negative [k]. *)
Definition last_count (n : nat) (k : Z) : nat :=
  if bool_decide (0 < k)%Z then Z.to_nat k else n - Nat.min (Z.to_nat (- k)) n.

(** The number of elements of the slice [l[:k]] of a list of [n]
    elements: the first [k], at most [n], for [k] of 0 or more, and all
    but the last [-k] for a negative [k]. *)
Definition first_count (n : nat) (k : Z) : nat :=
  if bool_decide (0 ≤ k)%Z then Nat.min (Z.to_nat k) n else n - Nat.min (Z.to_nat (- k)) n.


(** *** Further states of the examples *)

(** A directory without a PDF. *)
Definition text_only : state :=
  initial_state [(py "notes", Dir 4096 [py "notes.txt"; py "todo.md"])].

(** A collection of two records, of 1024 and 3072 bytes. *)
Definition two_stored : state :=
  set_collection
    [ metadata_of (py "docs/a.pdf") 1024 (py "Birds fly. ") (py "Birds fly.") [py "birds"];
      metadata_of (py "docs/b.pdf") 3072 (py "Fish swim. ") (py "Fish swim.") [py "fish"] ]
    (initial_state []).

(** The directory of the script with one PDF of one page. *)
Definition script_folder : state :=
  initial_state
    [ (py "PDF_Folder_Path", Dir 4096 [py "a.pdf"]);
      (py "PDF_Folder_Path/a.pdf",
       File 100 (Ok [Ok (py "Formal proofs check programs.")])) ].

(** * Properties *)

(** ** The monad *)

Lemma M_bind_unfold {A B} (m : M A) (f : A → M B) (st : state) :
  (m ≫= f) st =
  match m st with
  | (Ok a, st') => f a st'
  | (Raise e, st') => (Raise e, st')
  end.
Proof. reflexivity. Qed.

Lemma M_bind_ok {A B} (m : M A) (f : A → M B) st a st' :
  m st = (Ok a, st') → (m ≫= f) st = f a st'.
Proof. intros Hm. rewrite M_bind_unfold, Hm. reflexivity. Qed.

(** ** Printing *)

Lemma encodable_app (a b : str) : encodable (a ++ b) = encodable a && encodable b.
Proof. apply forallb_app. Qed.

Lemma print_ok (msg : fstring) (st : state) :
  printable msg = true → print msg st = (Ok (), set_stdout (stdout st ++ [msg]) st).
Proof. intros Hp. unfold print. by rewrite Hp. Qed.

Lemma print_raise (msg : fstring) (st : state) :
  printable msg = false → print msg st = (Raise surrogates_not_allowed, st).
Proof. intros Hp. unfold print. by rewrite Hp. Qed.

(** A message made of literals and numbers can be printed. *)
Ltac printable_literals :=
  repeat match goal with
         | |- context [printable ?msg] => change (printable msg) with true; cbv iota
         end.

(** Whether it returns or raises, [print] writes nothing but the
    output. *)
Lemma print_world (msg : fstring) (st : state) :
  let st' := snd (print msg st) in
  report_data st' = report_data st ∧ fs st' = fs st ∧ collection st' = collection st ∧
  mongo_faults st' = mongo_faults st ∧ log st' = log st.
Proof. unfold print. by destruct (printable msg). Qed.

(** ** The counters of [report_data] *)

Lemma report_get_value key st : fst (report_get key st) = Ok (counter key st).
Proof. unfold report_get, counter. destruct (report_data st !! key); reflexivity. Qed.

Lemma report_get_counter key k st : counter k (snd (report_get key st)) = counter k st.
Proof.
  unfold report_get, counter.
  destruct (report_data st !! key) eqn:Hkey; simpl; [reflexivity|].
  destruct (decide (key = k)) as [->|Hne].
  - rewrite lookup_insert_eq, Hkey. reflexivity.
  - rewrite lookup_insert_ne by done. reflexivity.
Qed.

Lemma report_get_stdout key st : stdout (snd (report_get key st)) = stdout st.
Proof. unfold report_get. destruct (report_data st !! key); reflexivity. Qed.

Lemma report_get_run key st :
  report_get key st = (Ok (counter key st), snd (report_get key st)).
Proof. rewrite <- report_get_value. destruct (report_get key st); reflexivity. Qed.

(** ** C8: the report *)

Lemma truediv_nonzero (x : number) (z : Z) :
  z ≠ 0%Z → truediv x (PyInt z) = Ok (PyFloat (number_value x / inject_Z z)).
Proof.
  intros Hz. unfold truediv. simpl.
  destruct (Qeq_bool (inject_Z z) 0) eqn:Hq; [|reflexivity].
  apply Qeq_bool_iff in Hq. unfold Qeq in Hq. simpl in Hq. lia.
Qed.

Lemma average_size_total (total_size total_processed : Z) :
  average_size total_size total_processed =
  Ok (if bool_decide (total_processed = 0%Z) then PyInt 0
      else PyFloat (inject_Z total_size / inject_Z total_processed)).
Proof.
  unfold average_size.
  destruct (decide (total_processed = 0%Z)) as [->|Hne].
  - reflexivity.
  - rewrite bool_decide_eq_true_2, bool_decide_eq_false_2 by done.
    apply (truediv_nonzero (PyInt total_size)), Hne.
Qed.

(** C8. For every state of the statistics [generate_report] returns
    without raising, so no division by zero happens.  The average it
    computes is [total_size / processed_files] when [processed_files] is
    positive and the integer 0 when it is 0, and the report prints that
    average (in KB) after the counts. *)
Theorem generate_report_average (st : state) :
  let processed := counter (py "processed_files") st in
  let failed := counter (py "failed_files") st in
  let total := counter (py "total_size") st in
  ∃ (avg : number) (st' : state),
    average_size total processed = Ok avg ∧
    ((0 < processed)%Z → avg = PyFloat (inject_Z total / inject_Z processed)) ∧
    (processed = 0%Z → avg = PyInt 0) ∧
    generate_report st = (Ok (), st') ∧
    stdout st' = stdout st ++
      [ [Lit (10%N :: py "--------- PDF Processing Report ---------")];
        [Lit (py "Total PDFs processed: "); Field (PyInt processed)];
        [Lit (py "Total PDFs failed: "); Field (PyInt failed)];
        [Lit (py "Total file size processed: ");
         Fixed2 (PyFloat (inject_Z total / inject_Z 1024)); Lit (py " KB")];
        [Lit (py "Average file size: ");
         Fixed2 (PyFloat (number_value avg / inject_Z 1024)); Lit (py " KB")];
        [Lit (py "----------------------------------------")] ].
Proof.
  intros processed failed total.
  pose proof (average_size_total total processed) as Havg.
  set (avg := if bool_decide (processed = 0%Z) then PyInt 0
              else PyFloat (inject_Z total / inject_Z processed)) in Havg.
  set (st1 := snd (report_get (py "processed_files") st)).
  set (st2 := snd (report_get (py "failed_files") st1)).
  set (st3 := snd (report_get (py "total_size") st2)).
  assert (Hf : counter (py "failed_files") st1 = failed)
    by apply report_get_counter.
  assert (Ht : counter (py "total_size") st2 = total).
  { unfold st2. rewrite report_get_counter. apply report_get_counter. }
  assert (Hout : stdout st3 = stdout st).
  { unfold st3, st2, st1. rewrite !report_get_stdout. reflexivity. }
  assert (Hrun : generate_report st =
                 (lift (average_size total processed) ≫= λ avg_size,
                  print [Lit (10%N :: py "--------- PDF Processing Report ---------")];;
                  print [Lit (py "Total PDFs processed: "); Field (PyInt processed)];;
                  print [Lit (py "Total PDFs failed: "); Field (PyInt failed)];;
                  total_kb ← lift (truediv (PyInt total) (PyInt 1024));
                  print [Lit (py "Total file size processed: "); Fixed2 total_kb;
                         Lit (py " KB")];;
                  avg_kb ← lift (truediv avg_size (PyInt 1024));
                  print [Lit (py "Average file size: "); Fixed2 avg_kb; Lit (py " KB")];;
                  print [Lit (py "----------------------------------------")]) st3).
  { unfold generate_report.
    rewrite (M_bind_ok _ _ st processed st1) by apply report_get_run.
    rewrite (M_bind_ok _ _ st1 failed st2)
      by (rewrite <- Hf; apply report_get_run).
    rewrite (M_bind_ok _ _ st2 total st3)
      by (rewrite <- Ht; apply report_get_run).
    reflexivity. }
  clearbody st3. clear Hf Ht. clearbody st2 st1.
  rewrite Hrun. clear Hrun.
  unfold lift, print. rewrite !M_bind_unfold, Havg.
  rewrite (truediv_nonzero (PyInt total) 1024) by done.
  rewrite (truediv_nonzero avg 1024) by done.
  cbn [stdout set_stdout].
  exists avg. eexists. split; [reflexivity|].
  split; [|split; [|split; [reflexivity|]]].
  - intros Hpos. subst avg. rewrite bool_decide_eq_false_2 by lia. reflexivity.
  - intros Hzero. subst avg. rewrite bool_decide_eq_true_2 by done. reflexivity.
  - cbn [stdout set_stdout]. rewrite Hout, <- !(assoc_L (++)). reflexivity.
Qed.

(** ** C5: [parse_pdf] *)

Lemma extract_pages_ok (texts : list str) (text : str) :
  extract_pages (Ok <$> texts) text = (text ++ pages_text texts, None).
Proof.
  revert text. induction texts as [|t texts IH]; intros text; simpl.
  - unfold pages_text. simpl. rewrite app_nil_r. reflexivity.
  - rewrite IH. unfold pages_text. simpl. rewrite <- !(assoc_L (++)). reflexivity.
Qed.

Lemma extract_pages_raise (texts : list str) (e : exn) (rest : list (result str))
    (text : str) :
  extract_pages ((Ok <$> texts) ++ Raise e :: rest) text
  = (text ++ pages_text texts, Some e).
Proof.
  revert text. induction texts as [|t texts IH]; intros text; simpl.
  - unfold pages_text. simpl. rewrite app_nil_r. reflexivity.
  - rewrite IH. unfold pages_text. simpl. rewrite <- !(assoc_L (++)). reflexivity.
Qed.

Lemma parse_pdf_ok (file_path : str) (st : state) :
  ∃ text st', parse_pdf file_path st = (Ok text, st').
Proof.
  unfold parse_pdf.
  destruct (open_reader file_path st) as [pages|e].
  - destruct (extract_pages pages []) as [text [e|]]; eauto.
  - eauto.
Qed.

(** C5, the claim as stated fails: for a file of one page with the text
    [a], [parse_pdf] returns [a] followed by a space, which is not the
    page texts separated by a space. *)
Lemma parse_pdf_trailing_space :
  let st := initial_state [(py "a.pdf", File 1 (Ok [Ok (py "a")]))] in
  parse_pdf (py "a.pdf") st = (Ok (py "a "), st) ∧
  py "a " ≠ str_join (py " ") [py "a"].
Proof. split; [vm_compute; reflexivity | discriminate]. Qed.

(** C5, amended. [parse_pdf] never raises.  When the file opens and
    every page gives its text, it returns the page texts, each followed by
    a single space (so the result ends with a space), and logs nothing.
    When the file cannot be opened or the reader cannot be built, it
    returns the empty string and logs the error.  When a page fails, it
    returns the texts of the pages before it, each followed by a space,
    and logs the error. *)
Theorem parse_pdf_contract (file_path : str) (st : state) :
  (∃ text st', parse_pdf file_path st = (Ok text, st')) ∧
  (∀ texts : list str,
     open_reader file_path st = Ok (Ok <$> texts) →
     parse_pdf file_path st = (Ok (pages_text texts), st)) ∧
  (∀ e : exn,
     open_reader file_path st = Raise e →
     parse_pdf file_path st
     = (Ok [], set_log (log st ++ [reading_error file_path e]) st)) ∧
  (∀ (texts : list str) (e : exn) (rest : list (result str)),
     open_reader file_path st = Ok ((Ok <$> texts) ++ Raise e :: rest) →
     parse_pdf file_path st
     = (Ok (pages_text texts), set_log (log st ++ [reading_error file_path e]) st)).
Proof.
  split; [apply parse_pdf_ok|]. unfold parse_pdf. repeat split.
  - intros texts ->. rewrite extract_pages_ok. reflexivity.
  - intros e ->. reflexivity.
  - intros texts e rest ->. rewrite extract_pages_raise. reflexivity.
Qed.

(** The amended claim at a file of two pages. *)
Lemma parse_pdf_contract_witness :
  let st := initial_state
              [(py "a.pdf", File 2 (Ok [Ok (py "Hello"); Ok (py "world")]))] in
  parse_pdf (py "a.pdf") st = (Ok (py "Hello world "), st).
Proof.
  intros st.
  exact (proj1 (proj2 (parse_pdf_contract (py "a.pdf") st))
           [py "Hello"; py "world"] eq_refl).
Defined.

(** ** C7: a text of at most K sentences *)

Lemma str_join_space (sentences : list str) :
  str_join (py " ") sentences = sentences_in_order sentences.
Proof.
  destruct sentences as [|first others]; [reflexivity|].
  revert first. induction others as [|s others IH]; intros first.
  - simpl. rewrite app_nil_r. reflexivity.
  - change (str_join (py " ") (first :: s :: others))
      with (first ++ 32%N :: str_join (py " ") (s :: others)).
    rewrite IH. reflexivity.
Qed.

(** C7. When the text has at most [K] sentences, [summarize_text] returns
    all of them, in their order, joined by single spaces: the first
    sentence, then every other sentence of the segmentation after one
    space, none left out and none twice. *)
Theorem summarize_text_short `{Unicode, NLTK, Numpy} (text : str) (K : Z) :
  (Z.of_nat (length (sent_tokenize text)) ≤ K)%Z →
  summarize_text text K = Ok (sentences_in_order (sent_tokenize text)).
Proof.
  intros Hle. unfold summarize_text.
  rewrite bool_decide_eq_true_2 by exact Hle.
  rewrite str_join_space. reflexivity.
Qed.

(** C7 at a text of two sentences and the default [K = 3]. *)
Lemma summarize_text_short_witness :
  let text := py "Hello world. Good bye." in
  sent_tokenize text = [py "Hello world."; py "Good bye."] ∧
  summarize_text text 3 = Ok (sentences_in_order (sent_tokenize text)).
Proof.
  intros text. split; [vm_compute; reflexivity|].
  apply (summarize_text_short text 3).
  vm_compute. intros Hgt. discriminate Hgt.
Defined.

(** ** Runs that keep a relation *)

Section steps.
Context (R : relation state) `{!PreOrder R}.

Lemma steps_ret {A} (a : A) : steps R (mret a).
Proof. intros st. reflexivity. Qed.

Lemma steps_raise {A} (e : exn) : steps R (raise (A := A) e).
Proof. intros st. reflexivity. Qed.

Lemma steps_lift {A} (r : result A) : steps R (lift r).
Proof. intros st. reflexivity. Qed.

Lemma steps_bind {A B} (m : M A) (f : A → M B) :
  steps R m → (∀ a, steps R (f a)) → steps R (m ≫= f).
Proof.
  intros Hm Hf st. rewrite M_bind_unfold.
  specialize (Hm st). destruct (m st) as [[a|e] st1]; simpl in *.
  - etrans; [exact Hm|]. apply Hf.
  - exact Hm.
Qed.

Lemma steps_try_except {A} (body : M A) (handler : exn → M A) :
  steps R body → (∀ e, steps R (handler e)) → steps R (try_except body handler).
Proof.
  intros Hb Hh st. unfold try_except.
  specialize (Hb st). destruct (body st) as [[a|e] st1]; simpl in *.
  - exact Hb.
  - etrans; [exact Hb|]. apply Hh.
Qed.

(** A worker of the pool runs on its own [report_data]; the map keeps
    [R] when [R] does not look at [report_data]. *)
Lemma steps_pool_run {A} (sched : nat → nat) (f : str → M A) (tasks : list str) :
  (∀ d st, R st (set_report_data d st)) →
  (∀ task, steps R (f task)) →
  ∀ i workers st, R st (snd (pool_run sched f i tasks workers st)).
Proof.
  intros Hd Hf. induction tasks as [|task tasks IH]; intros i workers st; simpl.
  - reflexivity.
  - set (worker := default (report_data st) (workers !! sched i)).
    pose proof (Hf task (set_report_data worker st)) as Hrun.
    destruct (f task (set_report_data worker st)) as [[y|e] st1]; simpl in *.
    + specialize (IH (S i) (<[sched i := report_data st1]> workers)
                    (set_report_data (report_data st) st1)).
      destruct (pool_run sched f (S i) tasks _ _) as [rs st2]; simpl in *.
      etrans; [apply (Hd worker)|]. etrans; [exact Hrun|].
      etrans; [apply (Hd (report_data st))|]. exact IH.
    + etrans; [apply (Hd worker)|]. etrans; [exact Hrun|]. apply Hd.
Qed.
End steps.

#[global] Instance stored_nonblank_preorder `{Unicode} : PreOrder stored_nonblank.
Proof.
  split.
  - intros st. exists []. rewrite app_nil_r. split; [reflexivity|constructor].
  - intros st1 st2 st3 (new1 & H1 & F1) (new2 & H2 & F2).
    exists (new1 ++ new2). rewrite H2, H1, (assoc_L (++)). split; [reflexivity|].
    apply Forall_app. split; assumption.
Qed.

#[global] Instance keeps_counter_preorder (key : str) : PreOrder (keeps_counter key).
Proof.
  split.
  - intros st. reflexivity.
  - intros st1 st2 st3 H1 H2. unfold keeps_counter in *. congruence.
Qed.

(** A run that does not touch the collection. *)
Lemma stored_nonblank_same `{Unicode} (st st' : state) :
  collection st' = collection st → stored_nonblank st st'.
Proof. intros Hc. exists []. rewrite app_nil_r. split; [exact Hc|constructor]. Qed.

(** ** C10: what reaches the collection *)

Section stored.
Context `{Unicode, NLTK, Numpy}.

Lemma lstrip_nonblank (s : str) :
  lstrip s ≠ [] → ∃ c, c ∈ s ∧ isspace_char c = false.
Proof.
  induction s as [|c s IH]; simpl; [done|].
  destruct (isspace_char c) eqn:Hc.
  - intros Hs. destruct (IH Hs) as (d & Hd & Hsp).
    exists d. split; [by right | exact Hsp].
  - intros _. exists c. split; [by left | exact Hc].
Qed.

Lemma lstrip_blank (s : str) : blank s → lstrip s = [].
Proof.
  induction s as [|c s IH]; intros Hb; simpl; [reflexivity|].
  rewrite (Hb c) by left. apply IH. intros d Hd. apply Hb. by right.
Qed.

(** [not text.strip()] holds exactly for the blank strings. *)
Lemma strip_blank (s : str) : blank s → strip s = [].
Proof. intros Hb. unfold strip. rewrite (lstrip_blank s Hb). reflexivity. Qed.

Lemma strip_nonblank (s : str) :
  strip s ≠ [] → ∃ c, c ∈ s ∧ isspace_char c = false.
Proof.
  intros Hs. apply lstrip_nonblank. intros Hl. apply Hs.
  unfold strip. rewrite Hl. reflexivity.
Qed.

Lemma parse_pdf_collection file_path :
  steps stored_nonblank (parse_pdf file_path).
Proof.
  intros st. apply stored_nonblank_same. unfold parse_pdf.
  destruct (open_reader file_path st) as [pages|e]; [|reflexivity].
  destruct (extract_pages pages []) as [text [e|]]; reflexivity.
Qed.

Lemma report_add_collection key n : steps stored_nonblank (report_add key n).
Proof.
  intros st. apply stored_nonblank_same. unfold report_add, report_get, report_set.
  rewrite M_bind_unfold. destruct (report_data st !! key); reflexivity.
Qed.

Lemma report_set_collection key v : steps stored_nonblank (report_set key v).
Proof. intros st. apply stored_nonblank_same. reflexivity. Qed.

Lemma report_get_collection key : steps stored_nonblank (report_get key).
Proof.
  intros st. apply stored_nonblank_same. unfold report_get.
  destruct (report_data st !! key); reflexivity.
Qed.

Lemma os_path_getsize_collection p : steps stored_nonblank (os_path_getsize p).
Proof.
  intros st. apply stored_nonblank_same. unfold os_path_getsize.
  destruct (fs st !! p) as [[]|]; reflexivity.
Qed.

Lemma print_collection msg : steps stored_nonblank (print msg).
Proof. intros st. apply stored_nonblank_same. apply print_world. Qed.

Lemma logging_error_collection msg : steps stored_nonblank (logging_error msg).
Proof. intros st. apply stored_nonblank_same. reflexivity. Qed.

Lemma list_pdfs_collection p : steps stored_nonblank (list_pdfs p).
Proof.
  intros st. apply stored_nonblank_same. unfold list_pdfs, os_listdir.
  rewrite M_bind_unfold. destruct (fs st !! p) as [[]|]; reflexivity.
Qed.

(** The one place that writes to the collection. *)
Lemma insert_one_collection (metadata : document) :
  (∃ c, c ∈ content metadata ∧ isspace_char c = false) →
  steps stored_nonblank (insert_one metadata).
Proof.
  intros Hdoc st. unfold insert_one.
  destruct (mongo_faults st) as [|[e|] faults]; simpl.
  - exists [metadata]. split; [reflexivity|]. by constructor.
  - by apply stored_nonblank_same.
  - exists [metadata]. split; [reflexivity|]. by constructor.
Qed.

Lemma process_pdf_collection file_path :
  steps stored_nonblank (process_pdf file_path).
Proof.
  unfold process_pdf. apply steps_try_except; [apply _ | |].
  - unfold process_pdf_try.
    apply steps_bind; [apply _ | apply parse_pdf_collection |]. intros text.
    case_bool_decide as Hs.
    + intros st. rewrite M_bind_unfold. reflexivity.
    + repeat (apply steps_bind; [apply _ | | intros ?]);
        auto using steps_ret, steps_lift, report_get_collection,
          report_set_collection, os_path_getsize_collection, print_collection
          with typeclass_instances.
      apply insert_one_collection. simpl. apply strip_nonblank, Hs.
  - intros e. unfold process_pdf_except.
    repeat (apply steps_bind; [apply _ | | intros ?]);
      auto using logging_error_collection, report_get_collection,
        report_set_collection, print_collection.
Qed.

Lemma generate_report_collection : steps stored_nonblank generate_report.
Proof.
  unfold generate_report.
  repeat (apply steps_bind; [apply _ | | intros ?]);
    auto using steps_lift, report_get_collection, print_collection
      with typeclass_instances.
Qed.

Lemma set_report_data_collection d st : stored_nonblank st (set_report_data d st).
Proof. by apply stored_nonblank_same. Qed.

Lemma process_all_pdfs_collection sched pdf_dir :
  steps stored_nonblank (process_all_pdfs sched pdf_dir).
Proof.
  unfold process_all_pdfs.
  apply steps_bind; [apply _ | by intros st; apply stored_nonblank_same |].
  intros [|]; simpl; [|apply print_collection].
  apply steps_bind; [apply _ | apply list_pdfs_collection |]. intros pdf_files.
  apply steps_bind; [apply _ | | intros _; apply generate_report_collection].
  intros st. unfold pool_map. apply steps_pool_run.
  - apply _.
  - apply set_report_data_collection.
  - apply process_pdf_collection.
Qed.

(** C10. Every record the pipeline adds to the collection has a content
    with a code point that is not white space: one call of [process_pdf]
    and a whole run of [process_all_pdfs], under every schedule of the
    pool, extend the collection by such records only. *)
Theorem stored_content_nonblank (sched : nat → nat) (pdf_dir file_path : str)
    (st : state) :
  stored_nonblank st (snd (process_pdf file_path st)) ∧
  stored_nonblank st (snd (process_all_pdfs sched pdf_dir st)).
Proof.
  split; [apply process_pdf_collection | apply process_all_pdfs_collection].
Qed.
End stored.

(** ** The counters under [process_pdf] *)

Lemma keys_distinct :
  py "processed_files" ≠ py "failed_files" ∧
  py "total_size" ≠ py "failed_files" ∧
  py "total_size" ≠ py "processed_files".
Proof. repeat split; discriminate. Qed.

Lemma report_add_run (key : str) (n : Z) (st : state) :
  report_add key n st
  = (Ok (), set_report_data (<[key := (counter key st + n)%Z]> (report_data st)) st).
Proof.
  unfold report_add, report_get, report_set, counter. rewrite M_bind_unfold.
  destruct (report_data st !! key) as [v|]; simpl; [reflexivity|].
  unfold set_report_data. simpl. rewrite insert_insert_eq. reflexivity.
Qed.

Lemma counter_insert (key k : str) (v : Z) (st st' : state) :
  report_data st' = <[key := v]> (report_data st) →
  counter k st' = if decide (key = k) then v else counter k st.
Proof.
  intros Hd. unfold counter. rewrite Hd.
  destruct (decide (key = k)) as [->|Hne].
  - rewrite lookup_insert_eq. reflexivity.
  - rewrite lookup_insert_ne by done. reflexivity.
Qed.

Lemma keeps_counter_same (key : str) (st st' : state) :
  report_data st' = report_data st → keeps_counter key st st'.
Proof. intros Hd. unfold keeps_counter, counter. rewrite Hd. reflexivity. Qed.

Lemma report_add_keeps (key k : str) (n : Z) :
  key ≠ k → steps (keeps_counter k) (report_add key n).
Proof.
  intros Hne st. rewrite report_add_run. unfold keeps_counter. simpl.
  rewrite (counter_insert key k (counter key st + n) st) by reflexivity.
  rewrite decide_False by done. reflexivity.
Qed.

Lemma parse_pdf_run (file_path : str) (st : state) :
  ∃ text st0,
    parse_pdf file_path st = (Ok text, st0) ∧
    report_data st0 = report_data st ∧ fs st0 = fs st.
Proof.
  unfold parse_pdf.
  destruct (open_reader file_path st) as [pages|e].
  - destruct (extract_pages pages []) as [text [e|]]; eauto.
  - eauto.
Qed.

Lemma os_path_getsize_keeps (k p : str) : steps (keeps_counter k) (os_path_getsize p).
Proof.
  intros st. apply keeps_counter_same. unfold os_path_getsize.
  destruct (fs st !! p) as [[]|]; reflexivity.
Qed.

Lemma print_keeps (k : str) (msg : fstring) : steps (keeps_counter k) (print msg).
Proof. intros st. apply keeps_counter_same, print_world. Qed.

Lemma store_pdf_metadata_keeps (k file_path parsed_text summary : str)
    (keywords : list str) :
  steps (keeps_counter k) (store_pdf_metadata file_path parsed_text summary keywords).
Proof.
  unfold store_pdf_metadata.
  apply steps_bind; [apply _ | apply os_path_getsize_keeps |]. intros size.
  apply steps_bind; [apply _ | | intros _; apply print_keeps].
  intros st. apply keeps_counter_same. unfold insert_one.
  destruct (mongo_faults st) as [|[]]; reflexivity.
Qed.

Lemma os_path_getsize_fs (p : str) (st : state) (r : result Z) (st' : state) :
  os_path_getsize p st = (r, st') →
  st' = st ∧ ∀ st2, fs st2 = fs st → os_path_getsize p st2 = (r, st2).
Proof.
  unfold os_path_getsize. intros Hrun. split.
  - destruct (fs st !! p) as [[]|]; by injection Hrun.
  - intros st2 ->. destruct (fs st !! p) as [[]|]; injection Hrun as <- _; reflexivity.
Qed.

Lemma insert_one_run (metadata : document) (st : state) (r : result ()) (st' : state) :
  insert_one metadata st = (r, st') →
  report_data st' = report_data st ∧ fs st' = fs st.
Proof.
  unfold insert_one. intros Hrun.
  destruct (mongo_faults st) as [|[e|] faults]; injection Hrun as <- <-; by split.
Qed.

Lemma report_get_world (key : str) (st : state) :
  let st' := snd (report_get key st) in
  fs st' = fs st ∧ collection st' = collection st ∧
  mongo_faults st' = mongo_faults st ∧ log st' = log st ∧ stdout st' = stdout st.
Proof. unfold report_get. destruct (report_data st !! key); by repeat split. Qed.


Lemma parse_pdf_world (file_path : str) (st : state) :
  ∃ text st0,
    parse_pdf file_path st = (Ok text, st0) ∧
    report_data st0 = report_data st ∧ fs st0 = fs st ∧
    collection st0 = collection st ∧ mongo_faults st0 = mongo_faults st ∧
    stdout st0 = stdout st.
Proof.
  unfold parse_pdf.
  destruct (open_reader file_path st) as [pages|e].
  - destruct (extract_pages pages []) as [text [e|]]; by eexists _, _.
  - by eexists _, _.
Qed.


Section one_call.
Context `{Unicode, NLTK, Numpy}.

(** The [try] block, step by step, from the text [parse_pdf] returned. *)
Lemma process_pdf_try_unfold (file_path text : str) (st st0 : state) :
  parse_pdf file_path st = (Ok text, st0) →
  process_pdf_try file_path st =
  if bool_decide (strip text = []) then
    (Raise (ValueError (py "Parsed PDF content is empty")), st0)
  else
    match summarize_text text 3 with
    | Raise e => (Raise e, st0)
    | Ok summary =>
        match extract_keywords text 5 with
        | Raise e => (Raise e, st0)
        | Ok keywords =>
            match os_path_getsize file_path st0 with
            | (Raise e, _) => (Raise e, st0)
            | (Ok size, _) =>
                match insert_one (metadata_of file_path size text summary keywords) st0 with
                | (Raise e, st1) => (Raise e, st1)
                | (Ok _, st1) =>
                    if printable (stored_line file_path)
                    then (Ok (), counted file_path size st1)
                    else (Raise surrogates_not_allowed, st1)
                end
            end
        end
    end.
Proof.
  intros Hp. unfold process_pdf_try. rewrite (M_bind_ok _ _ _ _ _ Hp).
  rewrite M_bind_unfold. case_bool_decide; [reflexivity|]. cbn [mret M_ret].
  unfold lift. rewrite M_bind_unfold.
  destruct (summarize_text text 3) as [summary|e]; [|reflexivity].
  cbv beta. rewrite M_bind_unfold.
  destruct (extract_keywords text 5) as [keywords|e]; [|reflexivity].
  cbv beta. unfold store_pdf_metadata. rewrite !M_bind_unfold.
  pose proof (os_path_getsize_fs file_path st0) as Hsz.
  destruct (os_path_getsize file_path st0) as [r st0'].
  destruct (Hsz r st0' eq_refl) as [-> Hsame]. clear Hsz.
  destruct r as [size0|e]; [|reflexivity].
  cbv beta iota. rewrite M_bind_unfold.
  fold (metadata_of file_path size0 text summary keywords).
  pose proof (insert_one_run (metadata_of file_path size0 text summary keywords) st0)
    as Hins.
  destruct (insert_one _ st0) as [r st1].
  destruct (Hins r st1 eq_refl) as [Hd1 Hfs1]. clear Hins.
  destruct r as [[]|e]; cbv beta iota; [|reflexivity].
  unfold print at 1. fold (stored_line file_path).
  destruct (printable (stored_line file_path)); cbv beta iota; [|reflexivity].
  rewrite M_bind_unfold, report_add_run. cbv beta iota.
  rewrite M_bind_unfold, Hsame by exact Hfs1. cbv beta iota.
  rewrite report_add_run. reflexivity.
Qed.
End one_call.

Lemma counted_fields (file_path : str) (size : Z) (st1 : state) :
  let st' := counted file_path size st1 in
  collection st' = collection st1 ∧
  stdout st' = stdout st1 ++ [stored_line file_path] ∧
  log st' = log st1 ∧ fs st' = fs st1 ∧ mongo_faults st' = mongo_faults st1 ∧
  counter (py "processed_files") st' = (counter (py "processed_files") st1 + 1)%Z ∧
  counter (py "total_size") st' = (counter (py "total_size") st1 + size)%Z ∧
  counter (py "failed_files") st' = counter (py "failed_files") st1.
Proof.
  pose proof keys_distinct as (Hpf & Htf & Htp).
  unfold counted, counter. cbn [collection stdout log fs mongo_faults report_data
                                  set_report_data set_stdout].
  repeat split.
  - rewrite lookup_insert_ne, lookup_insert_eq by done. reflexivity.
  - rewrite lookup_insert_eq, lookup_insert_ne by done. reflexivity.
  - rewrite !lookup_insert_ne by done. reflexivity.
Qed.



(** ** What leaves the file system and the server alone *)

#[global] Instance same_outside_preorder : PreOrder same_outside.
Proof.
  split.
  - by intros st.
  - intros st1 st2 st3 [Hf1 Hm1] [Hf2 Hm2]. split; [congruence | by etrans].
Qed.

Lemma same_outside_same (st st' : state) :
  fs st' = fs st → mongo_faults st' = mongo_faults st → same_outside st st'.
Proof. intros Hf Hm. split; [exact Hf | by rewrite Hm]. Qed.

Lemma printable_faults_outside (st st' : state) :
  same_outside st st' → printable_faults st → printable_faults st'.
Proof.
  intros [_ [k Hk]] Hp e He. apply Hp. rewrite Hk. apply elem_of_app. by right.
Qed.

Lemma report_get_outside key : steps same_outside (report_get key).
Proof.
  intros st. destruct (report_get_world key st) as (Hf & _ & Hm & _).
  by apply same_outside_same.
Qed.

Lemma report_add_outside key n : steps same_outside (report_add key n).
Proof. intros st. rewrite report_add_run. by apply same_outside_same. Qed.

Lemma print_outside msg : steps same_outside (print msg).
Proof.
  intros st. destruct (print_world msg st) as (_ & Hf & _ & Hm & _).
  by apply same_outside_same.
Qed.

Lemma insert_one_outside metadata : steps same_outside (insert_one metadata).
Proof.
  intros st. unfold insert_one.
  destruct (mongo_faults st) as [|[e|] faults] eqn:Hfaults; split; cbn; try done.
  all: rewrite Hfaults; try done; by apply suffix_cons_r.
Qed.

(** ** The exceptions of the text functions *)

Lemma comprehension_getitem_raise {A} (l : list A) (idx : list nat) (e : exn) :
  comprehension (λ i, getitem l i) idx = Raise e →
  e = IndexError (py "index out of range").
Proof.
  induction idx as [|i idx IH]; cbn [comprehension]; [done|].
  destruct (getitem l i) as [y|e'] eqn:Hg; cbn [mbind result_bind].
  - destruct (comprehension _ idx); cbn [mbind result_bind]; [done | exact IH].
  - intros [= <-]. unfold getitem in Hg. destruct (l !! i); congruence.
Qed.

Section text_exceptions.
Context `{Unicode, NLTK, Numpy}.

Lemma fit_transform_raise_inv (raw_documents : list str) (e : exn) :
  fit_transform raw_documents = Raise e → e = empty_vocabulary.
Proof.
  unfold fit_transform. case_bool_decide; [|done]. by intros [= <-].
Qed.

(** What [summarize_text] and [extract_keywords] raise has a message in
    ASCII. *)
Lemma summarize_text_raises_encodable (text : str) (K : Z) (e : exn) :
  summarize_text text K = Raise e → encodable (exn_str e) = true.
Proof.
  unfold summarize_text. case_bool_decide; [done|].
  destruct (fit_transform _) as [[vectorizer vectors]|e'] eqn:Hfit;
    cbn [mbind result_bind].
  - destruct (comprehension _ _) as [ranked|e'] eqn:Hc; cbn [mbind result_bind]; [done|].
    intros [= <-]. by rewrite (comprehension_getitem_raise _ _ _ Hc).
  - intros [= <-]. by rewrite (fit_transform_raise_inv _ _ Hfit).
Qed.

Lemma extract_keywords_raises_encodable (text : str) (N : Z) (e : exn) :
  extract_keywords text N = Raise e → encodable (exn_str e) = true.
Proof.
  unfold extract_keywords.
  destruct (fit_transform _) as [[vectorizer vectors]|e'] eqn:Hfit;
    cbn [mbind result_bind].
  - destruct (comprehension _ _) as [keywords|e'] eqn:Hc; cbn [mbind result_bind]; [done|].
    intros [= <-]. by rewrite (comprehension_getitem_raise _ _ _ Hc).
  - intros [= <-]. by rewrite (fit_transform_raise_inv _ _ Hfit).
Qed.
End text_exceptions.

Section counters.
Context `{Unicode, NLTK, Numpy}.

(** The [try] block never writes [failed_files]. *)
Lemma process_pdf_try_keeps_failed (file_path : str) :
  steps (keeps_counter (py "failed_files")) (process_pdf_try file_path).
Proof.
  pose proof keys_distinct as (Hpf & Htf & _).
  unfold process_pdf_try.
  apply steps_bind; [apply _ | |].
  { intros st. destruct (parse_pdf_run file_path st) as (text & st0 & -> & Hd & _).
    by apply keeps_counter_same. }
  intros text.
  apply steps_bind; [apply _ | case_bool_decide; [apply steps_raise|apply steps_ret]; apply _ |].
  intros _.
  apply steps_bind; [apply _ | apply steps_lift, _ |]. intros summary.
  apply steps_bind; [apply _ | apply steps_lift, _ |]. intros keywords.
  apply steps_bind; [apply _ | apply store_pdf_metadata_keeps |]. intros _.
  apply steps_bind; [apply _ | by apply report_add_keeps |]. intros _.
  apply steps_bind; [apply _ | apply os_path_getsize_keeps |]. intros size.
  by apply report_add_keeps.
Qed.

(** The [except] block: one log line and one more failure; then the
    line is printed and the block returns, or the line cannot be encoded
    and the exception of [print] leaves the block. *)
Lemma process_pdf_except_run (file_path : str) (e : exn) (st : state) :
  ∃ st',
    process_pdf_except file_path e st
    = (if printable (processing_error file_path e) then Ok ()
       else Raise surrogates_not_allowed, st') ∧
    report_data st'
    = <[py "failed_files" := (counter (py "failed_files") st + 1)%Z]> (report_data st) ∧
    log st' = log st ++ [processing_error file_path e] ∧
    stdout st'
    = (if printable (processing_error file_path e)
       then stdout st ++ [processing_error file_path e] else stdout st) ∧
    fs st' = fs st ∧ collection st' = collection st ∧
    mongo_faults st' = mongo_faults st.
Proof.
  unfold process_pdf_except, logging_error.
  rewrite !M_bind_unfold, report_add_run. cbv beta iota.
  fold (processing_error file_path e). unfold print.
  destruct (printable (processing_error file_path e));
    (eexists; split; [reflexivity|]); cbn; by repeat split.
Qed.


(** What the [try] block raises has a message that can be printed, when
    the errors of the server have. *)
Lemma process_pdf_try_raises (file_path : str) (st st1 : state) (e : exn) :
  printable_faults st →
  process_pdf_try file_path st = (Raise e, st1) →
  encodable (exn_str e) = true.
Proof.
  intros Hfaults.
  destruct (parse_pdf_world file_path st) as (text & st0 & Hp & _ & _ & _ & Hm & _).
  rewrite (process_pdf_try_unfold _ _ _ _ Hp).
  case_bool_decide; [by intros [= <- _]|].
  destruct (summarize_text text 3) as [summary|e'] eqn:Hsum;
    [|intros [= <- _]; by eapply summarize_text_raises_encodable].
  destruct (extract_keywords text 5) as [keywords|e'] eqn:Hkw;
    [|intros [= <- _]; by eapply extract_keywords_raises_encodable].
  destruct (os_path_getsize file_path st0) as [[size0|e'] st0'] eqn:Hsize.
  - destruct (insert_one _ st0) as [[[]|e'] st2] eqn:Hins.
    + destruct (printable (stored_line file_path)); [done|]. by intros [= <- _].
    + intros [= <- _]. apply Hfaults. rewrite <- Hm.
      unfold insert_one in Hins.
      destruct (mongo_faults st0) as [|[e''|] faults]; try done.
      injection Hins as -> _. by left.
  - intros [= <- _]. unfold os_path_getsize in Hsize.
    destruct (fs st0 !! file_path) as [[]|]; try done. by injection Hsize as <- _.
Qed.

(** The line of the [except] block can be printed when the path and the
    message can be encoded. *)
Lemma printable_processing_error (file_path : str) (e : exn) :
  encodable file_path = true → encodable (exn_str e) = true →
  printable (processing_error file_path e) = true.
Proof.
  intros Hp He. unfold processing_error, printable. cbn [forallb].
  rewrite !encodable_app, Hp, He. reflexivity.
Qed.

(** A call on a path without a surrogate returns, when the errors of the
    server can be printed. *)
Lemma process_pdf_returns (file_path : str) (st : state) :
  encodable file_path = true → printable_faults st →
  ∃ st', process_pdf file_path st = (Ok (), st').
Proof.
  intros Hpath Hfaults. unfold process_pdf, try_except.
  destruct (process_pdf_try file_path st) as [[[]|e] st1] eqn:Htry; [by eexists|].
  destruct (process_pdf_except_run file_path e st1) as (st' & Hrun & _).
  rewrite printable_processing_error in Hrun
    by (try done; by eapply process_pdf_try_raises).
  by exists st'.
Qed.

Lemma process_pdf_outside file_path : steps same_outside (process_pdf file_path).
Proof.
  unfold process_pdf. apply steps_try_except; [apply _ | |].
  - unfold process_pdf_try.
    apply steps_bind; [apply _ | |].
    { intros st.
      destruct (parse_pdf_world file_path st) as (text & st0 & -> & _ & Hf & _ & Hm & _).
      by apply same_outside_same. }
    intros text.
    apply steps_bind; [apply _ | case_bool_decide; [apply steps_raise|apply steps_ret]; apply _ |].
    intros _. unfold store_pdf_metadata.
    repeat (apply steps_bind; [apply _ | | intros ?]);
      try (apply steps_lift, _);
      try apply report_add_outside; try apply insert_one_outside;
      try apply print_outside;
      try (intros st; apply same_outside_same; unfold os_path_getsize;
           by destruct (fs st !! file_path) as [[]|]).
    all: apply report_get_outside.
  - intros e. unfold process_pdf_except.
    repeat (apply steps_bind; [apply _ | | intros ?]);
      try apply report_get_outside; try apply print_outside;
      by intros st; apply same_outside_same.
Qed.

(** A map of [process_pdf] over the pool, on paths without a surrogate
    and a server whose errors can be printed, runs every task and returns
    one result for each. *)
Lemma pool_run_process_pdf (sched : nat → nat) (tasks : list str) (i : nat)
    (workers : gmap nat (gmap str Z)) (st : state) :
  Forall (λ task, encodable task = true) tasks → printable_faults st →
  fst (pool_run sched process_pdf i tasks workers st) = Ok (replicate (length tasks) ()).
Proof.
  intros Htasks. revert i workers st.
  induction Htasks as [|task tasks Htask _ IH]; intros i workers st Hfaults; simpl.
  - reflexivity.
  - set (worker := default (report_data st) (workers !! sched i)).
    pose proof (process_pdf_outside task (set_report_data worker st)) as Hout.
    destruct (process_pdf_returns task (set_report_data worker st) Htask Hfaults)
      as (st1 & Hrun).
    rewrite Hrun in Hout |- *. cbn [snd] in Hout.
    specialize (IH (S i) (<[sched i := report_data st1]> workers)
                  (set_report_data (report_data st) st1)).
    destruct (pool_run sched process_pdf (S i) tasks _ _) as [rs st2].
    simpl in *. rewrite IH; [reflexivity|].
    by apply (printable_faults_outside (set_report_data worker st)).
Qed.

End counters.

(** ** C1: the counters and the pool *)

(** The pool never writes the [report_data] of the parent. *)
Lemma pool_run_report_data {A} (sched : nat → nat) (f : str → M A) (tasks : list str)
    (i : nat) (workers : gmap nat (gmap str Z)) (st : state) :
  report_data (snd (pool_run sched f i tasks workers st)) = report_data st.
Proof.
  revert i workers st. induction tasks as [|task tasks IH]; intros i workers st; simpl.
  - reflexivity.
  - destruct (f task _) as [[y|e] st1]; simpl; [|reflexivity].
    specialize (IH (S i) (<[sched i := report_data st1]> workers)
                  (set_report_data (report_data st) st1)).
    destruct (pool_run sched f (S i) tasks _ _) as [rs st2]. exact IH.
Qed.

Lemma generate_report_keeps (k : str) : steps (keeps_counter k) generate_report.
Proof.
  unfold generate_report.
  repeat (apply steps_bind; [apply _ | | intros ?]);
    try (apply steps_lift, _);
    try (intros st; apply report_get_counter);
    intros st; reflexivity.
Qed.

Section batch_counters.
Context `{Unicode, NLTK, Numpy}.

(** Whatever the files and the schedule, a run of [process_all_pdfs]
    leaves every counter of the process that runs it as it found it:
    the increments of [process_pdf] happen in the workers. *)
Lemma process_all_pdfs_keeps (k : str) (sched : nat → nat) (pdf_dir : str) :
  steps (keeps_counter k) (process_all_pdfs sched pdf_dir).
Proof.
  unfold process_all_pdfs.
  apply steps_bind; [apply _ | by intros st |].
  intros [|]; simpl; [|apply print_keeps].
  apply steps_bind; [apply _ | |].
  { intros st. apply keeps_counter_same. unfold list_pdfs, os_listdir.
    rewrite M_bind_unfold. destruct (fs st !! pdf_dir) as [[]|]; reflexivity. }
  intros pdf_files.
  apply steps_bind; [apply _ | | intros _; apply generate_report_keeps].
  intros st. apply keeps_counter_same, pool_run_report_data.
Qed.

(** The [try] block adds one to [processed_files] exactly when it
    returns: nothing raises after the increment, the second
    [os.path.getsize] finding the file the first one found. *)
Lemma process_pdf_try_processed (file_path : str) (st : state) :
  match process_pdf_try file_path st with
  | (Ok _, st1) =>
      counter (py "processed_files") st1 = (counter (py "processed_files") st + 1)%Z
  | (Raise _, st1) =>
      counter (py "processed_files") st1 = counter (py "processed_files") st
  end.
Proof.
  destruct (parse_pdf_world file_path st) as (text & st0 & Hp & Hd & _).
  assert (Hc0 : counter (py "processed_files") st0 = counter (py "processed_files") st)
    by (unfold counter; by rewrite Hd).
  rewrite (process_pdf_try_unfold _ _ _ _ Hp), <- Hc0.
  case_bool_decide; [reflexivity|].
  destruct (summarize_text text 3) as [summary|e]; [|reflexivity].
  destruct (extract_keywords text 5) as [keywords|e]; [|reflexivity].
  destruct (os_path_getsize file_path st0) as [[size0|e] st0']; [|reflexivity].
  pose proof (insert_one_run (metadata_of file_path size0 text summary keywords) st0)
    as Hins.
  destruct (insert_one _ st0) as [r st1].
  destruct (Hins r st1 eq_refl) as [Hd1 _]. clear Hins.
  assert (Hc1 : counter (py "processed_files") st1 = counter (py "processed_files") st0)
    by (unfold counter; by rewrite Hd1).
  destruct r as [[]|e]; [|exact Hc1].
  destruct (printable (stored_line file_path)); [|exact Hc1].
  destruct (counted_fields file_path size0 st1) as (_ & _ & _ & _ & _ & Hp' & _).
  by rewrite Hp', Hc1.
Qed.

(** In the process that runs it, a call of [process_pdf] adds one to
    exactly one of [processed_files] and [failed_files]. *)
Lemma process_pdf_counts_once (file_path : str) (st : state) :
  let st' := snd (process_pdf file_path st) in
  (counter (py "processed_files") st' = (counter (py "processed_files") st + 1)%Z ∧
   counter (py "failed_files") st' = counter (py "failed_files") st) ∨
  (counter (py "processed_files") st' = counter (py "processed_files") st ∧
   counter (py "failed_files") st' = (counter (py "failed_files") st + 1)%Z).
Proof.
  pose proof keys_distinct as (Hpf & _ & _).
  pose proof (process_pdf_try_processed file_path st) as Hproc.
  pose proof (process_pdf_try_keeps_failed file_path st) as Hfail.
  unfold process_pdf, try_except.
  destruct (process_pdf_try file_path st) as [[[]|e] st1]; simpl in *.
  - left. split; [exact Hproc | exact Hfail].
  - right. destruct (process_pdf_except_run file_path e st1)
      as (st' & -> & Hd & _). simpl.
    rewrite !(counter_insert _ _ _ _ _ Hd).
    rewrite decide_False, decide_True by done.
    unfold keeps_counter in Hfail. rewrite Hfail. split; [exact Hproc | reflexivity].
Qed.
End batch_counters.

(** C1, the code at a directory with one candidate file: the file is
    processed in a worker (its record reaches the collection and the
    worker prints that it stored it), the run returns, and the counters
    of the process that ran [process_all_pdfs] and printed the report are
    both still 0, as the report says, so their sum is not the number of
    candidates. *)
Theorem process_all_pdfs_loses_counts :
  let st' := snd (process_all_pdfs (λ _, 0) (py "docs") one_pdf) in
  fst (list_pdfs (py "docs") one_pdf) = Ok [py "a.pdf"] ∧
  fst (process_all_pdfs (λ _, 0) (py "docs") one_pdf) = Ok () ∧
  path <$> collection st' = [py "docs/a.pdf"] ∧
  stdout st' !! 0 = Some [Lit (py "Stored metadata for a.pdf")] ∧
  stdout st' !! 2 = Some [Lit (py "Total PDFs processed: "); Field (PyInt 0)] ∧
  stdout st' !! 3 = Some [Lit (py "Total PDFs failed: "); Field (PyInt 0)] ∧
  counter (py "processed_files") st' = 0%Z ∧
  counter (py "failed_files") st' = 0%Z ∧
  (counter (py "processed_files") st' + counter (py "failed_files") st')%Z ≠ 1%Z.
Proof.
  vm_compute. repeat (split; [reflexivity|]). discriminate.
Qed.

(** ** The vectorizer *)

Lemma insert_sorted_perm (x : str) (l : list str) : insert_sorted x l ≡ₚ x :: l.
Proof.
  induction l as [|y l IH]; simpl; [reflexivity|].
  destruct (str_ltb x y); [reflexivity|].
  rewrite IH. apply Permutation_swap.
Qed.

Lemma sorted_perm (l : list str) : sorted l ≡ₚ l.
Proof.
  induction l as [|x l IH]; simpl; [reflexivity|].
  rewrite insert_sorted_perm, IH. reflexivity.
Qed.

(** The order of [str] is a strict total order, so a sorted list of
    distinct terms is determined by its terms. *)
Lemma str_ltb_irrefl (a : str) : str_ltb a a = false.
Proof.
  induction a as [|x a IH]; simpl; [reflexivity|].
  rewrite N.ltb_irrefl, N.eqb_refl, IH. reflexivity.
Qed.

Lemma str_ltb_trans (a b c : str) :
  str_ltb a b = true → str_ltb b c = true → str_ltb a c = true.
Proof.
  revert b c. induction a as [|x a IH]; intros [|y b] [|z c]; simpl; try done.
  rewrite !orb_true_iff, !andb_true_iff, !N.ltb_lt, !N.eqb_eq.
  intros [Hxy|[-> Hab]] [Hyz|[-> Hbc]]; [left; lia | by left | by left |].
  right. split; [reflexivity|]. by apply (IH b c).
Qed.

Lemma str_ltb_trichotomy (a b : str) :
  str_ltb a b = true ∨ a = b ∨ str_ltb b a = true.
Proof.
  revert b. induction a as [|x a IH]; intros [|y b]; simpl; auto.
  rewrite !orb_true_iff, !andb_true_iff, !N.ltb_lt, !N.eqb_eq.
  destruct (N.lt_trichotomy x y) as [Hlt|[->|Hgt]]; [by left; left | | by right; right; left].
  destruct (IH b) as [Hab|[->|Hba]]; [by left; right | by right; left | by right; right; right].
Qed.

Lemma str_le_trans (a b c : str) : str_le a b → str_le b c → str_le a c.
Proof.
  unfold str_le. intros Hab Hbc.
  destruct (str_ltb c a) eqn:Hca; [|reflexivity]. exfalso.
  destruct (str_ltb_trichotomy a b) as [Hlt|[->|Hgt]]; [|congruence..].
  rewrite (str_ltb_trans c a b Hca Hlt) in Hbc. discriminate.
Qed.

#[global] Instance str_le_antisym : AntiSymm eq str_le.
Proof.
  intros a b Hab Hba. unfold str_le in *.
  destruct (str_ltb_trichotomy a b) as [Hlt|[->|Hgt]]; [congruence|reflexivity|congruence].
Qed.

Lemma insert_sorted_sorted (x : str) (l : list str) :
  StronglySorted str_le l → StronglySorted str_le (insert_sorted x l).
Proof.
  induction 1 as [|y l Hs IH Hy]; simpl.
  - repeat constructor.
  - destruct (str_ltb x y) eqn:Hxy.
    + assert (Hle : str_le x y).
      { unfold str_le. destruct (str_ltb y x) eqn:Hyx; [|reflexivity].
        pose proof (str_ltb_trans x y x Hxy Hyx) as Hxx.
        rewrite str_ltb_irrefl in Hxx. discriminate. }
      constructor; [by constructor|]. constructor; [exact Hle|].
      eapply Forall_impl; [exact Hy|]. intros z Hyz. by eapply str_le_trans.
    + constructor; [exact IH|]. rewrite insert_sorted_perm. by constructor.
Qed.

Lemma sorted_sorted (l : list str) : StronglySorted str_le (sorted l).
Proof.
  induction l as [|x l IH]; simpl; [constructor|]. by apply insert_sorted_sorted.
Qed.

Lemma sorted_unique (l k : list str) : l ≡ₚ k → sorted l = sorted k.
Proof.
  intros Hlk. apply (StronglySorted_unique str_le).
  - apply sorted_sorted.
  - apply sorted_sorted.
  - by rewrite !sorted_perm.
Qed.

Section vectorizer.
Context `{Unicode, Numpy}.

Lemma build_vocabulary_NoDup (docs : list (list str)) : NoDup (build_vocabulary docs).
Proof.
  unfold build_vocabulary. rewrite sorted_perm. apply NoDup_remove_dups.
Qed.

Lemma build_vocabulary_nil (docs : list (list str)) :
  build_vocabulary docs = [] ↔ concat docs = [].
Proof.
  unfold build_vocabulary. split.
  - intros Hs. destruct (concat docs) as [|t ts]; [reflexivity|]. exfalso.
    assert (Ht : t ∈ sorted (remove_dups (t :: ts)))
      by (rewrite sorted_perm; apply elem_of_remove_dups; left).
    rewrite Hs in Ht. by apply elem_of_nil in Ht.
  - intros ->. reflexivity.
Qed.

Lemma length_dense_row (cols : list str) (row : csr_row) :
  length (dense_row cols row) = length cols.
Proof. apply length_fmap. Qed.

(** The vectorizer raises exactly on a corpus without a term. *)
Lemma fit_transform_raises (raw_documents : list str) :
  concat (analyzer <$> raw_documents) = [] →
  fit_transform raw_documents = Raise empty_vocabulary.
Proof.
  intros Hc. unfold fit_transform.
  rewrite bool_decide_eq_true_2 by (by apply build_vocabulary_nil). reflexivity.
Qed.

Lemma fit_transform_returns (raw_documents : list str) :
  concat (analyzer <$> raw_documents) ≠ [] →
  let docs := analyzer <$> raw_documents in
  let vocab := build_vocabulary docs in
  fit_transform raw_documents
  = Ok ({| vocabulary_ := vocab |},
        {| columns := vocab; rows := tfidf_row docs <$> docs |}).
Proof.
  intros Hc. unfold fit_transform.
  rewrite bool_decide_eq_false_2 by (by rewrite build_vocabulary_nil). reflexivity.
Qed.

(** The terms in the order of their first occurrence: each term once. *)
Lemma first_occurrences_from (seen tokens : list str) :
  NoDup seen →
  let l := foldl (λ seen t, if bool_decide (t ∈ seen) then seen else seen ++ [t])
             seen tokens in
  NoDup l ∧ ∀ t, t ∈ l ↔ t ∈ seen ∨ t ∈ tokens.
Proof.
  revert seen. induction tokens as [|u tokens IH]; intros seen Hnd; cbn [foldl].
  - split; [exact Hnd|]. intros t. rewrite elem_of_nil. tauto.
  - case_bool_decide as Hu.
    + destruct (IH seen Hnd) as [Hnd' Hin]. split; [exact Hnd'|].
      intros t. rewrite Hin, elem_of_cons. split; [tauto|].
      intros [?|[->|?]]; tauto.
    + assert (Hnd1 : NoDup (seen ++ [u])).
      { apply NoDup_app. split; [exact Hnd|]. split; [|apply NoDup_singleton].
        intros x Hx Hx'. apply list_elem_of_singleton in Hx' as ->. done. }
      destruct (IH (seen ++ [u]) Hnd1) as [Hnd' Hin]. split; [exact Hnd'|].
      intros t. rewrite Hin, elem_of_app, list_elem_of_singleton, elem_of_cons. tauto.
Qed.

Lemma first_occurrences_NoDup (tokens : list str) : NoDup (first_occurrences tokens).
Proof. apply (first_occurrences_from [] tokens), NoDup_nil_2. Qed.

Lemma elem_of_first_occurrences (tokens : list str) (t : str) :
  t ∈ first_occurrences tokens ↔ t ∈ tokens.
Proof.
  destruct (first_occurrences_from [] tokens (NoDup_nil_2)) as [_ Hin].
  unfold first_occurrences. rewrite Hin, elem_of_nil. tauto.
Qed.

Lemma stored_terms_NoDup (docs : list (list str)) (tokens : list str) :
  NoDup (stored_terms docs tokens).
Proof. apply NoDup_filter, first_occurrences_NoDup. Qed.

Lemma elem_of_stored_terms_one (tokens : list str) (t : str) :
  t ∈ stored_terms [tokens] tokens ↔ t ∈ tokens.
Proof.
  unfold stored_terms. rewrite list_elem_of_filter, elem_of_first_occurrences.
  cbn [concat]. rewrite app_nil_r. tauto.
Qed.

(** The entry of a dense row in the column of [t], for a row that
    stores each of its terms once. *)
Lemma dense_entry (h : str → float) (terms : list str) (t : str) (a : float) :
  NoDup terms →
  foldl (λ acc p, if bool_decide (p.1 = t) then (acc + p.2)%float else acc) a
    ((λ u, (u, h u)) <$> terms)
  = if bool_decide (t ∈ terms) then (a + h t)%float else a.
Proof.
  intros Hnd. revert a. induction Hnd as [|u terms Hu Hnd IH]; intros a; cbn [fmap list_fmap foldl].
  - rewrite bool_decide_eq_false_2 by apply not_elem_of_nil. reflexivity.
  - rewrite IH. cbn [fst snd]. destruct (decide (u = t)) as [->|Hut].
    + rewrite (bool_decide_eq_true_2 (t = t)) by reflexivity.
      rewrite (bool_decide_eq_false_2 (t ∈ terms)) by exact Hu.
      rewrite (bool_decide_eq_true_2 (t ∈ t :: terms)) by left. reflexivity.
    + rewrite (bool_decide_eq_false_2 (u = t)) by exact Hut.
      destruct (decide (t ∈ terms)) as [Hin|Hnin].
      * rewrite (bool_decide_eq_true_2 (t ∈ terms)) by exact Hin.
        rewrite (bool_decide_eq_true_2 (t ∈ u :: terms)) by (by right). reflexivity.
      * rewrite (bool_decide_eq_false_2 (t ∈ terms)) by exact Hnin.
        rewrite (bool_decide_eq_false_2 (t ∈ u :: terms)); [reflexivity|].
        intros Hin. apply elem_of_cons in Hin as [->|Hin]; done.
Qed.

(** Normalisation keeps the terms of a row and their order. *)
Lemma l2_normalize_keyed (g : str → float) (terms : list str) :
  let row := (λ t, (t, g t)) <$> terms in
  l2_normalize row
  = (λ t, (t, if (square_sum row =? 0)%float then g t
              else (g t / PrimFloat.sqrt (square_sum row))%float)) <$> terms.
Proof.
  cbv zeta. unfold l2_normalize.
  destruct (square_sum _ =? 0)%float; [reflexivity|].
  rewrite <- list_fmap_compose. reflexivity.
Qed.

(** The vocabulary of a corpus of one document depends on its tokens
    only up to their order, and so does the weight of a term before
    normalisation. *)
Lemma build_vocabulary_perm (tokens tokens' : list str) :
  tokens ≡ₚ tokens' → build_vocabulary [tokens] = build_vocabulary [tokens'].
Proof.
  intros Hp. unfold build_vocabulary. simpl. rewrite !app_nil_r.
  apply sorted_unique, NoDup_Permutation; [apply NoDup_remove_dups..|].
  intros t. by rewrite !elem_of_remove_dups, Hp.
Qed.

Lemma term_weight_perm (tokens tokens' : list str) (t : str) :
  tokens ≡ₚ tokens' → term_weight [tokens] tokens t = term_weight [tokens'] tokens' t.
Proof.
  intros Hp. unfold term_weight.
  assert (Htc : term_count t tokens = term_count t tokens').
  { unfold term_count. apply Permutation_length. by apply filter_Permutation. }
  assert (Hdf : document_frequency t [tokens] = document_frequency t [tokens']).
  { unfold document_frequency. rewrite !filter_cons, !filter_nil.
    destruct (decide (t ∈ tokens)) as [Hin|Hnin],
      (decide (t ∈ tokens')) as [Hin'|Hnin']; try reflexivity.
    - exfalso. apply Hnin'. by rewrite <- Hp.
    - exfalso. apply Hnin. by rewrite Hp. }
  rewrite Htc, Hdf. reflexivity.
Qed.

(** The dense row of a corpus of one document depends on the tokens only
    up to their order, as long as the sum of the squares, which is added
    in the order of the first occurrences, comes out the same. *)
Lemma dense_row_perm (vocab tokens tokens' : list str) :
  tokens ≡ₚ tokens' →
  square_sum (weights [tokens] tokens) = square_sum (weights [tokens'] tokens') →
  dense_row vocab (tfidf_row [tokens] tokens)
  = dense_row vocab (tfidf_row [tokens'] tokens').
Proof.
  intros Hp Hsq. unfold dense_row. apply list_fmap_ext. intros _ t _.
  unfold tfidf_row. pose proof Hsq as Hsq'. unfold weights in Hsq' |- *.
  rewrite !l2_normalize_keyed, <- Hsq'.
  rewrite !dense_entry by apply stored_terms_NoDup.
  rewrite (term_weight_perm tokens tokens' t Hp).
  destruct (decide (t ∈ tokens)) as [Hin|Hnin].
  - rewrite !bool_decide_eq_true_2;
      [reflexivity | by rewrite elem_of_stored_terms_one, <- Hp
                   | by rewrite elem_of_stored_terms_one].
  - rewrite !bool_decide_eq_false_2;
      [reflexivity | by rewrite elem_of_stored_terms_one, <- Hp
                   | by rewrite elem_of_stored_terms_one].
Qed.
(** In a corpus of one document the values of a row before
    normalisation are given by the counts of its terms, in storage
    order. *)
Lemma weights_values_one (tokens : list str) :
  snd <$> weights [tokens] tokens
  = (λ c, (of_count c * idf 1 1)%float)
      <$> ((λ t, term_count t tokens) <$> stored_terms [tokens] tokens).
Proof.
  unfold weights. rewrite <- !list_fmap_compose. apply list_fmap_ext.
  intros i t Ht. apply list_elem_of_lookup_2 in Ht.
  rewrite elem_of_stored_terms_one in Ht.
  cbn [compose snd]. unfold term_weight, document_frequency.
  rewrite filter_cons, decide_True, filter_nil by exact Ht. reflexivity.
Qed.

Lemma square_sum_counts (tokens tokens' : list str) :
  (λ t, term_count t tokens) <$> stored_terms [tokens] tokens
  = (λ t, term_count t tokens') <$> stored_terms [tokens'] tokens' →
  square_sum (weights [tokens] tokens) = square_sum (weights [tokens'] tokens').
Proof.
  intros Hcounts. unfold square_sum. by rewrite !weights_values_one, Hcounts.
Qed.
End vectorizer.

(** ** Indexing *)

Lemma comprehension_getitem {A} (l : list A) (idx : list nat) :
  Forall (λ i, i < length l) idx →
  ∃ ys, comprehension (λ i, getitem l i) idx = Ok ys ∧
        Forall2 (λ i y, l !! i = Some y) idx ys.
Proof.
  induction idx as [|i idx IH]; intros Hidx; simpl.
  - exists []. split; [reflexivity|constructor].
  - apply Forall_cons in Hidx as [Hi Hidx].
    destruct (IH Hidx) as (ys & -> & Hys).
    destruct (lookup_lt_is_Some_2 l i Hi) as [y Hy].
    exists (y :: ys). unfold getitem. rewrite Hy. split; [reflexivity|].
    by constructor.
Qed.

Section argsort.
Context `{ArgsortSpec}.

Lemma argsort_length (a : list float) : length (argsort a) = length a.
Proof. rewrite (argsort_perm a). apply length_seq. Qed.

Lemma argsort_NoDup (a : list float) : NoDup (argsort a).
Proof. rewrite (argsort_perm a). apply NoDup_seq. Qed.

Lemma argsort_elem (a : list float) (i : nat) : i ∈ argsort a ↔ i < length a.
Proof. rewrite (argsort_perm a), elem_of_seq. lia. Qed.

Lemma argsort_bound (a : list float) : Forall (λ i, i < length a) (argsort a).
Proof. apply Forall_forall. intros i. apply argsort_elem. Qed.
End argsort.

(** ** C4 and C9: [extract_keywords] *)

Lemma index_of_lookup (vocab : list str) (i : nat) (t : str) :
  NoDup vocab → vocab !! i = Some t → index_of t vocab = Some i.
Proof.
  intros Hnd Hi. unfold index_of.
  destruct (list_find (λ u, u = t) vocab) as [[j u]|] eqn:Hfind; simpl.
  - apply list_find_Some in Hfind as (Hj & -> & _).
    f_equal. by eapply NoDup_lookup.
  - exfalso. eapply list_find_None in Hfind.
    rewrite Forall_forall in Hfind. apply (Hfind t); [|reflexivity].
    apply list_elem_of_lookup. by exists i.
Qed.

Section keywords.
Context `{Unicode, NLTK, Numpy, !ArgsortSpec}.

Lemma keywords_raise_without_terms (text : str) (N : Z) :
  corpus_tokens text = [] → extract_keywords text N = Raise empty_vocabulary.
Proof.
  intros Ht. unfold extract_keywords. fold (filtered_words text).
  rewrite fit_transform_raises; [reflexivity|].
  simpl. rewrite app_nil_r. exact Ht.
Qed.

Lemma length_keyword_scores (text : str) :
  length (keyword_scores text) = length (build_vocabulary [corpus_tokens text]).
Proof. apply length_dense_row. Qed.

(** When the vectorizer finds a term, [extract_keywords] returns the
    terms at the first [N] indices of the reversed index sort. *)
Lemma keywords_return_with_terms (text : str) (N : Z) :
  corpus_tokens text ≠ [] →
  let vocab := build_vocabulary [corpus_tokens text] in
  ∃ keywords,
    extract_keywords text N = Ok keywords ∧
    Forall2 (λ i t, vocab !! i = Some t)
      (slice_to N (reverse (argsort (keyword_scores text)))) keywords.
Proof.
  intros Ht vocab. unfold extract_keywords. fold (filtered_words text).
  rewrite fit_transform_returns by (simpl; rewrite app_nil_r; exact Ht).
  cbn [mbind result_bind fmap list_fmap]. fold (corpus_tokens text). fold vocab.
  unfold flatten, toarray, get_feature_names_out.
  cbn [concat vocabulary_ columns rows fmap list_fmap]. rewrite app_nil_r.
  change (dense_row vocab _) with (keyword_scores text).
  destruct (comprehension_getitem vocab
              (slice_to N (reverse (argsort (keyword_scores text)))))
    as (keywords & Hrun & Hks).
  { unfold slice_to. apply Forall_take, Forall_reverse.
    replace (length vocab) with (length (keyword_scores text))
      by apply length_keyword_scores.
    apply argsort_bound. }
  exists keywords. rewrite Hrun. split; [reflexivity | exact Hks].
Qed.

Lemma term_score_lookup (text : str) (i : nat) (t : str) :
  corpus_tokens text ≠ [] →
  build_vocabulary [corpus_tokens text] !! i = Some t →
  term_score text t = keyword_scores text !! i.
Proof.
  intros Ht Hi. unfold term_score.
  rewrite fit_transform_returns by (simpl; rewrite app_nil_r; exact Ht).
  cbn [fmap list_fmap]. fold (corpus_tokens text).
  unfold flatten, toarray, get_feature_names_out.
  cbn [concat vocabulary_ columns rows fmap list_fmap]. rewrite app_nil_r.
  fold (keyword_scores text).
  rewrite (index_of_lookup _ i t) by (try apply build_vocabulary_NoDup; done).
  reflexivity.
Qed.

(** C4, amended. [extract_keywords] raises the [ValueError] of the
    vectorizer when the filtered tokens leave the vectorizer no term of
    two or more word characters, as the empty text does, and it returns
    its keywords without raising for every other text. *)
Theorem extract_keywords_raises_iff (text : str) (N : Z) :
  (analyzer (str_join (py " ") (filtered_words text)) = [] →
   extract_keywords text N = Raise empty_vocabulary) ∧
  (analyzer (str_join (py " ") (filtered_words text)) ≠ [] →
   ∃ keywords, extract_keywords text N = Ok keywords).
Proof.
  split.
  - apply keywords_raise_without_terms.
  - intros Ht. destruct (keywords_return_with_terms text N Ht) as (ks & Hks & _).
    by exists ks.
Qed.

(** The keywords depend on the tokens the vectorizer finds only up to
    their order, as long as the sum of the squares of the weights comes
    out the same. *)
Lemma keywords_blind_to_token_order (text text' : str) (N : Z) :
  corpus_tokens text ≡ₚ corpus_tokens text' →
  square_sum (weights [corpus_tokens text] (corpus_tokens text))
  = square_sum (weights [corpus_tokens text'] (corpus_tokens text')) →
  extract_keywords text N = extract_keywords text' N.
Proof.
  intros Hp Hsq.
  assert (Hscores : keyword_scores text = keyword_scores text').
  { unfold keyword_scores. rewrite (build_vocabulary_perm _ _ Hp).
    by apply dense_row_perm. }
  destruct (decide (corpus_tokens text = [])) as [Hnil|Ht].
  - rewrite (keywords_raise_without_terms text N Hnil).
    rewrite Hnil in Hp. apply Permutation_nil_l in Hp.
    by rewrite (keywords_raise_without_terms text' N).
  - assert (Ht' : corpus_tokens text' ≠ []).
    { intros Hnil. rewrite Hnil in Hp. by apply Permutation_nil_r in Hp. }
    destruct (keywords_return_with_terms text N Ht) as (ks & -> & Hks).
    destruct (keywords_return_with_terms text' N Ht') as (ks' & -> & Hks').
    f_equal. rewrite <- Hscores, <- (build_vocabulary_perm _ _ Hp) in Hks'.
    clear -Hks Hks'.
    revert ks' Hks'. induction Hks as [|i t idx ks Hi _ IH]; intros ks' Hks'.
    + by apply Forall2_nil_inv_l in Hks'.
    + apply Forall2_cons_inv_l in Hks' as (t' & ks'' & Hi' & Hks' & ->).
      f_equal; [congruence | by apply IH].
Qed.

(** C9, amended. The keywords come in descending order of TF-IDF score:
    a keyword never has a higher score than one before it.  The ranking
    does not look at where a term first occurs: two texts whose tokens,
    as the vectorizer finds them, differ only in their order get the same
    keywords in the same order, so terms of equal score are ordered by
    the index sort alone.  This holds when the counts of the terms,
    listed in the order of their first occurrence, are the same in both
    texts, as when terms of equal count change places; and in general
    when the weights have the same sum of squares, the one number the
    order of the additions can change in its last bit. *)
Theorem extract_keywords_descending (text : str) (N : Z) (keywords : list str) :
  extract_keywords text N = Ok keywords →
  (∀ (p q : nat) (t u : str) (x y : float),
     p < q → keywords !! p = Some t → keywords !! q = Some u →
     term_score text t = Some x → term_score text u = Some y →
     np_le y x = true) ∧
  (∀ text' : str,
     corpus_tokens text' ≡ₚ corpus_tokens text →
     square_sum (weights [corpus_tokens text'] (corpus_tokens text'))
     = square_sum (weights [corpus_tokens text] (corpus_tokens text)) →
     extract_keywords text' N = Ok keywords) ∧
  (∀ text' : str,
     corpus_tokens text' ≡ₚ corpus_tokens text →
     (λ t, term_count t (corpus_tokens text'))
       <$> stored_terms [corpus_tokens text'] (corpus_tokens text')
     = (λ t, term_count t (corpus_tokens text))
         <$> stored_terms [corpus_tokens text] (corpus_tokens text) →
     extract_keywords text' N = Ok keywords).
Proof.
  intros Hrun.
  assert (Hblind : ∀ text' : str,
            corpus_tokens text' ≡ₚ corpus_tokens text →
            square_sum (weights [corpus_tokens text'] (corpus_tokens text'))
            = square_sum (weights [corpus_tokens text] (corpus_tokens text)) →
            extract_keywords text' N = Ok keywords)
    by (intros text' Hp Hsq; by rewrite (keywords_blind_to_token_order text' text N Hp Hsq)).
  split; [|split; [exact Hblind|]];
    [|intros text' Hp Hcounts; apply (Hblind text' Hp), square_sum_counts, Hcounts].
  - intros p q t u x y Hpq Hp Hq Hx Hy.
    destruct (decide (corpus_tokens text = [])) as [Hnil|Ht].
    { rewrite (keywords_raise_without_terms text N Hnil) in Hrun. discriminate. }
    destruct (keywords_return_with_terms text N Ht) as (ks & Hks & Hidx).
    rewrite Hrun in Hks. injection Hks as <-.
    set (vocab := build_vocabulary [corpus_tokens text]) in *.
    set (row := keyword_scores text) in *.
    destruct (Forall2_lookup_r _ _ _ _ _ Hidx Hp) as (i & Hi & Hti).
    destruct (Forall2_lookup_r _ _ _ _ _ Hidx Hq) as (j & Hj & Huj).
    rewrite (term_score_lookup text i t Ht Hti) in Hx.
    rewrite (term_score_lookup text j u Ht Huj) in Hy.
    fold row in Hx, Hy.
    unfold slice_to in Hi, Hj.
    apply lookup_take_Some in Hi as [Hi _]. apply lookup_take_Some in Hj as [Hj _].
    apply reverse_lookup_Some in Hi as [Hi Hplen].
    apply reverse_lookup_Some in Hj as [Hj Hqlen].
    apply (argsort_sorted row (length (argsort row) - S q) (length (argsort row) - S p)
             j i y x); [lia|done..].
Qed.
End keywords.

(** ** C6: where the keywords come from *)

Section filtered.
Context `{Unicode, NLTK, Numpy, !ArgsortSpec}.

Lemma word_runs_cons (s : str) : ∃ r rs, word_runs s = r :: rs.
Proof.
  induction s as [|c s (r & rs & IH)]; simpl; [by eexists _, _|].
  destruct (isword c); [rewrite IH|]; by eexists _, _.
Qed.

Lemma word_runs_word (w rest : str) :
  Forall (λ c, isword c = true) w →
  word_runs (w ++ rest)
  = match word_runs rest with
    | r :: rs => (w ++ r) :: rs
    | [] => [w]
    end.
Proof.
  destruct (word_runs_cons rest) as (r & rs & Hrest).
  induction 1 as [|c w Hc Hw IH]; simpl.
  - by rewrite Hrest.
  - rewrite Hc, IH, Hrest. reflexivity.
Qed.

(** Words of word characters joined by spaces are the runs of the
    joined string. *)
Lemma word_runs_join (ws : list str) :
  isword 32%N = false →
  Forall (λ w, Forall (λ c, isword c = true) w) ws →
  ws ≠ [] →
  word_runs (str_join (py " ") ws) = ws.
Proof.
  intros Hsp. induction 1 as [|w ws Hw Hws IH]; intros Hne; [done|].
  destruct ws as [|w' ws].
  - pose proof (word_runs_word w [] Hw) as Hrun. simpl in Hrun.
    rewrite !app_nil_r in Hrun. exact Hrun.
  - change (str_join (py " ") (w :: w' :: ws))
      with (w ++ 32%N :: str_join (py " ") (w' :: ws)).
    rewrite (word_runs_word w _ Hw).
    change (word_runs (32%N :: str_join (py " ") (w' :: ws)))
      with (if isword 32%N
            then match word_runs (str_join (py " ") (w' :: ws)) with
                 | r :: rs => (32%N :: r) :: rs
                 | [] => [[32%N]]
                 end
            else [] :: word_runs (str_join (py " ") (w' :: ws))).
    rewrite Hsp, IH by done. by rewrite app_nil_r.
Qed.

(** When the filtered tokens are made of word characters and lower-casing
    their joined text again changes nothing, as for ASCII words, every
    keyword is one of the filtered tokens: the lower case of an alphabetic
    token that is not a stop word.  With [N] of 0 or more there are at
    most [N] keywords. *)
Lemma keywords_from_filtered_tokens (text : str) (N : Z) (keywords : list str) :
  isword 32%N = false →
  Forall (λ w, Forall (λ c, isword c = true) w) (filtered_words text) →
  str_lower (str_join (py " ") (filtered_words text))
  = str_join (py " ") (filtered_words text) →
  extract_keywords text N = Ok keywords →
  Forall (λ k, ∃ word, word ∈ word_tokenize text ∧ str_isalpha word = true ∧
                       k = str_lower word ∧ k ∉ STOPWORDS) keywords ∧
  ((0 ≤ N)%Z → (Z.of_nat (length keywords) ≤ N)%Z).
Proof.
  intros Hsp Hword Hlower Hrun.
  destruct (decide (corpus_tokens text = [])) as [Hnil|Ht].
  { rewrite (keywords_raise_without_terms text N Hnil) in Hrun. discriminate. }
  destruct (keywords_return_with_terms text N Ht) as (ks & Hks & Hidx).
  rewrite Hrun in Hks. injection Hks as <-. split.
  - apply Forall_forall. intros k Hk.
    apply list_elem_of_lookup in Hk as [p Hp].
    destruct (Forall2_lookup_r _ _ _ _ _ Hidx Hp) as (i & _ & Hi).
    assert (Hin : k ∈ filtered_words text).
    { apply list_elem_of_lookup_2 in Hi. unfold build_vocabulary in Hi.
      rewrite sorted_perm, elem_of_remove_dups in Hi. simpl in Hi.
      rewrite app_nil_r in Hi. unfold corpus_tokens, analyzer, token_pattern in Hi, Ht.
      rewrite Hlower in Hi, Ht. apply list_elem_of_filter in Hi as [_ Hi].
      destruct (decide (filtered_words text = [])) as [Hemp|Hne].
      - rewrite Hemp in Ht. by exfalso.
      - by rewrite word_runs_join in Hi. }
    unfold filtered_words in Hin. apply list_elem_of_fmap in Hin as (word & -> & Hin).
    apply list_elem_of_filter in Hin as [[Halpha Hstop] Hin]. by exists word.
  - intros HN. apply Forall2_length in Hidx. rewrite <- Hidx.
    unfold slice_to, slice_index. rewrite bool_decide_eq_false_2 by lia.
    rewrite length_take. lia.
Qed.
End filtered.

(** ** C3: a text of more than K sentences *)

Section summary.
Context `{Unicode, NLTK, Numpy, !ArgsortSpec}.

Lemma sentence_scores_length (text : str) :
  concat (analyzer <$> sent_tokenize text) ≠ [] →
  length (sentence_scores text) = length (sent_tokenize text).
Proof.
  intros Hc. unfold sentence_scores. rewrite fit_transform_returns by exact Hc.
  unfold sum_axis1. cbn [rows]. rewrite !length_fmap. reflexivity.
Qed.

(** [summarize_text] on a text of more than [K] sentences with a term:
    the sentences at the last [K] indices of the index sort. *)
Lemma summary_returns_with_terms (text : str) (K : Z) :
  (0 < K < Z.of_nat (length (sent_tokenize text)))%Z →
  concat (analyzer <$> sent_tokenize text) ≠ [] →
  let top := drop (length (sent_tokenize text) - Z.to_nat K)
               (argsort (sentence_scores text)) in
  ∃ ranked,
    summarize_text text K = Ok (str_join (py " ") ranked) ∧
    Forall2 (λ i s, sent_tokenize text !! i = Some s) top ranked.
Proof.
  intros HK Hc. pose proof (sentence_scores_length text Hc) as Hlen. cbv zeta.
  unfold summarize_text. rewrite bool_decide_eq_false_2 by lia.
  unfold sentence_scores in *. rewrite fit_transform_returns in * by exact Hc.
  cbn [mbind result_bind].
  set (scores := sum_axis1 _) in *.
  set (top := drop _ (argsort scores)).
  assert (Hslice : slice_from (- K) (argsort scores) = top).
  { unfold slice_from, slice_index, top. rewrite argsort_length, Hlen.
    rewrite bool_decide_eq_true_2 by lia. f_equal. lia. }
  rewrite Hslice.
  destruct (comprehension_getitem (sent_tokenize text) top) as (ranked & -> & Hr).
  { unfold top. apply Forall_drop. rewrite <- Hlen. apply argsort_bound. }
  exists ranked. split; [reflexivity | exact Hr].
Qed.

(** Without a term the vectorizer raises and [summarize_text] with it. *)
Lemma summary_raises_without_terms (text : str) (K : Z) :
  (K < Z.of_nat (length (sent_tokenize text)))%Z →
  concat (analyzer <$> sent_tokenize text) = [] →
  summarize_text text K = Raise empty_vocabulary.
Proof.
  intros HK Hc. unfold summarize_text. rewrite bool_decide_eq_false_2 by lia.
  rewrite fit_transform_raises by exact Hc. reflexivity.
Qed.

(** C3, amended. Take [K] of 1 or more and a text of more than [K]
    sentences.  When the vectorizer finds no term of two or more word
    characters in the sentences, [summarize_text] raises its [ValueError].
    Otherwise [summarize_text] returns [K] sentences joined by single
    spaces: [K] distinct sentences of the text, each with a score that no
    sentence left out exceeds, in ascending order of score.  The score of
    a sentence is the sum of its TF-IDF weights, the sentences of the text
    being the corpus. *)
Theorem summarize_text_top_k (text : str) (K : Z) :
  (0 < K < Z.of_nat (length (sent_tokenize text)))%Z →
  (concat (analyzer <$> sent_tokenize text) = [] →
   summarize_text text K = Raise empty_vocabulary) ∧
  (concat (analyzer <$> sent_tokenize text) ≠ [] →
   ∃ (top : list nat) (ranked : list str),
     summarize_text text K = Ok (str_join (py " ") ranked) ∧
     Forall2 (λ i s, sent_tokenize text !! i = Some s) top ranked ∧
     Z.of_nat (length top) = K ∧
     NoDup top ∧
     (∀ p q i j x y,
        p < q → top !! p = Some i → top !! q = Some j →
        sentence_scores text !! i = Some x → sentence_scores text !! j = Some y →
        np_le x y = true) ∧
     (∀ i j x y,
        i ∈ top → j ∉ top →
        sentence_scores text !! i = Some x → sentence_scores text !! j = Some y →
        np_le y x = true)).
Proof.
  intros HK. split; [apply summary_raises_without_terms; lia|].
  intros Hc. pose proof (sentence_scores_length text Hc) as Hlen.
  destruct (summary_returns_with_terms text K HK Hc) as (ranked & Hrun & Hr).
  set (scores := sentence_scores text) in *.
  set (d := length (sent_tokenize text) - Z.to_nat K) in *.
  exists (drop d (argsort scores)), ranked.
  split; [exact Hrun|]. split; [exact Hr|]. split; [|split; [|split]].
  - rewrite length_drop, argsort_length, Hlen. unfold d. lia.
  - pose proof (argsort_NoDup scores) as Hnd.
    rewrite <- (take_drop d (argsort scores)) in Hnd.
    by apply NoDup_app in Hnd as (_ & _ & Hnd).
  - intros p q i j x y Hpq Hp Hq Hx Hy. rewrite lookup_drop in Hp, Hq.
    apply (argsort_sorted scores (d + p) (d + q) i j x y); [lia|done..].
  - intros i j x y Hi Hj Hx Hy.
    apply list_elem_of_lookup in Hi as [p Hp]. rewrite lookup_drop in Hp.
    assert (Hjin : j ∈ argsort scores).
    { apply argsort_elem. by eapply lookup_lt_Some. }
    apply list_elem_of_lookup in Hjin as [r Hr'].
    assert (r < d).
    { destruct (decide (r < d)) as [|Hge]; [done|]. exfalso. apply Hj.
      apply list_elem_of_lookup. exists (r - d). rewrite lookup_drop.
      by replace (d + (r - d)) with r by lia. }
    apply (argsort_sorted scores r (d + p) j i y x); [lia|done..].
Qed.
End summary.

(** C3, the claim as stated fails: a text of four sentences in which the
    vectorizer finds no term of two or more word characters makes
    [summarize_text] raise instead of returning three sentences. *)
Lemma summarize_text_raises_without_terms :
  length (sent_tokenize (py "A! B! C! D!")) = 4 ∧
  summarize_text (py "A! B! C! D!") 3 = Raise empty_vocabulary.
Proof. split; vm_compute; reflexivity. Qed.

(** C4, the claim as stated fails: on the empty text [extract_keywords]
    raises instead of returning an empty sequence. *)
Lemma extract_keywords_raises_on_empty_text :
  extract_keywords (py "") 5 = Raise empty_vocabulary.
Proof. vm_compute. reflexivity. Qed.

(** C9, the claim as stated fails: in [apple banana] both terms have the
    same score and [apple] occurs first, yet [banana] is ranked first. *)
Lemma extract_keywords_tie_not_by_first_occurrence :
  filtered_words (py "apple banana") = [py "apple"; py "banana"] ∧
  term_score (py "apple banana") (py "apple")
  = term_score (py "apple banana") (py "banana") ∧
  extract_keywords (py "apple banana") 5 = Ok [py "banana"; py "apple"].
Proof. repeat split; vm_compute; reflexivity. Qed.

(** C6, the code at the token [İthe] (U+0130, then [the]): the token is
    alphabetic and is not a stop word, its lower case has the mark U+0307
    after the [i], the vectorizer splits at the mark, and the keyword
    returned is the stop word [the]. *)
Theorem extract_keywords_returns_stop_word :
  let text := 304%N :: py "the" in
  word_tokenize text = [text] ∧
  str_isalpha text = true ∧
  filtered_words text = [105%N :: 775%N :: py "the"] ∧
  extract_keywords text 5 = Ok [py "the"] ∧
  py "the" ∈ STOPWORDS.
Proof.
  repeat split; vm_compute; reflexivity.
Qed.

(** ** The order of numpy on binary64 and the reference index sort *)

Lemma np_lt_key (x y : float) :
  np_lt x y = true ↔ key_lt (sf_key (Prim2SF x)) (sf_key (Prim2SF y)).
Proof.
  unfold np_lt, PrimFloat.is_nan. rewrite FloatAxioms.ltb_spec, !FloatAxioms.eqb_spec.
  generalize (Prim2SF x) (Prim2SF y). clear x y. intros a b.
  unfold SFltb, SFeqb.
  destruct a as [sa|sa| |sa ma ea], b as [sb|sb| |sb mb eb];
    try destruct sa; try destruct sb; simpl;
    try (split; [intros; lia | intros; try done; lia]);
    rewrite ?Z.compare_refl, ?Pos.compare_cont_refl; simpl;
    try (split; [intros; lia | intros; try done; lia]);
    change (Pos.compare_cont Eq ma mb) with (ma ?= mb)%positive;
    destruct (Z.compare_spec ea eb), (Pos.compare_spec ma mb); simpl;
    split; intros; try done; lia.
Qed.

Lemma np_lt_asym (x y : float) : np_lt x y = true → np_lt y x = false.
Proof.
  intros Hxy. apply np_lt_key in Hxy.
  destruct (np_lt y x) eqn:Hyx; [|reflexivity]. apply np_lt_key in Hyx.
  destruct (sf_key (Prim2SF x)) as [[x1 x2] x3], (sf_key (Prim2SF y)) as [[y1 y2] y3].
  simpl in *. lia.
Qed.

Lemma np_le_trans (x y z : float) :
  np_le x y = true → np_le y z = true → np_le x z = true.
Proof.
  unfold np_le. intros Hxy Hyz.
  apply negb_true_iff in Hxy, Hyz. apply negb_true_iff.
  destruct (np_lt z x) eqn:Hzx; [|reflexivity]. exfalso.
  apply np_lt_key in Hzx.
  assert (Hyx : ¬ key_lt (sf_key (Prim2SF y)) (sf_key (Prim2SF x)))
    by (rewrite <- np_lt_key; congruence).
  assert (Hzy : ¬ key_lt (sf_key (Prim2SF z)) (sf_key (Prim2SF y)))
    by (rewrite <- np_lt_key; congruence).
  destruct (sf_key (Prim2SF x)) as [[x1 x2] x3], (sf_key (Prim2SF y)) as [[y1 y2] y3],
    (sf_key (Prim2SF z)) as [[z1 z2] z3].
  simpl in *. lia.
Qed.

Lemma np_lt_le (x y : float) : np_lt x y = true → np_le x y = true.
Proof. intros Hxy. unfold np_le. by rewrite (np_lt_asym x y Hxy). Qed.

Lemma StronglySorted_lookup {A} (R : relation A) (l : list A) (p q : nat) (x y : A) :
  StronglySorted R l → p < q → l !! p = Some x → l !! q = Some y → R x y.
Proof.
  intros Hs. revert p q. induction Hs as [|z l Hs IH Hz]; intros p q Hpq Hp Hq.
  - by rewrite lookup_nil in Hp.
  - destruct q as [|q]; [lia|]. simpl in Hq. destruct p as [|p]; simpl in Hp.
    + injection Hp as <-. rewrite Forall_forall in Hz. apply Hz.
      apply list_elem_of_lookup. by exists q.
    + apply (IH p q); [lia|done..].
Qed.

Section insertion.
Import Reference.
Context (a : list float).

Lemma insert_index_perm (i : nat) (l : list nat) : insert_index a i l ≡ₚ i :: l.
Proof.
  induction l as [|j l IH]; simpl; [reflexivity|].
  destruct (np_lt _ _); [|reflexivity].
  rewrite IH. apply Permutation_swap.
Qed.

Lemma insert_index_sorted (i : nat) (l : list nat) :
  StronglySorted (in_order a) l → StronglySorted (in_order a) (insert_index a i l).
Proof.
  induction 1 as [|j l Hs IH Hj]; simpl.
  - repeat constructor.
  - destruct (np_lt (List.nth j a 0%float) (List.nth i a 0%float)) eqn:Hlt.
    + constructor; [exact IH|].
      rewrite insert_index_perm. constructor; [|exact Hj].
      apply np_lt_le, Hlt.
    + assert (Hij : in_order a i j) by (unfold in_order, np_le; by rewrite Hlt).
      constructor; [by constructor|]. constructor; [exact Hij|].
      eapply Forall_impl; [exact Hj|].
      intros k Hjk. unfold in_order in *. by eapply np_le_trans.
Qed.

Lemma insertion_argsort_perm : insertion_argsort a ≡ₚ seq 0 (length a).
Proof.
  unfold insertion_argsort. induction (seq 0 (length a)) as [|i l IH]; simpl.
  - reflexivity.
  - rewrite insert_index_perm, IH. reflexivity.
Qed.

Lemma insertion_argsort_sorted : StronglySorted (in_order a) (insertion_argsort a).
Proof.
  unfold insertion_argsort. induction (seq 0 (length a)) as [|i l IH]; simpl.
  - constructor.
  - apply insert_index_sorted, IH.
Qed.
End insertion.

(** The reference index sort keeps the promise of [argsort]. *)
#[global] Instance reference_argsort_spec : @ArgsortSpec Reference.numpy.
Proof.
  split.
  - apply insertion_argsort_perm.
  - intros a p q i j x y Hpq Hp Hq Hx Hy.
    pose proof (StronglySorted_lookup _ _ p q i j
                  (insertion_argsort_sorted a) Hpq Hp Hq) as Hord.
    unfold in_order in Hord.
    rewrite !nth_lookup, Hx, Hy in Hord. exact Hord.
Qed.

(** ** The theorems at concrete inputs *)

(** C3, amended, at a text of four sentences and [K = 3]. *)
Lemma summarize_text_top_k_witness :
  let text :=
    py "The cat sat. The dog ran fast today. Birds fly. Fish swim in the deep sea." in
  length (sent_tokenize text) = 4 ∧
  ∃ (top : list nat) (ranked : list str),
    summarize_text text 3 = Ok (str_join (py " ") ranked) ∧
    Forall2 (λ i s, sent_tokenize text !! i = Some s) top ranked ∧
    length top = 3.
Proof.
  intros text. split; [vm_compute; reflexivity|].
  destruct (summarize_text_top_k text 3) as [_ Htop].
  - vm_compute. split; reflexivity.
  - destruct Htop as (top & ranked & Hrun & Hr & Hlen & _).
    + vm_compute. discriminate.
    + exists top, ranked. split; [exact Hrun|]. split; [exact Hr|]. lia.
Defined.

(** C4, amended, at the empty text and at a text of two words. *)
Lemma extract_keywords_raises_iff_witness :
  extract_keywords (py "") 5 = Raise empty_vocabulary ∧
  ∃ keywords, extract_keywords (py "apple banana") 5 = Ok keywords.
Proof.
  split.
  - apply (proj1 (extract_keywords_raises_iff (py "") 5)).
    vm_compute. reflexivity.
  - apply (proj2 (extract_keywords_raises_iff (py "apple banana") 5)).
    vm_compute. discriminate.
Defined.

(** C9, amended, at a text in which [apple] occurs twice and [banana]
    once, and at the same words in another order. *)
Lemma extract_keywords_descending_witness :
  let text := py "banana apple apple" in
  ∃ x y : float,
    extract_keywords text 5 = Ok [py "apple"; py "banana"] ∧
    term_score text (py "apple") = Some x ∧
    term_score text (py "banana") = Some y ∧
    np_le y x = true ∧
    extract_keywords (py "apple banana apple") 5 = Ok [py "apple"; py "banana"].
Proof.
  intros text. eexists _, _.
  split; [vm_compute; reflexivity|].
  split; [vm_compute; reflexivity|].
  split; [vm_compute; reflexivity|].
  destruct (extract_keywords_descending text 5 [py "apple"; py "banana"])
    as (Hdesc & Hblind & _); [vm_compute; reflexivity|].
  split.
  - apply (Hdesc 0 1 (py "apple") (py "banana"));
      [lia | reflexivity | reflexivity | vm_compute; reflexivity
      | vm_compute; reflexivity].
  - apply Hblind; [|vm_compute; reflexivity]. vm_compute.
    apply (Permutation_swap [98; 97; 110; 97; 110; 97]%N [97; 112; 112; 108; 101]%N
             [[97; 112; 112; 108; 101]%N]).
Defined.



(** C8 at the statistics of three files of 600 bytes together: the
    average is 200 bytes. *)
Lemma generate_report_average_witness :
  ∃ avg : number,
    average_size 600 3 = Ok avg ∧ (number_value avg == 200)%Q.
Proof.
  destruct (generate_report_average three_processed)
    as (avg & st' & Havg & Hpos & _).
  exists avg. split; [exact Havg|].
  rewrite Hpos by (vm_compute; reflexivity). reflexivity.
Defined.

(** The order of the additions decides a ranking.  Before
    normalisation the first two sentences have the same three weights,
    stored in different orders; the squares are added in storage order
    and the sum of a row is its first stored value plus the sum of the
    others, which gives the first sentence the higher score by one unit
    in the last place, and the summary of one sentence is the first
    sentence. *)
Lemma summarize_text_sum_order :
  let text := py "Aaa bbb ccc. Bbb ccc ddd. Ccc eee. Fff ggg." in
  summarize_text text 1 = Ok (py "Aaa bbb ccc.") ∧
  Prim2SF <$> take 2 (sentence_scores text)
  = [S754_finite false 7672453319186741 (-52); S754_finite false 7672453319186740 (-52)].
Proof. split; vm_compute; reflexivity. Qed.

(** With [K = 0] the slice [[-0:]] is the whole index sort: every
    sentence is returned. *)
Lemma summarize_text_zero_sentences :
  summarize_text (py "Birds fly. Fish swim.") 0 = Ok (py "Birds fly. Fish swim.").
Proof. vm_compute. reflexivity. Qed.

(** * Further properties of the code *)

(** ** The states two runs of a primitive relate *)

(** The report: it returns, prints its six lines for the counters it
    finds, and changes nothing else but for adding the missing counters
    with 0. *)
Lemma generate_report_prints (st : state) :
  ∃ st',
    generate_report st = (Ok (), st') ∧
    stdout st' = stdout st ++
      report_lines (counter (py "processed_files") st) (counter (py "failed_files") st)
        (counter (py "total_size") st)
        (if bool_decide (counter (py "processed_files") st = 0%Z) then PyInt 0
         else PyFloat (inject_Z (counter (py "total_size") st)
                       / inject_Z (counter (py "processed_files") st))) ∧
    (∀ k, counter k st' = counter k st) ∧
    fs st' = fs st ∧ collection st' = collection st ∧
    mongo_faults st' = mongo_faults st ∧ log st' = log st.
Proof.
  set (processed := counter (py "processed_files") st).
  set (failed := counter (py "failed_files") st).
  set (total := counter (py "total_size") st).
  pose proof (average_size_total total processed) as Havg.
  set (avg := if bool_decide (processed = 0%Z) then PyInt 0
              else PyFloat (inject_Z total / inject_Z processed)) in *.
  set (st1 := snd (report_get (py "processed_files") st)).
  set (st2 := snd (report_get (py "failed_files") st1)).
  set (st3 := snd (report_get (py "total_size") st2)).
  assert (Hf : counter (py "failed_files") st1 = failed)
    by apply report_get_counter.
  assert (Ht : counter (py "total_size") st2 = total).
  { unfold st2. rewrite report_get_counter. apply report_get_counter. }
  assert (Hc : ∀ k, counter k st3 = counter k st).
  { intros k. unfold st3, st2, st1. by rewrite !report_get_counter. }
  destruct (report_get_world (py "processed_files") st) as (F1 & C1 & M1 & L1 & O1).
  destruct (report_get_world (py "failed_files") st1) as (F2 & C2 & M2 & L2 & O2).
  destruct (report_get_world (py "total_size") st2) as (F3 & C3 & M3 & L3 & O3).
  fold st1 in F1, C1, M1, L1, O1. fold st2 in F2, C2, M2, L2, O2.
  fold st3 in F3, C3, M3, L3, O3.
  assert (Hrun : generate_report st =
                 (lift (average_size total processed) ≫= λ avg_size,
                  print [Lit (10%N :: py "--------- PDF Processing Report ---------")];;
                  print [Lit (py "Total PDFs processed: "); Field (PyInt processed)];;
                  print [Lit (py "Total PDFs failed: "); Field (PyInt failed)];;
                  total_kb ← lift (truediv (PyInt total) (PyInt 1024));
                  print [Lit (py "Total file size processed: "); Fixed2 total_kb;
                         Lit (py " KB")];;
                  avg_kb ← lift (truediv avg_size (PyInt 1024));
                  print [Lit (py "Average file size: "); Fixed2 avg_kb; Lit (py " KB")];;
                  print [Lit (py "----------------------------------------")]) st3).
  { unfold generate_report.
    rewrite (M_bind_ok _ _ st processed st1) by apply report_get_run.
    rewrite (M_bind_ok _ _ st1 failed st2)
      by (rewrite <- Hf; apply report_get_run).
    rewrite (M_bind_ok _ _ st2 total st3)
      by (rewrite <- Ht; apply report_get_run).
    reflexivity. }
  clearbody st3. clear Hf Ht. clearbody st2 st1.
  rewrite Hrun. clear Hrun.
  unfold lift, print. rewrite !M_bind_unfold, Havg.
  rewrite (truediv_nonzero (PyInt total) 1024) by done.
  rewrite (truediv_nonzero avg 1024) by done.
  cbn [stdout set_stdout].
  eexists. split; [reflexivity|].
  cbn [stdout set_stdout fs collection mongo_faults log].
  unfold counter in *. cbn [report_data set_stdout].
  split; [|split; [exact Hc|]].
  - unfold report_lines. rewrite O3, O2, O1, <- !(assoc_L (++)). reflexivity.
  - repeat split; congruence.
Qed.

(** ** [list_pdfs] *)

Lemma filter_endswith_sublist (entries : list str) :
  List.filter (λ f, endswith f (py ".pdf")) entries `sublist_of` entries.
Proof.
  induction entries as [|f entries IH]; simpl; [constructor|].
  destruct (endswith f (py ".pdf")); [by apply sublist_skip | by apply sublist_cons].
Qed.

(** On a directory [list_pdfs] returns the entries whose name ends in
    [.pdf], all of them and only them, in the order of the listing, and
    leaves the state alone.  The test looks at the case: it is the suffix
    [.pdf] itself that counts. *)
Theorem list_pdfs_candidates (folder_path : str) (st : state) (sz : Z)
    (entries : list str) :
  fs st !! folder_path = Some (Dir sz entries) →
  ∃ pdf_files,
    list_pdfs folder_path st = (Ok pdf_files, st) ∧
    pdf_files `sublist_of` entries ∧
    (∀ f, f ∈ pdf_files ↔ f ∈ entries ∧ py ".pdf" `suffix_of` f).
Proof.
  intros Hdir. exists (List.filter (λ f, endswith f (py ".pdf")) entries).
  split; [|split].
  - unfold list_pdfs, os_listdir. rewrite M_bind_unfold, Hdir. reflexivity.
  - apply filter_endswith_sublist.
  - intros f. rewrite !list_elem_of_In, filter_In. unfold endswith.
    by rewrite bool_decide_eq_true.
Qed.

(** The candidates of a directory with three entries. *)
Lemma list_pdfs_candidates_witness :
  ∃ pdf_files,
    list_pdfs (py "docs") one_pdf = (Ok pdf_files, one_pdf) ∧
    pdf_files `sublist_of` [py "a.pdf"; py "notes.txt"] ∧
    (∀ f, f ∈ pdf_files ↔ f ∈ [py "a.pdf"; py "notes.txt"] ∧ py ".pdf" `suffix_of` f).
Proof.
  apply (list_pdfs_candidates (py "docs") one_pdf 4096).
  vm_compute. reflexivity.
Defined.



(** ** [process_all_pdfs] at the edges *)

Section batch_edges.
Context `{Unicode, NLTK, Numpy}.

Lemma printable_missing_line (pdf_dir : str) :
  encodable pdf_dir = true → printable (missing_line pdf_dir) = true.
Proof.
  intros Hp. unfold missing_line, printable. cbn [forallb].
  rewrite encodable_app, Hp. reflexivity.
Qed.

(** A missing directory whose path standard output can encode: the run
    prints its one line and returns; no file is read, nothing is stored,
    logged or counted, and no report is printed. *)
Theorem process_all_pdfs_missing_directory (sched : nat → nat) (pdf_dir : str)
    (st : state) :
  fs st !! pdf_dir = None →
  encodable pdf_dir = true →
  process_all_pdfs sched pdf_dir st
  = (Ok (), set_stdout (stdout st ++ [[Lit (py "Directory does not exist: " ++ pdf_dir)]]) st).
Proof.
  intros Hnone Hp. unfold process_all_pdfs, os_path_exists. rewrite M_bind_unfold.
  rewrite Hnone, bool_decide_eq_false_2 by (by intros [? ?]). cbn [negb].
  apply (print_ok (missing_line pdf_dir)), printable_missing_line, Hp.
Qed.

(** A path that exists but is a file passes the existence test, and the
    [OSError] of [os.listdir] leaves [process_all_pdfs]: nothing is
    printed, not even the report. *)
Theorem process_all_pdfs_on_a_file (sched : nat → nat) (pdf_dir : str) (st : state)
    (sz : Z) (pdf : result (list (result str))) :
  fs st !! pdf_dir = Some (File sz pdf) →
  process_all_pdfs sched pdf_dir st = (Raise (OSError (py "Not a directory")), st).
Proof.
  intros Hfile. unfold process_all_pdfs, os_path_exists. rewrite M_bind_unfold.
  rewrite Hfile, bool_decide_eq_true_2 by (by eexists). cbn [negb].
  unfold list_pdfs, os_listdir. rewrite !M_bind_unfold, Hfile. reflexivity.
Qed.

Lemma filter_endswith_none (entries : list str) :
  Forall (λ f, ¬ py ".pdf" `suffix_of` f) entries →
  List.filter (λ f, endswith f (py ".pdf")) entries = [].
Proof.
  induction 1 as [|f entries Hf _ IH]; simpl; [reflexivity|].
  unfold endswith at 1. rewrite bool_decide_eq_false_2 by exact Hf. exact IH.
Qed.

(** A directory without an entry that ends in [.pdf]: the run is the
    report alone. *)
Theorem process_all_pdfs_no_candidates (sched : nat → nat) (pdf_dir : str) (st : state)
    (sz : Z) (entries : list str) :
  fs st !! pdf_dir = Some (Dir sz entries) →
  Forall (λ f, ¬ py ".pdf" `suffix_of` f) entries →
  process_all_pdfs sched pdf_dir st = generate_report st ∧
  collection (snd (process_all_pdfs sched pdf_dir st)) = collection st ∧
  log (snd (process_all_pdfs sched pdf_dir st)) = log st.
Proof.
  intros Hdir Hnone.
  assert (Hrun : process_all_pdfs sched pdf_dir st = generate_report st).
  { unfold process_all_pdfs, os_path_exists. rewrite M_bind_unfold.
    rewrite Hdir, bool_decide_eq_true_2 by (by eexists). cbn [negb].
    unfold list_pdfs, os_listdir. rewrite !M_bind_unfold, Hdir. cbv beta iota.
    rewrite (filter_endswith_none entries Hnone).
    unfold pool_map. cbn [fmap list_fmap pool_run]. reflexivity. }
  rewrite Hrun. destruct (generate_report_prints st) as (st' & -> & _ & _ & _ & Hc & _ & Hl).
  by repeat split.
Qed.
End batch_edges.

(** ** One call of [process_pdf] *)


Lemma insert_one_rejected (metadata : document) (st : state) (e : exn)
    (faults : list (option exn)) :
  mongo_faults st = Some e :: faults →
  insert_one metadata st = (Raise e, set_mongo_faults faults st).
Proof. intros Hfaults. unfold insert_one. rewrite Hfaults. reflexivity. Qed.

Lemma insert_one_raises_world (metadata : document) (st st1 : state) (e : exn) :
  insert_one metadata st = (Raise e, st1) →
  collection st1 = collection st ∧ report_data st1 = report_data st ∧
  log st1 = log st ∧ stdout st1 = stdout st ∧ fs st1 = fs st ∧
  mongo_faults st = Some e :: mongo_faults st1.
Proof.
  unfold insert_one. destruct (mongo_faults st) as [|[e'|] faults] eqn:Hf; try done.
  intros [= <- <-]. by cbn.
Qed.

Lemma parse_pdf_pages (file_path : str) (st : state) (sz : Z) (texts : list str) :
  fs st !! file_path = Some (File sz (Ok (Ok <$> texts))) →
  parse_pdf file_path st = (Ok (pages_text texts), st).
Proof.
  intros Hfile. unfold parse_pdf, open_reader. rewrite Hfile, extract_pages_ok.
  reflexivity.
Qed.

Lemma os_path_getsize_file (file_path : str) (st : state) (sz : Z)
    (pdf : result (list (result str))) :
  fs st !! file_path = Some (File sz pdf) →
  os_path_getsize file_path st = (Ok sz, st).
Proof. intros Hfile. unfold os_path_getsize. by rewrite Hfile. Qed.

Section one_call_outcomes.
Context `{Unicode, NLTK, Numpy}.

(** The [except] block with every field of the state. *)
Lemma process_pdf_except_world (file_path : str) (e : exn) (st : state) :
  ∃ st',
    process_pdf_except file_path e st
    = (if printable (processing_error file_path e) then Ok ()
       else Raise surrogates_not_allowed, st') ∧
    collection st' = collection st ∧ fs st' = fs st ∧
    mongo_faults st' = mongo_faults st ∧
    log st' = log st ++ [processing_error file_path e] ∧
    stdout st'
    = (if printable (processing_error file_path e)
       then stdout st ++ [processing_error file_path e] else stdout st) ∧
    counter (py "failed_files") st' = (counter (py "failed_files") st + 1)%Z ∧
    counter (py "processed_files") st' = counter (py "processed_files") st ∧
    counter (py "total_size") st' = counter (py "total_size") st.
Proof.
  pose proof keys_distinct as (Hpf & Htf & Htp).
  destruct (process_pdf_except_run file_path e st)
    as (st' & Hrun & Hd & Hl & Ho & Hf & Hc & Hm).
  exists st'. split; [exact Hrun|].
  rewrite !(counter_insert _ _ _ _ _ Hd), decide_True, !decide_False by done.
  by repeat split.
Qed.

(** The line of the [except] block for the exception of an empty
    content. *)
Lemma printable_empty_content (file_path : str) :
  encodable file_path = true →
  printable (processing_error file_path empty_content) = true.
Proof. intros Hp. by apply printable_processing_error. Qed.

Lemma printable_stored_line (file_path : str) :
  encodable (os_path_basename file_path) = true →
  printable (stored_line file_path) = true.
Proof.
  intros Hp. unfold stored_line, printable. cbn [forallb].
  rewrite encodable_app, Hp. reflexivity.
Qed.

(** What a failure of the [try] block leaves, whether the line of the
    [except] block can be printed or not. *)
Lemma process_pdf_except_counts (file_path : str) (e : exn) (st st1 : state) :
  report_data st1 = report_data st →
  let st' := snd (process_pdf_except file_path e st1) in
  collection st' = collection st1 ∧
  counter (py "processed_files") st' = counter (py "processed_files") st ∧
  counter (py "total_size") st' = counter (py "total_size") st ∧
  counter (py "failed_files") st' = (counter (py "failed_files") st + 1)%Z.
Proof.
  intros Hd1.
  destruct (process_pdf_except_world file_path e st1)
    as (st' & -> & Hc' & _ & _ & _ & _ & Hf' & Hp' & Ht').
  cbn [snd]. rewrite Hc', Hf', Hp', Ht'. unfold counter. by rewrite Hd1.
Qed.

(** One call appends at most one record, the one of its file, built from
    a text that is not blank. *)
Lemma process_pdf_appends_at_most_one (file_path : str) (st : state) :
  let st' := snd (process_pdf file_path st) in
  collection st' = collection st ∨
  ∃ (sz : Z) (text summary : str) (keywords : list str),
    collection st' = collection st ++ [metadata_of file_path sz text summary keywords] ∧
    strip text ≠ [].
Proof.
  destruct (parse_pdf_world file_path st) as (text & st0 & Hp & Hd & Hfs & Hc & Hm & Ho).
  assert (Hfail : ∀ e st1,
            collection st1 = collection st → report_data st1 = report_data st0 →
            collection (snd (process_pdf_except file_path e st1)) = collection st).
  { intros e st1 Hc1 Hd1.
    destruct (process_pdf_except_counts file_path e st0 st1 Hd1) as (Hc' & _).
    by rewrite Hc'. }
  unfold process_pdf, try_except. rewrite (process_pdf_try_unfold _ _ _ _ Hp).
  case_bool_decide as Hstrip; [left; by apply Hfail|].
  destruct (summarize_text text 3) as [summary|e]; [|left; by apply Hfail].
  destruct (extract_keywords text 5) as [keywords|e]; [|left; by apply Hfail].
  destruct (os_path_getsize file_path st0) as [[size0|e] st0'];
    [|left; by apply Hfail].
  destruct (insert_one _ st0) as [[[]|e] st1] eqn:Hins.
  - right. exists size0, text, summary, keywords. split; [|exact Hstrip].
    assert (Hc1 : collection st1
                  = collection st ++ [metadata_of file_path size0 text summary keywords]).
    { unfold insert_one in Hins.
      destruct (mongo_faults st0) as [|[e|] faults]; try done;
        injection Hins as <-; cbn [collection set_collection set_mongo_faults];
        by rewrite Hc. }
    destruct (printable (stored_line file_path)).
    + destruct (counted_fields file_path size0 st1) as (Hc' & _).
      cbn [snd]. by rewrite Hc'.
    + destruct (process_pdf_except_world file_path surrogates_not_allowed st1)
        as (st' & -> & Hc' & _).
      cbn [snd]. by rewrite Hc'.
  - left. apply insert_one_raises_world in Hins as (Hc1 & Hd1 & _).
    apply Hfail; congruence.
Qed.

(** One call on a file whose name can be printed either appends the
    record of the file and counts it as processed, or leaves the
    collection and counts a failure. *)
Lemma process_pdf_appends_or_fails (file_path : str) (st : state) :
  encodable (os_path_basename file_path) = true →
  let st' := snd (process_pdf file_path st) in
  (∃ (sz : Z) (text summary : str) (keywords : list str),
     collection st' = collection st ++ [metadata_of file_path sz text summary keywords] ∧
     strip text ≠ [] ∧
     counter (py "processed_files") st' = (counter (py "processed_files") st + 1)%Z ∧
     counter (py "total_size") st' = (counter (py "total_size") st + sz)%Z ∧
     counter (py "failed_files") st' = counter (py "failed_files") st) ∨
  (collection st' = collection st ∧
   counter (py "processed_files") st' = counter (py "processed_files") st ∧
   counter (py "total_size") st' = counter (py "total_size") st ∧
   counter (py "failed_files") st' = (counter (py "failed_files") st + 1)%Z).
Proof.
  intros Hname.
  destruct (parse_pdf_world file_path st) as (text & st0 & Hp & Hd & Hfs & Hc & Hm & Ho).
  assert (Hfail : ∀ e st1,
            collection st1 = collection st → report_data st1 = report_data st →
            let st' := snd (process_pdf_except file_path e st1) in
            collection st' = collection st ∧
            counter (py "processed_files") st' = counter (py "processed_files") st ∧
            counter (py "total_size") st' = counter (py "total_size") st ∧
            counter (py "failed_files") st' = (counter (py "failed_files") st + 1)%Z).
  { intros e st1 Hc1 Hd1.
    destruct (process_pdf_except_counts file_path e st st1 Hd1) as (Hc' & Hrest).
    cbv zeta. by rewrite Hc', Hc1. }
  unfold process_pdf, try_except. rewrite (process_pdf_try_unfold _ _ _ _ Hp).
  rewrite (printable_stored_line file_path Hname).
  case_bool_decide as Hstrip; [right; apply Hfail; congruence|].
  destruct (summarize_text text 3) as [summary|e]; [|right; apply Hfail; congruence].
  destruct (extract_keywords text 5) as [keywords|e]; [|right; apply Hfail; congruence].
  destruct (os_path_getsize file_path st0) as [[size0|e] st0'];
    [|right; apply Hfail; congruence].
  destruct (insert_one _ st0) as [[[]|e] st1] eqn:Hins.
  - left. exists size0, text, summary, keywords.
    destruct (counted_fields file_path size0 st1)
      as (Hc' & _ & _ & _ & _ & Hp' & Ht' & Hf').
    cbn [snd]. rewrite Hc', Hp', Ht', Hf'.
    unfold insert_one in Hins.
    destruct (mongo_faults st0) as [|[e|] faults]; try done;
      injection Hins as <-; unfold counter;
      cbn [collection report_data set_collection set_mongo_faults];
      rewrite Hc, Hd; by repeat split.
  - right. apply insert_one_raises_world in Hins as (Hc1 & Hd1 & _).
    apply Hfail; congruence.
Qed.

(** The store and the counters agree.  In the process that runs it, a
    call of [process_pdf] on a file whose name standard output can encode
    either appends one record for the file to the collection, adds one to
    [processed_files] and the size of the record to [total_size], and
    leaves [failed_files]; or it leaves the collection, [processed_files]
    and [total_size], and adds one to [failed_files].  For such a file, a
    file counted as failed is not stored and a stored file is not counted
    as failed. *)
Theorem process_pdf_store_agrees_with_count (file_path : str) (st : state) :
  encodable (os_path_basename file_path) = true →
  let st' := snd (process_pdf file_path st) in
  (∃ d : document,
     collection st' = collection st ++ [d] ∧ path d = file_path ∧
     counter (py "processed_files") st' = (counter (py "processed_files") st + 1)%Z ∧
     counter (py "total_size") st' = (counter (py "total_size") st + size d)%Z ∧
     counter (py "failed_files") st' = counter (py "failed_files") st) ∨
  (collection st' = collection st ∧
   counter (py "processed_files") st' = counter (py "processed_files") st ∧
   counter (py "total_size") st' = counter (py "total_size") st ∧
   counter (py "failed_files") st' = (counter (py "failed_files") st + 1)%Z).
Proof.
  intros Hname.
  destruct (process_pdf_appends_or_fails file_path st Hname)
    as [(sz & text & summary & keywords & Hc & _ & Hrest)|Hfail].
  - left. by exists (metadata_of file_path sz text summary keywords).
  - by right.
Qed.

End one_call_outcomes.

Section one_call_cases.
Context `{Unicode, NLTK, Numpy}.


(** A file that cannot be opened or read, at a path that can be
    printed: [parse_pdf] logs the error and returns the empty text, which
    [process_pdf] rejects, so the log gets two lines, the second one about
    an empty content; one failure is counted, nothing is stored and the
    server is not asked. *)
Theorem process_pdf_unreadable (file_path : str) (st : state) (e : exn) :
  open_reader file_path st = Raise e →
  encodable file_path = true →
  ∃ st',
    process_pdf file_path st = (Ok (), st') ∧
    collection st' = collection st ∧
    mongo_faults st' = mongo_faults st ∧
    log st' = log st ++ [reading_error file_path e; processing_error file_path empty_content] ∧
    stdout st' = stdout st ++ [processing_error file_path empty_content] ∧
    counter (py "failed_files") st' = (counter (py "failed_files") st + 1)%Z ∧
    counter (py "processed_files") st' = counter (py "processed_files") st.
Proof.
  intros Hopen Hpath.
  assert (Hp : parse_pdf file_path st
               = (Ok [], set_log (log st ++ [reading_error file_path e]) st))
    by (unfold parse_pdf; rewrite Hopen; reflexivity).
  unfold process_pdf, try_except. rewrite (process_pdf_try_unfold _ _ _ _ Hp).
  rewrite bool_decide_eq_true_2 by reflexivity.
  destruct (process_pdf_except_world file_path empty_content
              (set_log (log st ++ [reading_error file_path e]) st))
    as (st' & Hrun & Hc & _ & Hm & Hl & Ho & Hf & Hpr & _).
  rewrite (printable_empty_content file_path Hpath) in Hrun, Ho.
  exists st'. split; [exact Hrun|].
  rewrite Hc, Hm, Hl, Ho, Hf, Hpr. cbn [log set_log]. rewrite <- (assoc_L (++)).
  by repeat split.
Qed.

Lemma blank_pages_text (texts : list str) :
  isspace_char 32%N = true → Forall blank texts → blank (pages_text texts).
Proof.
  intros Hsp. induction 1 as [|t texts Ht _ IH]; intros c Hc.
  - by apply elem_of_nil in Hc.
  - change (pages_text (t :: texts)) with ((t ++ [32%N]) ++ pages_text texts) in Hc.
    apply elem_of_app in Hc as [Hc|Hc]; [|by apply IH].
    apply elem_of_app in Hc as [Hc|Hc]; [by apply Ht|].
    apply list_elem_of_In in Hc. destruct Hc as [<-|[]]. exact Hsp.
Qed.

(** A PDF without text, no page at all or white space on every page, at
    a path that can be printed, is read without an error, rejected for its
    empty content and counted as failed; nothing is stored. *)
Theorem process_pdf_without_text (file_path : str) (st : state) (sz : Z)
    (texts : list str) :
  isspace_char 32%N = true →
  fs st !! file_path = Some (File sz (Ok (Ok <$> texts))) →
  Forall blank texts →
  encodable file_path = true →
  ∃ st',
    process_pdf file_path st = (Ok (), st') ∧
    collection st' = collection st ∧
    log st' = log st ++ [processing_error file_path empty_content] ∧
    stdout st' = stdout st ++ [processing_error file_path empty_content] ∧
    counter (py "failed_files") st' = (counter (py "failed_files") st + 1)%Z ∧
    counter (py "processed_files") st' = counter (py "processed_files") st.
Proof.
  intros Hsp Hfile Hb Hpath.
  unfold process_pdf, try_except.
  rewrite (process_pdf_try_unfold _ _ _ _ (parse_pdf_pages _ _ _ _ Hfile)).
  rewrite bool_decide_eq_true_2 by (by apply strip_blank, blank_pages_text).
  destruct (process_pdf_except_world file_path empty_content st)
    as (st' & Hrun & Hc & _ & _ & Hl & Ho & Hf & Hpr & _).
  rewrite (printable_empty_content file_path Hpath) in Hrun, Ho.
  exists st'. split; [exact Hrun|]. by repeat split.
Qed.

(** A server that refuses the insertion, with a path and an error that
    can be printed: the exception is logged and printed, the file is
    counted as failed and not as processed, the collection is as before,
    and the line of the store is not printed. *)
Theorem process_pdf_insert_refused (file_path : str) (st : state) (sz : Z)
    (texts : list str) (summary : str) (keywords : list str) (e : exn)
    (faults : list (option exn)) :
  fs st !! file_path = Some (File sz (Ok (Ok <$> texts))) →
  strip (pages_text texts) ≠ [] →
  summarize_text (pages_text texts) 3 = Ok summary →
  extract_keywords (pages_text texts) 5 = Ok keywords →
  mongo_faults st = Some e :: faults →
  encodable file_path = true → encodable (exn_str e) = true →
  ∃ st',
    process_pdf file_path st = (Ok (), st') ∧
    collection st' = collection st ∧
    mongo_faults st' = faults ∧
    log st' = log st ++ [processing_error file_path e] ∧
    stdout st' = stdout st ++ [processing_error file_path e] ∧
    counter (py "failed_files") st' = (counter (py "failed_files") st + 1)%Z ∧
    counter (py "processed_files") st' = counter (py "processed_files") st ∧
    counter (py "total_size") st' = counter (py "total_size") st.
Proof.
  intros Hfile Hstrip Hsum Hkw Hfaults Hpath He.
  unfold process_pdf, try_except.
  rewrite (process_pdf_try_unfold _ _ _ _ (parse_pdf_pages _ _ _ _ Hfile)).
  rewrite bool_decide_eq_false_2 by exact Hstrip.
  rewrite Hsum, Hkw, (os_path_getsize_file _ _ _ _ Hfile).
  rewrite (insert_one_rejected _ _ _ _ Hfaults).
  destruct (process_pdf_except_world file_path e (set_mongo_faults faults st))
    as (st' & Hrun & Hc & _ & Hm & Hl & Ho & Hf & Hpr & Ht).
  rewrite (printable_processing_error file_path e Hpath He) in Hrun, Ho.
  exists st'. split; [exact Hrun|]. by repeat split.
Qed.
End one_call_cases.

(** ** A whole run *)

(** [os.path.basename] undoes [os.path.join] on a name without a
    slash. *)
Lemma os_path_basename_app (a b : str) :
  os_path_basename (a ++ 47%N :: b) = os_path_basename b.
Proof.
  unfold os_path_basename. rewrite foldl_app. cbn [foldl].
  rewrite N.eqb_refl. reflexivity.
Qed.

Lemma os_path_basename_name (acc f : str) :
  47%N ∉ f →
  foldl (λ acc c, if (c =? 47)%N then [] else acc ++ [c]) acc f = acc ++ f.
Proof.
  revert acc. induction f as [|c f IH]; intros acc Hf; cbn [foldl].
  - by rewrite app_nil_r.
  - apply not_elem_of_cons in Hf as [Hc Hf].
    destruct (N.eqb_spec c 47) as [->|_]; [done|].
    rewrite IH by exact Hf. by rewrite <- (assoc_L (++)).
Qed.

Lemma os_path_basename_join (a f : str) :
  47%N ∉ f → os_path_basename (os_path_join a f) = f.
Proof.
  intros Hf. unfold os_path_join.
  assert (Hstart : startswith f (py "/") = false).
  { unfold startswith. apply bool_decide_eq_false_2. intros [k ->].
    apply Hf. left. }
  assert (Hname : os_path_basename f = f)
    by (unfold os_path_basename; by rewrite os_path_basename_name).
  rewrite Hstart.
  destruct (bool_decide (a = []) || endswith a (py "/")) eqn:Hsep.
  - apply orb_true_iff in Hsep as [Ha|Ha].
    + apply bool_decide_eq_true_1 in Ha as ->. exact Hname.
    + unfold endswith in Ha. apply bool_decide_eq_true_1 in Ha as [k ->].
      rewrite <- (assoc_L (++)). change (py "/" ++ f) with (47%N :: f).
      by rewrite os_path_basename_app.
  - change (py "/" ++ f) with (47%N :: f). by rewrite os_path_basename_app.
Qed.

Lemma encodable_join (a f : str) :
  encodable a = true → encodable f = true → encodable (os_path_join a f) = true.
Proof.
  intros Ha Hf. unfold os_path_join.
  destruct (startswith f (py "/")); [exact Hf|].
  destruct (bool_decide (a = []) || endswith a (py "/"));
    rewrite !encodable_app, Ha, Hf; reflexivity.
Qed.

Lemma endswith_filter (entries : list str) (f : str) :
  f ∈ List.filter (λ f, endswith f (py ".pdf")) entries ↔
  f ∈ entries ∧ py ".pdf" `suffix_of` f.
Proof.
  rewrite !list_elem_of_In, filter_In. unfold endswith.
  by rewrite bool_decide_eq_true.
Qed.

Section whole_run.
Context `{Unicode, NLTK, Numpy}.

(** The records a map of [process_pdf] over the pool adds: one for each
    task of some of the tasks, in their order, each with the path of its
    task and a content that is not blank. *)
Lemma pool_run_records (sched : nat → nat) (tasks : list str) (i : nat)
    (workers : gmap nat (gmap str Z)) (st : state) :
  ∃ new : list document,
    collection (snd (pool_run sched process_pdf i tasks workers st))
    = collection st ++ new ∧
    path <$> new `sublist_of` tasks ∧
    Forall (λ d, filename d = os_path_basename (path d)) new.
Proof.
  revert i workers st. induction tasks as [|task tasks IH]; intros i workers st.
  - exists []. cbn. rewrite app_nil_r. by repeat split.
  - cbn [pool_run].
    set (worker := default (report_data st) (workers !! sched i)).
    pose proof (process_pdf_appends_at_most_one task (set_report_data worker st))
      as Hcall.
    destruct (process_pdf task (set_report_data worker st)) as [[[]|e] st1].
    + destruct (IH (S i) (<[sched i := report_data st1]> workers)
                  (set_report_data (report_data st) st1)) as (new & Hnew & Hsub & Hall).
      destruct (pool_run sched process_pdf (S i) tasks _ _) as [rs st2].
      cbn [snd] in *. cbn [collection set_report_data] in Hnew, Hcall.
      destruct Hcall as [Hc|(sz & text & summary & keywords & Hc & _)].
      * exists new. rewrite Hnew, Hc. split; [reflexivity|].
        split; [by apply sublist_cons | exact Hall].
      * exists (metadata_of task sz text summary keywords :: new).
        rewrite Hnew, Hc, <- (assoc_L (++)). split; [reflexivity|].
        split; [by apply sublist_skip | by constructor].
    + cbn [snd] in *. cbn [collection set_report_data] in Hcall |- *.
      destruct Hcall as [Hc|(sz & text & summary & keywords & Hc & _)].
      * exists []. rewrite Hc, app_nil_r. split; [reflexivity|].
        split; [apply sublist_nil_l | constructor].
      * exists [metadata_of task sz text summary keywords].
        split; [exact Hc|]. split; [apply sublist_skip, sublist_nil_l | by repeat constructor].
Qed.

(** The records of a run on a directory, whether the map over the pool
    returns or raises. *)
Lemma process_all_pdfs_records (sched : nat → nat) (pdf_dir : str)
    (st : state) (sz : Z) (entries : list str) :
  fs st !! pdf_dir = Some (Dir sz entries) →
  Forall (λ f, 47%N ∉ f) entries →
  ∃ new : list document,
    collection (snd (process_all_pdfs sched pdf_dir st)) = collection st ++ new ∧
    filename <$> new `sublist_of` List.filter (λ f, endswith f (py ".pdf")) entries ∧
    Forall (λ d, path d = os_path_join pdf_dir (filename d)) new.
Proof.
  intros Hdir Hslash.
  set (pdf_files := List.filter (λ f, endswith f (py ".pdf")) entries).
  assert (Hlist : list_pdfs pdf_dir st = (Ok pdf_files, st)).
  { unfold list_pdfs, os_listdir. rewrite M_bind_unfold, Hdir. reflexivity. }
  assert (Hbase : ∀ f, f ∈ pdf_files → os_path_basename (os_path_join pdf_dir f) = f).
  { intros f Hf. apply os_path_basename_join.
    apply endswith_filter in Hf as [Hf _]. rewrite Forall_forall in Hslash. by apply Hslash. }
  set (tasks := (λ pdf_file, os_path_join pdf_dir pdf_file) <$> pdf_files).
  destruct (pool_run_records sched tasks 0 ∅ st) as (new & Hnew & Hsub & Hall).
  assert (Hnames : filename <$> new = os_path_basename <$> (path <$> new)).
  { rewrite <- list_fmap_compose. apply Forall_fmap_ext_1.
    eapply Forall_impl; [exact Hall|]. by intros d ->. }
  assert (Htasks : os_path_basename <$> tasks = pdf_files).
  { unfold tasks. rewrite <- list_fmap_compose. rewrite <- (list_fmap_id pdf_files) at 2.
    apply Forall_fmap_ext_1, Forall_forall. intros f Hf. by apply Hbase. }
  exists new. split; [|split].
  - unfold process_all_pdfs, os_path_exists. rewrite M_bind_unfold.
    rewrite Hdir, bool_decide_eq_true_2 by (by eexists). cbn [negb].
    rewrite (M_bind_ok _ _ _ _ _ Hlist). fold tasks. rewrite M_bind_unfold.
    unfold pool_map.
    destruct (pool_run sched process_pdf 0 tasks ∅ st) as [[rs|e] st1];
      cbn [snd] in Hnew |- *; [|exact Hnew].
    destruct (generate_report_prints st1) as (st' & -> & _ & _ & _ & Hc & _).
    cbn [snd]. by rewrite Hc.
  - rewrite Hnames, <- Htasks. by apply fmap_sublist.
  - apply Forall_forall. intros d Hd.
    assert (Hpath : path d ∈ tasks).
    { apply (sublist_submseteq _ _) in Hsub.
      eapply elem_of_submseteq; [|exact Hsub]. by apply list_elem_of_fmap_2. }
    apply list_elem_of_fmap in Hpath as (f & Hpath & Hf).
    rewrite Forall_forall in Hall. rewrite (Hall d Hd), Hpath, (Hbase f Hf). reflexivity.
Qed.


(** The tasks of a directory can be printed when the directory and its
    entries can. *)
Lemma encodable_tasks (pdf_dir : str) (entries : list str) :
  encodable pdf_dir = true → Forall (λ f, encodable f = true) entries →
  Forall (λ task, encodable task = true)
    ((λ pdf_file, os_path_join pdf_dir pdf_file)
       <$> List.filter (λ f, endswith f (py ".pdf")) entries).
Proof.
  intros Hdir Hentries. apply Forall_fmap, Forall_forall. intros f Hf.
  apply endswith_filter in Hf as [Hf _]. rewrite Forall_forall in Hentries.
  apply encodable_join; [exact Hdir | by apply Hentries].
Qed.

(** A run on a directory, step by step: the map over the pool, then the
    report. *)
Lemma process_all_pdfs_directory_run (sched : nat → nat) (pdf_dir : str) (st : state)
    (sz : Z) (entries : list str) :
  fs st !! pdf_dir = Some (Dir sz entries) →
  encodable pdf_dir = true → Forall (λ f, encodable f = true) entries →
  printable_faults st →
  ∃ (st1 st' : state),
    st1 = snd (pool_map sched process_pdf
                 ((λ pdf_file, os_path_join pdf_dir pdf_file)
                    <$> List.filter (λ f, endswith f (py ".pdf")) entries) st) ∧
    generate_report st1 = (Ok (), st') ∧
    process_all_pdfs sched pdf_dir st = (Ok (), st').
Proof.
  intros Hdir Hpath Hentries Hfaults.
  set (pdf_files := List.filter (λ f, endswith f (py ".pdf")) entries).
  assert (Hlist : list_pdfs pdf_dir st = (Ok pdf_files, st)).
  { unfold list_pdfs, os_listdir. rewrite M_bind_unfold, Hdir. reflexivity. }
  set (tasks := (λ pdf_file, os_path_join pdf_dir pdf_file) <$> pdf_files).
  unfold process_all_pdfs, os_path_exists. rewrite M_bind_unfold.
  rewrite Hdir, bool_decide_eq_true_2 by (by eexists). cbn [negb].
  rewrite (M_bind_ok _ _ _ _ _ Hlist). fold tasks. rewrite M_bind_unfold.
  unfold pool_map.
  pose proof (pool_run_process_pdf sched tasks 0 ∅ st
                (encodable_tasks pdf_dir entries Hpath Hentries) Hfaults) as Hok.
  destruct (pool_run sched process_pdf 0 tasks ∅ st) as [rs st1].
  cbn [fst snd] in Hok |- *. rewrite Hok.
  destruct (generate_report_prints st1) as (st' & Hrun & _).
  exists st1, st'. split; [reflexivity|]. split; [exact Hrun|]. by rewrite Hrun.
Qed.

(** What the report of a run shows.  On a directory whose path and
    entries standard output can encode, and with a server whose errors
    it can encode, whatever the files and the schedule of the pool,
    [process_all_pdfs] returns, leaves every counter of its process as it
    was, and ends its output with the report of those counters: the
    report shows the counts from before the run, not the files of the
    run. *)
Theorem process_all_pdfs_reports_old_counters (sched : nat → nat) (pdf_dir : str)
    (st : state) (sz : Z) (entries : list str) :
  fs st !! pdf_dir = Some (Dir sz entries) →
  encodable pdf_dir = true → Forall (λ f, encodable f = true) entries →
  printable_faults st →
  ∃ (st' : state) (before : list fstring),
    process_all_pdfs sched pdf_dir st = (Ok (), st') ∧
    (∀ k, counter k st' = counter k st) ∧
    stdout st' = before ++
      report_lines (counter (py "processed_files") st) (counter (py "failed_files") st)
        (counter (py "total_size") st)
        (if bool_decide (counter (py "processed_files") st = 0%Z) then PyInt 0
         else PyFloat (inject_Z (counter (py "total_size") st)
                       / inject_Z (counter (py "processed_files") st))).
Proof.
  intros Hdir Hpath Hentries Hfaults.
  destruct (process_all_pdfs_directory_run sched pdf_dir st sz entries
              Hdir Hpath Hentries Hfaults) as (st1 & st' & Hst1 & Hreport & Hrun).
  assert (Hcount : ∀ k, counter k st1 = counter k st).
  { intros k. unfold counter. rewrite Hst1. unfold pool_map.
    by rewrite pool_run_report_data. }
  destruct (generate_report_prints st1) as (st'' & Hreport' & Hout & Hc & _).
  rewrite Hreport in Hreport'. injection Hreport' as <-.
  exists st', (stdout st1). split; [exact Hrun|]. split.
  - intros k. by rewrite Hc.
  - rewrite Hout, !Hcount. reflexivity.
Qed.
End whole_run.

(** ** Slices, indices and joins *)

Lemma length_slice_from {A} (k : Z) (l : list A) :
  (k < Z.of_nat (length l))%Z →
  length (slice_from (- k) l) = last_count (length l) k.
Proof.
  intros Hk. unfold slice_from, slice_index, last_count. rewrite length_drop.
  repeat case_bool_decide; lia.
Qed.

Lemma length_slice_to {A} (k : Z) (l : list A) :
  length (slice_to k l) = first_count (length l) k.
Proof.
  unfold slice_to, slice_index, first_count. rewrite length_take.
  repeat case_bool_decide; lia.
Qed.

Lemma slice_to_take {A} (k k' : Z) (l : list A) :
  (0 ≤ k ≤ k')%Z → slice_to k l = take (Z.to_nat k) (slice_to k' l).
Proof.
  intros Hk. unfold slice_to, slice_index.
  rewrite !bool_decide_eq_false_2 by lia. rewrite take_take.
  destruct (decide (Z.to_nat k ≤ length l)).
  - f_equal. lia.
  - rewrite !take_ge by lia. reflexivity.
Qed.

Lemma slice_from_drop {A} (k k' : Z) (l : list A) :
  (0 < k ≤ k')%Z → (k' ≤ Z.of_nat (length l))%Z →
  slice_from (- k) l = drop (Z.to_nat (k' - k)) (slice_from (- k') l).
Proof.
  intros Hk Hlen. unfold slice_from, slice_index.
  rewrite !bool_decide_eq_true_2 by lia. rewrite drop_drop. f_equal. lia.
Qed.

(** The elements at given indices are determined by the indices. *)
Lemma lookups_functional {A} (l : list A) (idx : list nat) (xs ys : list A) :
  Forall2 (λ i x, l !! i = Some x) idx xs →
  Forall2 (λ i x, l !! i = Some x) idx ys → xs = ys.
Proof.
  intros Hxs. revert ys. induction Hxs as [|i x idx xs Hx _ IH]; intros ys Hys.
  - by apply Forall2_nil_inv_l in Hys.
  - apply Forall2_cons_inv_l in Hys as (y & ys' & Hy & Hys & ->).
    f_equal; [congruence | by apply IH].
Qed.

Lemma lookups_NoDup {A} (l : list A) (idx : list nat) (xs : list A) :
  NoDup l → NoDup idx → Forall2 (λ i x, l !! i = Some x) idx xs → NoDup xs.
Proof.
  intros Hl Hidx Hxs. induction Hxs as [|i x idx xs Hx Hxs IH]; [constructor|].
  apply NoDup_cons in Hidx as [Hi Hidx]. constructor; [|by apply IH].
  intros Hin. apply Hi.
  apply list_elem_of_lookup in Hin as [p Hp].
  destruct (Forall2_lookup_r _ _ _ _ _ Hxs Hp) as (j & Hj & Hjx).
  rewrite (NoDup_lookup l i j x Hl Hx Hjx).
  apply list_elem_of_lookup. by exists p.
Qed.

Lemma lookups_seq {A} (l : list A) :
  Forall2 (λ i x, l !! i = Some x) (seq 0 (length l)) l.
Proof.
  apply Forall2_same_length_lookup. split; [by rewrite length_seq|].
  intros p i x Hi Hx. apply lookup_seq in Hi as [-> _]. exact Hx.
Qed.

Lemma str_join_suffix (sep : str) (l : list str) (d : nat) :
  str_join sep (drop d l) `suffix_of` str_join sep l.
Proof.
  revert d. induction l as [|x l IH]; intros d; [by rewrite drop_nil|].
  destruct d as [|d]; [reflexivity|]. cbn [drop].
  etrans; [apply IH|].
  destruct l as [|y l]; [apply suffix_nil|].
  change (str_join sep (x :: y :: l)) with (x ++ sep ++ str_join sep (y :: l)).
  rewrite (assoc_L (++)). apply suffix_app_r. reflexivity.
Qed.

Lemma word_runs_words `{Unicode} (s : str) :
  Forall (λ r, Forall (λ c, isword c = true) r) (word_runs s).
Proof.
  induction s as [|c s IH]; cbn [word_runs]; [by repeat constructor|].
  destruct (isword c) eqn:Hc; [|by constructor].
  destruct (word_runs s) as [|r rs]; [by repeat constructor|].
  apply Forall_cons in IH as [Hr Hrs]. constructor; [by constructor|done].
Qed.

(** ** The keywords *)

Section keyword_facts.
Context `{Unicode, NLTK, Numpy, !ArgsortSpec}.

(** What [extract_keywords] returns when it returns: the terms of the
    vocabulary at the leading indices of the reversed index sort. *)
Lemma keywords_indices (text : str) (N : Z) (keywords : list str) :
  extract_keywords text N = Ok keywords →
  let vocab := build_vocabulary [corpus_tokens text] in
  let row := keyword_scores text in
  corpus_tokens text ≠ [] ∧ length row = length vocab ∧
  Forall2 (λ i t, vocab !! i = Some t) (slice_to N (reverse (argsort row))) keywords.
Proof.
  intros Hrun vocab row.
  destruct (decide (corpus_tokens text = [])) as [Hnil|Ht].
  { rewrite (keywords_raise_without_terms text N Hnil) in Hrun. discriminate. }
  destruct (keywords_return_with_terms text N Ht) as (ks & Hks & Hidx).
  rewrite Hrun in Hks. injection Hks as <-.
  split; [exact Ht|]. split; [apply length_keyword_scores | exact Hidx].
Qed.

(** The keywords are pairwise distinct terms of the text as the
    vectorizer tokenizes it, and their number follows the slice: with [V]
    distinct terms and [N] of 0 or more there are [min N V] keywords,
    fewer than [N] when the text has fewer terms, and with a negative [N]
    all terms but the [-N] of lowest rank. *)
Theorem extract_keywords_distinct_count (text : str) (N : Z) (keywords : list str) :
  extract_keywords text N = Ok keywords →
  NoDup keywords ∧
  Forall (λ k, k ∈ corpus_tokens text) keywords ∧
  length keywords = first_count (length (build_vocabulary [corpus_tokens text])) N.
Proof.
  intros Hrun. destruct (keywords_indices text N keywords Hrun) as (Ht & Hrow & Hidx).
  set (vocab := build_vocabulary [corpus_tokens text]) in *.
  set (row := keyword_scores text) in *.
  split; [|split].
  - apply (lookups_NoDup vocab (slice_to N (reverse (argsort row)))).
    + apply build_vocabulary_NoDup.
    + unfold slice_to. eapply sublist_NoDup; [|apply sublist_take].
      rewrite reverse_Permutation. apply argsort_NoDup.
    + exact Hidx.
  - apply Forall_forall. intros k Hk.
    apply list_elem_of_lookup in Hk as [p Hp].
    destruct (Forall2_lookup_r _ _ _ _ _ Hidx Hp) as (i & _ & Hi).
    apply list_elem_of_lookup_2 in Hi. unfold vocab, build_vocabulary in Hi.
    rewrite sorted_perm, elem_of_remove_dups in Hi. cbn in Hi.
    by rewrite app_nil_r in Hi.
  - rewrite <- (Forall2_length _ _ _ Hidx), length_slice_to, length_reverse,
      argsort_length, Hrow. reflexivity.
Qed.

(** Every keyword is a run of two or more word characters: a word of one
    letter is never a keyword. *)
Theorem extract_keywords_two_characters (text : str) (N : Z) (keywords : list str) :
  extract_keywords text N = Ok keywords →
  Forall (λ k, 2 ≤ length k ∧ Forall (λ c, isword c = true) k) keywords.
Proof.
  intros Hrun. destruct (keywords_indices text N keywords Hrun) as (_ & _ & Hidx).
  apply Forall_forall. intros k Hk.
  apply list_elem_of_lookup in Hk as [p Hp].
  destruct (Forall2_lookup_r _ _ _ _ _ Hidx Hp) as (i & _ & Hi).
  apply list_elem_of_lookup_2 in Hi. unfold build_vocabulary in Hi.
  rewrite sorted_perm, elem_of_remove_dups in Hi. cbn in Hi.
  rewrite app_nil_r in Hi. unfold corpus_tokens, analyzer, token_pattern in Hi.
  apply list_elem_of_filter in Hi as [Hlen Hrun'].
  split; [exact Hlen|].
  pose proof (word_runs_words (str_lower (str_join (py " ") (filtered_words text))))
    as Hwords.
  rewrite Forall_forall in Hwords. by apply Hwords.
Qed.

(** Asking for fewer keywords gives the beginning of the longer answer:
    for [0 <= N <= N'] the keywords for [N] are the first [N] of the
    keywords for [N']. *)
Theorem extract_keywords_prefix (text : str) (N N' : Z) (keywords' : list str) :
  (0 ≤ N ≤ N')%Z →
  extract_keywords text N' = Ok keywords' →
  extract_keywords text N = Ok (take (Z.to_nat N) keywords').
Proof.
  intros HN Hrun'.
  destruct (keywords_indices text N' keywords' Hrun') as (Ht & _ & Hidx').
  destruct (keywords_return_with_terms text N Ht) as (ks & Hrun & Hidx).
  rewrite Hrun. f_equal.
  set (vocab := build_vocabulary [corpus_tokens text]) in *.
  set (row := keyword_scores text) in *.
  rewrite (slice_to_take N N') in Hidx by exact HN.
  apply (lookups_functional vocab _ _ _ Hidx).
  by apply Forall2_take.
Qed.
End keyword_facts.

(** ** The summary *)

Section summary_facts.
Context `{Unicode, NLTK, Numpy, !ArgsortSpec}.

(** What [summarize_text] returns when the text has more than [K]
    sentences: the sentences at the indices of the slice of the index
    sort. *)
Lemma summary_indices (text : str) (K : Z) (summary : str) :
  (K < Z.of_nat (length (sent_tokenize text)))%Z →
  summarize_text text K = Ok summary →
  length (sentence_scores text) = length (sent_tokenize text) ∧
  ∃ ranked,
    summary = str_join (py " ") ranked ∧
    Forall2 (λ i s, sent_tokenize text !! i = Some s)
      (slice_from (- K) (argsort (sentence_scores text))) ranked.
Proof.
  intros HK Hrun.
  destruct (decide (concat (analyzer <$> sent_tokenize text) = [])) as [Hnil|Hc].
  { rewrite (summary_raises_without_terms text K HK Hnil) in Hrun. discriminate. }
  pose proof (sentence_scores_length text Hc) as Hlen. split; [exact Hlen|].
  unfold summarize_text in Hrun. rewrite bool_decide_eq_false_2 in Hrun by lia.
  unfold sentence_scores in *. rewrite fit_transform_returns in * by exact Hc.
  cbn [mbind result_bind] in Hrun.
  set (scores := sum_axis1 _) in *.
  destruct (comprehension_getitem (sent_tokenize text)
              (slice_from (- K) (argsort scores))) as (ranked & Hcomp & Hr).
  { unfold slice_from. apply Forall_drop. rewrite <- Hlen. apply argsort_bound. }
  rewrite Hcomp in Hrun. injection Hrun as <-. by exists ranked.
Qed.

(** A summary is made of sentences of the text, each at most once, for
    every [K].  With at most [K] sentences it has them all; otherwise it
    has [K] of them for a positive [K], every sentence for [K = 0] (the
    slice [[-0:]] is the whole list), and all but [-K] of them for a
    negative [K]. *)
Theorem summarize_text_selects_sentences (text : str) (K : Z) (summary : str) :
  summarize_text text K = Ok summary →
  ∃ (top : list nat) (ranked : list str),
    summary = str_join (py " ") ranked ∧
    Forall2 (λ i s, sent_tokenize text !! i = Some s) top ranked ∧
    NoDup top ∧
    length top
    = if bool_decide (Z.of_nat (length (sent_tokenize text)) ≤ K)%Z
      then length (sent_tokenize text)
      else last_count (length (sent_tokenize text)) K.
Proof.
  intros Hrun. case_bool_decide as HK.
  - exists (seq 0 (length (sent_tokenize text))), (sent_tokenize text).
    unfold summarize_text in Hrun. rewrite bool_decide_eq_true_2 in Hrun by exact HK.
    injection Hrun as <-. split; [reflexivity|]. split; [apply lookups_seq|].
    split; [apply NoDup_seq | apply length_seq].
  - destruct (summary_indices text K summary) as (Hlen & ranked & -> & Hr);
      [lia | exact Hrun |].
    exists (slice_from (- K) (argsort (sentence_scores text))), ranked.
    split; [reflexivity|]. split; [exact Hr|]. split.
    + unfold slice_from. eapply sublist_NoDup; [apply argsort_NoDup | apply sublist_drop].
    + rewrite length_slice_from by (rewrite argsort_length, Hlen; lia).
      by rewrite argsort_length, Hlen.
Qed.

(** A shorter summary is the end of a longer one: for
    [0 < K <= K'] and a text of more than [K'] sentences, the summary for
    [K] is a suffix of the summary for [K']. *)
Theorem summarize_text_suffix (text : str) (K K' : Z) (summary summary' : str) :
  (0 < K ≤ K')%Z → (K' < Z.of_nat (length (sent_tokenize text)))%Z →
  summarize_text text K = Ok summary →
  summarize_text text K' = Ok summary' →
  summary `suffix_of` summary'.
Proof.
  intros HK HK' Hrun Hrun'.
  destruct (summary_indices text K summary) as (Hlen & ranked & -> & Hr);
    [lia | exact Hrun |].
  destruct (summary_indices text K' summary') as (_ & ranked' & -> & Hr');
    [lia | exact Hrun' |].
  rewrite (slice_from_drop K K') in Hr
    by (rewrite ?argsort_length, ?Hlen; lia).
  rewrite (lookups_functional _ _ _ _ Hr (Forall2_drop _ _ _ _ Hr')).
  apply str_join_suffix.
Qed.
End summary_facts.

(** ** The MongoDB summary *)

Lemma server_request_world (st st1 : state) (r : result unit) :
  server_request st = (r, st1) →
  collection st1 = collection st ∧ stdout st1 = stdout st ∧ fs st1 = fs st ∧
  report_data st1 = report_data st ∧ log st1 = log st.
Proof.
  unfold server_request. destruct (mongo_faults st) as [|[e|] faults];
    intros [= <- <-]; by repeat split.
Qed.

Lemma server_request_up (st : state) :
  mongo_faults st = [] → server_request st = (Ok (), st).
Proof. intros Hup. unfold server_request. by rewrite Hup. Qed.

(** The summary when the server answers its two queries. *)
Lemma display_mongo_summary_answered (st st1 st2 : state) :
  server_request st = (Ok (), st1) → server_request st1 = (Ok (), st2) →
  display_mongo_summary st
  = (Ok (), set_stdout (stdout st2 ++ summary_lines (collection st2)) st2).
Proof.
  intros H1 H2.
  destruct (server_request_world _ _ _ H2) as (Hc & _).
  unfold display_mongo_summary, count_documents, aggregate_avg_size, stored_documents.
  unfold print, mret, M_ret.
  repeat first [rewrite M_bind_unfold | rewrite H1 | rewrite H2 | progress cbv beta iota
               | progress printable_literals].
  rewrite <- Hc.
  destruct (collection st2) as [|d docs].
  - cbn [avg_size_groups for_each]. unfold mret, M_ret. cbv beta iota.
    printable_literals.
    unfold summary_lines, set_stdout. cbn [stdout report_data fs collection mongo_faults log].
    rewrite <- !(assoc_L (++)). reflexivity.
  - cbn [avg_size_groups for_each]. rewrite !M_bind_unfold. unfold lift, truediv.
    cbn [number_value]. change (Qeq_bool (inject_Z 1024) 0) with false. cbv iota.
    unfold mret, M_ret. cbv beta iota. printable_literals.
    unfold summary_lines, set_stdout. cbn [stdout report_data fs collection mongo_faults log].
    rewrite <- !(assoc_L (++)). reflexivity.
Qed.

(** The summary when the server refuses one of its two queries. *)
Lemma display_mongo_summary_unanswered (st st1 : state) (e : exn) :
  server_request st = (Raise e, st1) ∨
  (∃ st0, server_request st = (Ok (), st0) ∧ server_request st0 = (Raise e, st1)) →
  display_mongo_summary st = (Raise e, st1).
Proof.
  unfold display_mongo_summary, count_documents, aggregate_avg_size, stored_documents.
  unfold mret, M_ret.
  intros [H1|(st0 & H1 & H2)];
    repeat first [rewrite M_bind_unfold | rewrite H1 | rewrite H2 | progress cbv beta iota];
    reflexivity.
Qed.

(** Either way the summary only adds lines to the output, and it writes
    nothing else but for taking the answers of the server. *)
Lemma display_mongo_summary_world (st : state) :
  ∃ (r : result unit) (st' : state) (rest : list fstring),
    display_mongo_summary st = (r, st') ∧
    stdout st' = stdout st ++ rest ∧ fs st' = fs st ∧ collection st' = collection st ∧
    (mongo_faults st = [] → r = Ok () ∧ rest = summary_lines (collection st)).
Proof.
  destruct (server_request st) as [[[]|e] st1] eqn:H1.
  - destruct (server_request st1) as [[[]|e] st2] eqn:H2.
    + destruct (server_request_world _ _ _ H1) as (Hc1 & Ho1 & Hf1 & _).
      destruct (server_request_world _ _ _ H2) as (Hc2 & Ho2 & Hf2 & _).
      exists (Ok ()), (set_stdout (stdout st2 ++ summary_lines (collection st2)) st2),
        (summary_lines (collection st)).
      split; [by apply (display_mongo_summary_answered st st1 st2)|].
      cbn [stdout fs collection set_stdout]. rewrite Hc2, Hc1, Ho2, Ho1, Hf2, Hf1.
      by repeat split.
    + destruct (server_request_world _ _ _ H1) as (Hc1 & Ho1 & Hf1 & _).
      destruct (server_request_world _ _ _ H2) as (Hc2 & Ho2 & Hf2 & _).
      exists (Raise e), st2, [].
      split; [apply display_mongo_summary_unanswered; right; by exists st1|].
      rewrite app_nil_r, Hc2, Hc1, Ho2, Ho1, Hf2, Hf1. split_and!; try done.
      intros Hup. rewrite (server_request_up st Hup) in H1. injection H1 as <-.
      rewrite (server_request_up st Hup) in H2. discriminate.
  - destruct (server_request_world _ _ _ H1) as (Hc1 & Ho1 & Hf1 & _).
    exists (Raise e), st1, [].
    split; [apply display_mongo_summary_unanswered; by left|].
    rewrite app_nil_r, Hc1, Ho1, Hf1. split_and!; try done.
    intros Hup. rewrite (server_request_up st Hup) in H1. discriminate.
Qed.

(** The summary tells what the collection holds.  When the server answers
    the two queries, [display_mongo_summary] returns and prints the number
    of documents of the collection and the average of their sizes in KB,
    between its two rules; for an empty collection it prints no average
    line, and nothing is divided by zero.  Nothing else changes but for
    the two answers taken from the server. *)
Theorem display_mongo_summary_prints (st : state) :
  (∀ e, Some e ∉ take 2 (mongo_faults st)) →
  display_mongo_summary st
  = (Ok (), set_stdout (stdout st ++ summary_lines (collection st))
              (set_mongo_faults (drop 2 (mongo_faults st)) st)).
Proof.
  intros Hup. destruct st as [data files docs faults lg out].
  cbn [mongo_faults stdout collection] in *.
  destruct faults as [|[e|] faults].
  - etrans; [eapply display_mongo_summary_answered; reflexivity | reflexivity].
  - destruct (Hup e). by left.
  - destruct faults as [|[e|] faults].
    + etrans; [eapply display_mongo_summary_answered; reflexivity | reflexivity].
    + destruct (Hup e). right. by left.
    + etrans; [eapply display_mongo_summary_answered; reflexivity | reflexivity].
Qed.

(** A query the server refuses ends the summary with the exception of
    the server, and with no line printed: both queries are sent before the
    first line. *)
Theorem display_mongo_summary_refused (st : state) (e : exn)
    (faults : list (option exn)) :
  mongo_faults st = Some e :: faults ∨ mongo_faults st = None :: Some e :: faults →
  display_mongo_summary st = (Raise e, set_mongo_faults faults st).
Proof.
  intros Hdown. apply display_mongo_summary_unanswered.
  unfold server_request. destruct Hdown as [->| ->].
  - by left.
  - right. eexists. split; [reflexivity|]. by cbn.
Qed.

(** ** The script *)

Section script_facts.
Context `{Unicode, NLTK, Numpy}.

Lemma generate_report_outside : steps same_outside generate_report.
Proof.
  intros st. destruct (generate_report_prints st) as (st' & -> & _ & _ & Hf & _ & Hm & _).
  by apply same_outside_same.
Qed.

(** A run never writes the file system and only takes answers of the
    server. *)
Lemma process_all_pdfs_outside (sched : nat → nat) (pdf_dir : str) :
  steps same_outside (process_all_pdfs sched pdf_dir).
Proof.
  unfold process_all_pdfs.
  apply steps_bind; [apply _ | by intros st |].
  intros [|]; cbn [negb]; [|apply print_outside].
  apply steps_bind; [apply _ | |].
  { intros st. apply same_outside_same; unfold list_pdfs, os_listdir;
      rewrite M_bind_unfold; by destruct (fs st !! pdf_dir) as [[]|]. }
  intros pdf_files.
  apply steps_bind; [apply _ | | intros _; apply generate_report_outside].
  intros st. unfold pool_map. apply steps_pool_run; [apply _ | | apply process_pdf_outside].
  intros d st0. by apply same_outside_same.
Qed.

(** The script on a missing directory.  When [PDF_Folder_Path] does not
    exist the script prints that the directory does not exist and the
    time, then the summary, and ends with an exception that nothing
    catches: the second [list_pdfs] has no test of existence, so
    [os.listdir] raises (or a query of the summary did before it).  The
    statement [client.close()] is not reached. *)
Theorem main_missing_directory (repr : list str → str) (sched : nat → nat)
    (start_time end_time : Q) (st : state) :
  fs st !! py "PDF_Folder_Path" = None →
  ∃ (e : exn) (st' : state) (rest : list fstring),
    main repr sched start_time end_time st = (Raise e, st', false) ∧
    stdout st' = stdout st ++ [missing_line (py "PDF_Folder_Path");
                               timing_line start_time end_time] ++ rest ∧
    collection st' = collection st ∧
    (mongo_faults st = [] →
     e = OSError (py "No such file or directory") ∧ rest = summary_lines (collection st)).
Proof.
  intros Hnone. unfold main, main_statements.
  set (st2 := set_stdout ((stdout st ++ [missing_line (py "PDF_Folder_Path")])
                          ++ [timing_line start_time end_time]) st).
  assert (Hrun : process_all_pdfs sched (py "PDF_Folder_Path") st
                 = (Ok (), set_stdout (stdout st ++ [missing_line (py "PDF_Folder_Path")]) st)).
  { unfold process_all_pdfs, os_path_exists. rewrite M_bind_unfold.
    rewrite Hnone, bool_decide_eq_false_2 by (by intros [? ?]). cbn [negb].
    by apply (print_ok (missing_line (py "PDF_Folder_Path"))). }
  rewrite (M_bind_ok _ _ _ _ _ Hrun).
  rewrite (M_bind_ok _ _ _ () st2)
    by (by apply (print_ok (timing_line start_time end_time))).
  destruct (display_mongo_summary_world st2) as (r & st3 & rest & Hsum & Ho & Hf & Hc & Hup).
  rewrite M_bind_unfold, Hsum.
  destruct r as [[]|e].
  - unfold list_pdfs, os_listdir. rewrite !M_bind_unfold, Hf.
    change (fs st2) with (fs st). rewrite Hnone.
    exists (OSError (py "No such file or directory")), st3, rest.
    split; [reflexivity|]. split; [|split].
    + rewrite Ho. unfold st2. cbn [stdout set_stdout]. by rewrite <- !(assoc_L (++)).
    + by rewrite Hc.
    + intros Hm. split; [reflexivity|]. by destruct (Hup Hm).
  - exists e, st3, rest. split; [reflexivity|]. split; [|split].
    + rewrite Ho. unfold st2. cbn [stdout set_stdout]. by rewrite <- !(assoc_L (++)).
    + by rewrite Hc.
    + intros Hm. by destruct (Hup Hm).
Qed.

(** The script on a directory.  When [PDF_Folder_Path] is a directory
    whose entries standard output can encode and the server has no
    fault, the script returns and closes the client.  Its output ends with
    the time, the summary of the collection as the run left it, and the
    list of the entries that end in [.pdf].  The collection holds what it
    held before and records of these entries only, none twice: the file
    names of the new records are names of these entries, each at most as
    often as the listing has it, and the path of each is the directory
    joined with its file name.  ([repr] escapes what cannot be encoded;
    the entries of a listing hold no slash.) *)
Theorem main_on_directory (repr : list str → str) (sched : nat → nat)
    (start_time end_time : Q) (st : state) (sz : Z) (entries : list str) :
  fs st !! py "PDF_Folder_Path" = Some (Dir sz entries) →
  mongo_faults st = [] →
  Forall (λ f, 47%N ∉ f) entries →
  Forall (λ f, encodable f = true) entries →
  encodable (repr (List.filter (λ f, endswith f (py ".pdf")) entries)) = true →
  ∃ (st' : state) (before : list fstring) (new : list document),
    main repr sched start_time end_time st = (Ok (), st', true) ∧
    collection st' = collection st ++ new ∧
    filename <$> new ⊆+ List.filter (λ f, endswith f (py ".pdf")) entries ∧
    Forall (λ d, path d = os_path_join (py "PDF_Folder_Path") (filename d)) new ∧
    stdout st' = before ++ [timing_line start_time end_time]
                 ++ summary_lines (collection st')
                 ++ [found_line repr (List.filter (λ f, endswith f (py ".pdf")) entries)].
Proof.
  intros Hdir Hup Hslash Hentries Hrepr. unfold main, main_statements.
  assert (Hfaults : printable_faults st).
  { intros e He. rewrite Hup in He. by apply elem_of_nil in He. }
  destruct (process_all_pdfs_directory_run sched _ st sz entries Hdir eq_refl
              Hentries Hfaults) as (st0 & st1 & _ & _ & Hrun).
  destruct (process_all_pdfs_records sched _ st sz entries Hdir Hslash)
    as (new & Hc1 & Hsub & Hall).
  pose proof (process_all_pdfs_outside sched (py "PDF_Folder_Path") st) as [Hf1 Hm1].
  rewrite Hrun in Hc1, Hf1, Hm1. cbn [snd] in Hc1, Hf1, Hm1.
  rewrite Hup in Hm1. apply suffix_nil_inv in Hm1.
  rewrite (M_bind_ok _ _ _ _ _ Hrun).
  set (st2 := set_stdout (stdout st1 ++ [timing_line start_time end_time]) st1).
  rewrite (M_bind_ok _ _ _ () st2)
    by (by apply (print_ok (timing_line start_time end_time))).
  destruct (display_mongo_summary_world st2) as (r & st3 & rest & Hsum & Ho & Hf & Hc & Hsum').
  destruct (Hsum' Hm1) as [-> ->].
  rewrite (M_bind_ok _ _ _ _ _ Hsum).
  unfold list_pdfs, os_listdir. rewrite !M_bind_unfold, Hf.
  change (fs st2) with (fs st1). rewrite Hf1, Hdir. cbv beta iota.
  unfold mret, M_ret. cbv beta iota.
  set (pdf_files := List.filter (λ f, endswith f (py ".pdf")) entries) in *.
  rewrite (print_ok (found_line repr pdf_files))
    by (unfold found_line, printable; cbn [forallb];
        by rewrite encodable_app, Hrepr).
  eexists _, (stdout st1), new. split; [reflexivity|].
  cbn [collection stdout set_stdout]. rewrite Hc, Ho.
  change (collection st2) with (collection st1). split; [exact Hc1|].
  split; [by apply sublist_submseteq|]. split; [exact Hall|].
  unfold st2. cbn [stdout set_stdout]. by rewrite <- !(assoc_L (++)).
Qed.
End script_facts.

(** ** [store_pdf_metadata] *)


(** ** The statements at concrete inputs *)

Lemma process_all_pdfs_missing_directory_witness :
  process_all_pdfs id (py "missing") one_pdf
  = (Ok (), set_stdout (stdout one_pdf ++ [[Lit (py "Directory does not exist: " ++ py "missing")]])
              one_pdf).
Proof.
  apply (process_all_pdfs_missing_directory id (py "missing") one_pdf).
  - vm_compute. reflexivity.
  - reflexivity.
Defined.

Lemma process_all_pdfs_on_a_file_witness :
  process_all_pdfs id (py "docs/a.pdf") one_pdf
  = (Raise (OSError (py "Not a directory")), one_pdf).
Proof.
  apply (process_all_pdfs_on_a_file id (py "docs/a.pdf") one_pdf 100
           (Ok [Ok (py "Formal proofs check programs.")])).
  vm_compute. reflexivity.
Defined.

Lemma process_all_pdfs_no_candidates_witness :
  process_all_pdfs id (py "notes") text_only = generate_report text_only ∧
  collection (snd (process_all_pdfs id (py "notes") text_only)) = collection text_only ∧
  log (snd (process_all_pdfs id (py "notes") text_only)) = log text_only.
Proof.
  apply (process_all_pdfs_no_candidates id (py "notes") text_only 4096
           [py "notes.txt"; py "todo.md"]).
  - vm_compute. reflexivity.
  - apply Forall_forall. intros f Hf. apply list_elem_of_In in Hf.
    destruct Hf as [<-|[<-|[]]]; intros Hs; apply (bool_decide_pack _) in Hs;
      vm_compute in Hs; exact Hs.
Defined.

Lemma process_pdf_store_agrees_with_count_witness :
  let st' := snd (process_pdf (py "docs/a.pdf") one_pdf) in
  (∃ d : document,
     collection st' = collection one_pdf ++ [d] ∧ path d = py "docs/a.pdf" ∧
     counter (py "processed_files") st' = (counter (py "processed_files") one_pdf + 1)%Z ∧
     counter (py "total_size") st' = (counter (py "total_size") one_pdf + size d)%Z ∧
     counter (py "failed_files") st' = counter (py "failed_files") one_pdf) ∨
  (collection st' = collection one_pdf ∧
   counter (py "processed_files") st' = counter (py "processed_files") one_pdf ∧
   counter (py "total_size") st' = counter (py "total_size") one_pdf ∧
   counter (py "failed_files") st' = (counter (py "failed_files") one_pdf + 1)%Z).
Proof.
  apply (process_pdf_store_agrees_with_count (py "docs/a.pdf") one_pdf).
  reflexivity.
Defined.



Lemma process_pdf_unreadable_witness :
  ∃ st',
    process_pdf (py "docs/notes.txt") one_pdf = (Ok (), st') ∧
    collection st' = [] ∧ length (log st') = 2 ∧
    counter (py "failed_files") st' = 1%Z.
Proof.
  destruct (process_pdf_unreadable (py "docs/notes.txt") one_pdf
              (LibraryError (py "EOF marker not found")))
    as (st' & Hrun & Hc & _ & Hl & _ & Hf & _).
  - vm_compute. reflexivity.
  - reflexivity.
  - exists st'. split; [exact Hrun|]. split; [exact Hc|]. split; [|exact Hf].
    rewrite Hl. reflexivity.
Defined.

Lemma process_pdf_without_text_witness :
  ∃ st',
    process_pdf (py "b.pdf") blank_pdf = (Ok (), st') ∧
    collection st' = [] ∧
    log st' = [processing_error (py "b.pdf") empty_content] ∧
    counter (py "failed_files") st' = 1%Z.
Proof.
  destruct (process_pdf_without_text (py "b.pdf") blank_pdf 5 [py "  "])
    as (st' & Hrun & Hc & Hl & _ & Hf & _).
  - reflexivity.
  - vm_compute. reflexivity.
  - apply Forall_forall. intros t Ht. apply list_elem_of_In in Ht.
    destruct Ht as [<-|[]]. intros c Hc. apply list_elem_of_In in Hc.
    destruct Hc as [<-|[<-|[]]]; reflexivity.
  - reflexivity.
  - exists st'. split; [exact Hrun|]. split; [exact Hc|]. split; [exact Hl | exact Hf].
Defined.

Lemma process_pdf_insert_refused_witness :
  ∃ st',
    process_pdf (py "docs/a.pdf") one_pdf_server_down = (Ok (), st') ∧
    collection st' = [] ∧ mongo_faults st' = [] ∧
    stdout st'
    = [processing_error (py "docs/a.pdf") (LibraryError (py "connection refused"))] ∧
    counter (py "failed_files") st' = 1%Z ∧
    counter (py "processed_files") st' = 0%Z.
Proof.
  destruct (process_pdf_insert_refused (py "docs/a.pdf") one_pdf_server_down 100
              [py "Formal proofs check programs."]
              (py "Formal proofs check programs.")
              [py "proofs"; py "programs"; py "formal"; py "check"]
              (LibraryError (py "connection refused")) [])
    as (st' & Hrun & Hc & Hm & _ & Ho & Hf & Hp & _).
  - vm_compute. reflexivity.
  - vm_compute. discriminate.
  - vm_compute. reflexivity.
  - vm_compute. reflexivity.
  - reflexivity.
  - reflexivity.
  - reflexivity.
  - exists st'. split; [exact Hrun|]. split; [exact Hc|]. split; [exact Hm|].
    split; [exact Ho|]. split; [exact Hf | exact Hp].
Defined.


Lemma process_all_pdfs_reports_old_counters_witness :
  ∃ (st' : state) (before : list fstring),
    process_all_pdfs id (py "docs") one_pdf = (Ok (), st') ∧
    counter (py "processed_files") st' = 0%Z ∧
    stdout st' = before ++ report_lines 0 0 0 (PyInt 0).
Proof.
  destruct (process_all_pdfs_reports_old_counters id (py "docs") one_pdf 4096
              [py "a.pdf"; py "notes.txt"])
    as (st' & before & Hrun & Hk & Hout).
  - vm_compute. reflexivity.
  - reflexivity.
  - apply Forall_forall. intros f Hf. apply list_elem_of_In in Hf.
    destruct Hf as [<-|[<-|[]]]; reflexivity.
  - intros e He. by apply elem_of_nil in He.
  - exists st', before. split; [exact Hrun|]. split; [by rewrite Hk | exact Hout].
Defined.

Lemma extract_keywords_distinct_count_witness :
  let text := py "banana apple apple" in
  extract_keywords text 5 = Ok [py "apple"; py "banana"] ∧
  NoDup [py "apple"; py "banana"] ∧
  Forall (λ k, k ∈ corpus_tokens text) [py "apple"; py "banana"] ∧
  length [py "apple"; py "banana"]
  = first_count (length (build_vocabulary [corpus_tokens text])) 5.
Proof.
  intros text.
  assert (Hrun : extract_keywords text 5 = Ok [py "apple"; py "banana"])
    by (vm_compute; reflexivity).
  split; [exact Hrun|].
  apply (extract_keywords_distinct_count text 5 [py "apple"; py "banana"] Hrun).
Defined.

Lemma extract_keywords_two_characters_witness :
  let text := py "x banana apple apple" in
  extract_keywords text 5 = Ok [py "apple"; py "banana"] ∧
  Forall (λ k, 2 ≤ length k ∧ Forall (λ c, isword c = true) k) [py "apple"; py "banana"].
Proof.
  intros text.
  assert (Hrun : extract_keywords text 5 = Ok [py "apple"; py "banana"])
    by (vm_compute; reflexivity).
  split; [exact Hrun|].
  apply (extract_keywords_two_characters text 5 [py "apple"; py "banana"] Hrun).
Defined.

Lemma extract_keywords_prefix_witness :
  let text := py "banana apple apple" in
  extract_keywords text 1 = Ok (take (Z.to_nat 1) [py "apple"; py "banana"]).
Proof.
  intros text.
  apply (extract_keywords_prefix text 1 5 [py "apple"; py "banana"]).
  - lia.
  - vm_compute. reflexivity.
Defined.

Lemma summarize_text_selects_sentences_witness :
  let text :=
    py "The cat sat. The dog ran fast today. Birds fly. Fish swim in the deep sea." in
  ∃ (summary : str) (top : list nat) (ranked : list str),
    summarize_text text 3 = Ok summary ∧
    summary = str_join (py " ") ranked ∧
    Forall2 (λ i s, sent_tokenize text !! i = Some s) top ranked ∧
    NoDup top ∧ length top = 3.
Proof.
  intros text. eexists.
  assert (Hrun : summarize_text text 3 = Ok ?[summary]) by (vm_compute; reflexivity).
  destruct (summarize_text_selects_sentences text 3 _ Hrun)
    as (top & ranked & Hs & Hr & Hnd & Hlen).
  exists top, ranked. split; [exact Hrun|]. split; [exact Hs|]. split; [exact Hr|].
  split; [exact Hnd | exact Hlen].
Defined.

Lemma summarize_text_suffix_witness :
  let text :=
    py "The cat sat. The dog ran fast today. Birds fly. Fish swim in the deep sea." in
  ∃ summary summary' : str,
    summarize_text text 2 = Ok summary ∧
    summarize_text text 3 = Ok summary' ∧
    summary `suffix_of` summary'.
Proof.
  intros text. eexists _, _.
  split; [vm_compute; reflexivity|]. split; [vm_compute; reflexivity|].
  apply (summarize_text_suffix text 2 3).
  - lia.
  - vm_compute. reflexivity.
  - vm_compute. reflexivity.
  - vm_compute. reflexivity.
Defined.

Lemma display_mongo_summary_prints_witness :
  display_mongo_summary two_stored
  = (Ok (), set_stdout (stdout two_stored ++ summary_lines (collection two_stored))
              (set_mongo_faults (drop 2 (mongo_faults two_stored)) two_stored)).
Proof.
  apply (display_mongo_summary_prints two_stored).
  intros e He. by apply elem_of_nil in He.
Defined.

Lemma display_mongo_summary_refused_witness :
  display_mongo_summary one_pdf_server_down
  = (Raise (LibraryError (py "connection refused")),
     set_mongo_faults [] one_pdf_server_down).
Proof.
  apply (display_mongo_summary_refused one_pdf_server_down
           (LibraryError (py "connection refused")) []).
  left. reflexivity.
Defined.

Lemma main_missing_directory_witness :
  ∃ st' : state,
    main simple_repr id 0 1 one_pdf
    = (Raise (OSError (py "No such file or directory")), st', false) ∧
    stdout st'
    = [missing_line (py "PDF_Folder_Path"); timing_line 0 1] ++ summary_lines [].
Proof.
  destruct (main_missing_directory simple_repr id 0 1 one_pdf)
    as (e & st' & rest & Hrun & Hout & _ & Hup).
  - vm_compute. reflexivity.
  - destruct Hup as [-> ->]; [reflexivity|]. exists st'. split; [exact Hrun | exact Hout].
Defined.

Lemma main_on_directory_witness :
  ∃ (st' : state) (before : list fstring) (new : list document),
    main simple_repr id 0 1 script_folder = (Ok (), st', true) ∧
    collection st' = new ∧ filename <$> new ⊆+ [py "a.pdf"] ∧
    stdout st' = before ++ [timing_line 0 1] ++ summary_lines new
                 ++ [found_line simple_repr [py "a.pdf"]].
Proof.
  destruct (main_on_directory simple_repr id 0 1 script_folder 4096 [py "a.pdf"])
    as (st' & before & new & Hrun & Hc & Hsub & _ & Hout).
  - vm_compute. reflexivity.
  - reflexivity.
  - apply Forall_forall. intros f Hf. apply list_elem_of_In in Hf.
    destruct Hf as [<-|[]]. intros Hin. apply list_elem_of_In in Hin.
    vm_compute in Hin. intuition discriminate.
  - apply Forall_forall. intros f Hf. apply list_elem_of_In in Hf.
    destruct Hf as [<-|[]]. reflexivity.
  - reflexivity.
  - exists st', before, new. split; [exact Hrun|]. split; [exact Hc|].
    split; [exact Hsub|]. rewrite Hout, Hc. reflexivity.
Defined.
